(** * arabic-did: the training script [train.py]

    A shallow embedding of [train.py]: the optimizer group builder
    [get_optimizers], the cached data loaders, [training_step], the
    single-config loop [normal_training] and the search orchestrator
    [tune_training], together with the properties of the specification
    that concern them.

    Python integers are [Z]; a quotient of two integers and a float
    setting are a [Q]; names and paths are [string]; a text whose
    characters matter is the list of its code points; a tensor is the
    nested list of its rows, a 3-d tensor carrying the size of its last
    dimension; a dictionary with a fixed set of keys (the configuration)
    is a record.  Calls into torch, comet_ml and ray are effects: they
    are recorded, in order, in the log of the state they act on. *)

From Stdlib Require Import String Ascii NArith ZArith QArith Bool Lia Permutation List.
Import ListNotations.
Close Scope Q_scope.

(** ** Python values and exceptions *)

Module Py.

Inductive exn : Type :=
| NotImplementedError
| ValueError
| ZeroDivisionError
| IndexError
| RuntimeError
| FileNotFoundError
| TuneError.

Inductive result (A : Type) : Type :=
| Ok (a : A)
| Raise (e : exn).

Arguments Ok {A} a.
Arguments Raise {A} e.

(** A sequence value: the script returns a list on one path and a
    tuple on another; both are iterated the same way. *)
Inductive pyseq (A : Type) : Type :=
| PyList (l : list A)
| PyTuple (l : list A).

Arguments PyList {A} l.
Arguments PyTuple {A} l.

Definition items {A} (s : pyseq A) : list A :=
  match s with PyList l => l | PyTuple l => l end.

(** [a % b] on integers. *)
Definition mod_ (a b : Z) : result Z :=
  if (b =? 0)%Z then Raise ZeroDivisionError else Ok (a mod b)%Z.

(** [a / b] on integers: true division. *)
Definition truediv (a b : Z) : result Q :=
  if (b =? 0)%Z then Raise ZeroDivisionError
  else Ok (inject_Z a / inject_Z b)%Q.

(** [range(n)] *)
Definition range (n : Z) : list Z :=
  map Z.of_nat (seq 0 (Z.to_nat n)).

(** A [str] whose characters matter one by one: the sequence of its
    code points. *)
Definition pystr : Type := list N.

(** The [str] of an ASCII literal. *)
Definition codepoints (s : string) : pystr :=
  map N_of_ascii (list_ascii_of_string s).

(** The characters [str.rstrip()] drops: the code points Python takes
    for whitespace (U+0009 to U+000D, U+001C to U+0020, U+0085, U+00A0,
    U+1680, U+2000 to U+200A, U+2028, U+2029, U+202F, U+205F, U+3000). *)
Definition is_space (c : N) : bool :=
  ((9 <=? c) && (c <=? 13) || (28 <=? c) && (c <=? 32) ||
   (c =? 133) || (c =? 160) || (c =? 5760) ||
   (8192 <=? c) && (c <=? 8202) || (c =? 8232) || (c =? 8233) ||
   (c =? 8239) || (c =? 8287) || (c =? 12288))%N.

(** [s.rstrip()]: the whitespace at the end of [s] is dropped. *)
Fixpoint rstrip (s : pystr) : pystr :=
  match s with
  | [] => []
  | c :: r =>
      match rstrip r with
      | [] => if is_space c then [] else [c]
      | r' => c :: r'
      end
  end.

(** *** Effects

    A computation acts on a state [S] and returns a value or raises.
    What it did to the state before raising stays done. *)
Definition M (S A : Type) : Type := S -> result A * S.

Definition ret {S A} (a : A) : M S A := fun s => (Ok a, s).

Definition bind {S A B} (m : M S A) (k : A -> M S B) : M S B :=
  fun s =>
    match m s with
    | (Ok a, s') => k a s'
    | (Raise e, s') => (Raise e, s')
    end.

Definition raise {S A} (e : exn) : M S A := fun s => (Raise e, s).

(** A pure computation that may raise. *)
Definition lift {S A} (r : result A) : M S A := fun s => (r, s).

Definition get {S} : M S S := fun s => (Ok s, s).

Definition modify {S} (f : S -> S) : M S unit := fun s => (Ok tt, f s).

(** [try: body  except: handler] with a bare [except]. *)
Definition try_except {S A} (body handler : M S A) : M S A :=
  fun s =>
    match body s with
    | (Ok a, s') => (Ok a, s')
    | (Raise _, s') => handler s'
    end.

(** [for x in l: body(x)], also the list comprehension evaluated for
    its effects. *)
Fixpoint for_each {S A} (l : list A) (body : A -> M S unit) : M S unit :=
  match l with
  | [] => ret tt
  | x :: r => bind (body x) (fun _ => for_each r body)
  end.

Declare Scope py_scope.
Delimit Scope py_scope with py.
Notation "x <- m ;; k" := (bind m (fun x => k))
  (at level 61, m at next level, right associativity) : py_scope.
Notation "' p <- m ;; k" := (bind m (fun p => k))
  (at level 61, p pattern, m at next level, right associativity) : py_scope.
Notation "m ;; k" := (bind m (fun _ => k))
  (at level 61, right associativity) : py_scope.

End Py.
Import Py.

(** ** The configuration: [config.default_config] and its groups *)

Module Config.

Record optimizer_group : Type := {
  name : string;
  lr : Q;
  betas : Q * Q;
  eps : Q }.

Record training_group : Type := {
  train_batch_size : Z;
  n_train_workers : Z;
  training_epochs : Z;
  log_every_n_batches : Z;
  eval_every_n_batches : Z }.

Record evaluation_group : Type := {
  eval_batch_size : Z;
  n_eval_workers : Z }.

Record tune_group : Type := {
  tuning_method : string;
  max_t : Z;
  discriminating_metric : string;
  discriminating_metric_mode : string;
  resources_per_trial : Z;
  working_dir : string;
  resume : bool;
  n_samples : nat }.

Record config : Type := {
  device : string;
  experiment_name : string;
  comet_project_name : string;
  comet_api_key_file_path : string;
  optimizer : optimizer_group;
  training : training_group;
  evaluation : evaluation_group;
  tune : tune_group }.


(** The tuning methods [tune_training] knows. *)
Definition supported_method (m : string) : bool :=
  String.eqb m "bohb" || String.eqb m "hyperopt" || String.eqb m "no_search".

End Config.
Import Config.

(** ** 4.2 Optimizer group builder: [get_optimizers] *)

Module Optim.

(** A parameter tensor, known by its identity. *)
Definition param : Type := nat.

(** What [get_optimizers] uses of a model: its parameters and the two
    methods that list the dense and the sparse ones. *)
Record Model : Type := {
  parameters : list param;
  get_non_sparse_parameters : list param;
  get_sparse_parameters : list param }.

(** Modelled from the spec: the model class lives in [models.py], which
    is not part of the sources at hand.  "Model: owns learnable
    parameters, partitioned into disjoint dense and sparse subsets." *)
Definition model_partitioned (m : Model) : Prop :=
  NoDup (parameters m) /\
  Permutation (get_non_sparse_parameters m ++ get_sparse_parameters m)
              (parameters m).

Inductive Optimizer : Type :=
| Adam (params : list param) (lr : Q) (betas : Q * Q) (eps : Q)
| SparseAdam (params : list param) (lr : Q) (betas : Q * Q) (eps : Q).

Definition bound_params (o : Optimizer) : list param :=
  match o with
  | Adam ps _ _ _ => ps
  | SparseAdam ps _ _ _ => ps
  end.

(** [a < b] on floats that are numbers. *)
Definition Qlt_bool (a b : Q) : bool := negb (Qle_bool b a).

(** [0.0 <= b < 1.0] *)
Definition beta_ok (b : Q) : bool := Qle_bool 0 b && Qlt_bool b 1.

(** [torch.optim.Adam(params, lr, betas, eps)]: the constructor checks
    its settings ([0.0 <= lr], [0.0 <= eps], [0.0 <= beta < 1.0] for
    both betas), and [torch.optim.Optimizer.__init__] then refuses an
    empty parameter list ("optimizer got an empty parameter list");
    each refusal is a ValueError. *)
Definition optim_Adam (ps : list param) (l : Q) (b : Q * Q) (e : Q)
  : result Optimizer :=
  if negb (Qle_bool 0 l) then Raise ValueError
  else if negb (Qle_bool 0 e) then Raise ValueError
  else if negb (beta_ok (fst b)) then Raise ValueError
  else if negb (beta_ok (snd b)) then Raise ValueError
  else match ps with
       | [] => Raise ValueError
       | _ :: _ => Ok (Adam ps l b e)
       end.

(** [torch.optim.SparseAdam(params, lr, betas, eps)]: as [Adam], but
    the learning rate and eps must be positive ([0.0 < lr],
    [0.0 < eps]). *)
Definition optim_SparseAdam (ps : list param) (l : Q) (b : Q * Q) (e : Q)
  : result Optimizer :=
  if negb (Qlt_bool 0 l) then Raise ValueError
  else if negb (Qlt_bool 0 e) then Raise ValueError
  else if negb (beta_ok (fst b)) then Raise ValueError
  else if negb (beta_ok (snd b)) then Raise ValueError
  else match ps with
       | [] => Raise ValueError
       | _ :: _ => Ok (SparseAdam ps l b e)
       end.

(** Settings that both constructors accept: a positive learning rate, a
    positive eps, and betas in [0, 1). *)
Definition settings_accepted (oc : optimizer_group) : Prop :=
  (0 < lr oc)%Q /\ (0 < eps oc)%Q /\
  (0 <= fst (betas oc))%Q /\ (fst (betas oc) < 1)%Q /\
  (0 <= snd (betas oc))%Q /\ (snd (betas oc) < 1)%Q.

Definition get_optimizers (model : Model) (cfg : config)
  : result (pyseq Optimizer) :=
  let oc := optimizer cfg in
  if String.eqb (name oc) "adam" then
    match optim_Adam (get_non_sparse_parameters model)
                     (lr oc) (betas oc) (eps oc) with
    | Raise e => Raise e
    | Ok non_sparse =>
        let sparse_params := get_sparse_parameters model in
        if Nat.eqb (length sparse_params) 0 then Ok (PyList [non_sparse])
        else
          match optim_SparseAdam (get_sparse_parameters model)
                                 (lr oc) (betas oc) (eps oc) with
          | Raise e => Raise e
          | Ok sparse => Ok (PyTuple [non_sparse; sparse])
          end
    end
  else Raise NotImplementedError.

(** The number of non-empty subsets among (dense, sparse). *)
Definition nonempty_subsets (m : Model) : nat :=
  (match get_non_sparse_parameters m with [] => 0 | _ :: _ => 1 end) +
  (match get_sparse_parameters m with [] => 0 | _ :: _ => 1 end).

(** All parameters bound by the optimizers of a group, in order. *)
Definition group_params (g : pyseq Optimizer) : list param :=
  concat (map bound_params (items g)).

End Optim.
Import Optim.

(** ** Tensors

    A 1-d or 2-d tensor is the nested list of its rows.  A
    (steps, batch, classes) tensor is a list of [steps] matrices of
    [batch] rows of [classes] scores, together with the size of its last
    dimension, which the rows do not tell when there is none.  Shapes
    are stated where they matter with [has_shape]. *)

Module Tensor.

Record tensor3 (A : Type) : Type := {
  classes_of : nat;
  steps_of : list (list (list A)) }.

Arguments Build_tensor3 {A} classes_of steps_of.
Arguments classes_of {A} t.
Arguments steps_of {A} t.

Definition has_shape {A} (t : tensor3 A) (steps batch classes : nat) : Prop :=
  classes_of t = classes /\
  length (steps_of t) = steps /\
  Forall (fun m => length m = batch /\
                   Forall (fun row => length row = classes) m) (steps_of t).

(** [t.size()[0]] *)
Definition size0 {A} (t : tensor3 A) : nat := length (steps_of t).

(** [t.size()[2]] *)
Definition size2 {A} (t : tensor3 A) : nat := classes_of t.

(** [t[-1, :, :]] *)
Definition select_last {A} (t : tensor3 A) : result (list (list A)) :=
  match rev (steps_of t) with
  | [] => Raise IndexError
  | m :: _ => Ok m
  end.

(** [t.nelement()] *)
Definition nelement {A} (t : list A) : Z := Z.of_nat (length t).

(** Rows of [n] consecutive elements, the last one shorter when the
    elements run out: a buffer is filled and handed over when full. *)
Fixpoint rows_of {A} (n : nat) (cur : list A) (l : list A) : list (list A) :=
  match l with
  | [] => match cur with [] => [] | _ :: _ => [cur] end
  | x :: r =>
      let cur' := cur ++ [x] in
      if Nat.eqb (length cur') n then cur' :: rows_of n [] r
      else rows_of n cur' r
  end.

(** [t.view(-1, classes)] on a contiguous 3-d tensor. *)
Definition view_rows {A} (t : tensor3 A) (classes : nat)
  : result (list (list A)) :=
  let flat := concat (concat (steps_of t)) in
  if Nat.eqb classes 0 then Raise RuntimeError
  else if Nat.eqb (length flat mod classes) 0
       then Ok (rows_of classes [] flat)
       else Raise RuntimeError.

(** [labels.repeat(n)] on a 1-d tensor. *)
Definition repeat_1d {A} (labels : list A) (n : nat) : list A :=
  concat (repeat labels n).

(** [a == b] on 1-d integer tensors, a dimension of size one being
    broadcast. *)
Definition eq_1d (a b : list Z) : result (list bool) :=
  if Nat.eqb (length a) (length b)
  then Ok (map (fun p => Z.eqb (fst p) (snd p)) (combine a b))
  else match a, b with
       | _, [y] => Ok (map (fun x => Z.eqb x y) a)
       | [x], _ => Ok (map (fun y => Z.eqb x y) b)
       | _, _ => Raise RuntimeError
       end.

(** [a[mask]] with a boolean mask of the shape of [a]. *)
Definition mask_select {A} (a : list A) (mask : list bool) : result (list A) :=
  if Nat.eqb (length a) (length mask)
  then Ok (map fst (filter snd (combine a mask)))
  else Raise IndexError.

Section Argmax.
Context {score : Type} (score_ltb : score -> score -> bool).

(** The index of the first greatest element seen so far. *)
Fixpoint argmax_from (best : score) (best_i i : Z) (row : list score) : Z :=
  match row with
  | [] => best_i
  | x :: r =>
      if score_ltb best x then argmax_from x i (i + 1) r
      else argmax_from best best_i (i + 1) r
  end.

Definition argmax_row (row : list score) : result Z :=
  match row with
  | [] => Raise IndexError
  | x :: r => Ok (argmax_from x 0 1 r)
  end.

(** The class chosen in a row: the index of its first greatest score. *)
Definition chosen_class (row : list score) : Z :=
  match row with
  | [] => 0%Z
  | x :: r => argmax_from x 0 1 r
  end.

(** [torch.argmax(m, dim=1)] *)
Fixpoint argmax_dim1 (m : list (list score)) : result (list Z) :=
  match m with
  | [] => Ok []
  | row :: rest =>
      match argmax_row row with
      | Raise e => Raise e
      | Ok i =>
          match argmax_dim1 rest with
          | Raise e => Raise e
          | Ok is_ => Ok (i :: is_)
          end
      end
  end.
End Argmax.

(** The number of positions at which two vectors agree. *)
Fixpoint agreements (a b : list Z) : nat :=
  match a, b with
  | x :: a', y :: b' => (if Z.eqb x y then 1 else 0) + agreements a' b'
  | _, _ => 0
  end.

End Tensor.
Import Tensor.

(** ** The training side of the script *)

Module Train.

(** The collaborators of [train.py]: what it imports from torch,
    comet_ml and the modules [data], [preprocessing], [models],
    [helpers] and [eval]. *)
Class Collaborators : Type := {
  (** a class score (a float) and its comparison [a < b] *)
  score : Type;
  score_ltb : score -> score -> bool;
  (** the token tensor of a batch, a dataset row, a loss tensor, a
      metric value *)
  tokens : Type;
  example : Type;
  lossval : Type;
  metric : Type;
  (** the tensors behind a model and its optimizers: parameter values,
      gradients, moment estimates *)
  heap : Type;
  (** [models.get_model(n_tokens, config)]: the architecture and its
      freshly initialised parameters *)
  get_model : Z -> config -> Model * heap;
  (** [model(tokens)], in training or evaluation mode *)
  forward : bool -> heap -> tokens -> tensor3 score;
  (** [nn.CrossEntropyLoss()(outputs, labels)] *)
  loss_func : list (list score) -> list Z -> lossval;
  (** [loss.backward()], [opt.zero_grad()], [opt.step()] *)
  backward : lossval -> heap -> heap;
  zero_grad : Optimizer -> heap -> heap;
  step : Optimizer -> heap -> heap;
  (** the order drawn by a shuffling loader at its n-th draw *)
  shuffle : nat -> list example -> list example;
  (** [helpers.get_datasets_paths(config, split)] *)
  get_datasets_paths : config -> string -> list string;
  (** the rows behind [data.CSVDatasetsMerger(paths)] *)
  read_csvs : list string -> list example;
  (** [TextPreprocessor(config, return_text)] called on the rows of a
      batch, and its attribute [n_tokens] *)
  collate : config -> bool -> list example -> list Z * tokens;
  n_tokens : config -> Z;
  (** [Evaluation(eval_dataloader, config).eval_model(model, loss_func)]:
      the metrics, and the mode and tensors it leaves the model with *)
  eval_model : list example -> config -> bool -> heap ->
               list (string * metric) * (bool * heap);
  (** the first line of the file at a path *)
  readline : string -> pystr
}.

Section WithCollaborators.
Context {C : Collaborators}.

Record TextPreprocessor : Type := {
  tp_config : config;
  tp_return_text : bool }.

(** A [CSVDatasetsMerger] instance: its identity and its rows. *)
Record dataset : Type := {
  ds_id : nat;
  ds_paths : list string;
  ds_examples : list example }.

Record DataLoader : Type := {
  dl_dataset : dataset;
  dl_batch_size : Z;
  dl_shuffle : bool;
  dl_drop_last : bool;
  dl_num_workers : Z;
  dl_collate_fn : TextPreprocessor }.

Inductive event : Type :=
| EvCSVDatasetsMerger (split : string) (d : dataset)
| EvDevice (d : string)
| EvExperiment (api_key : pystr) (project : string)
| EvLogParameters (cfg : config)
| EvSetName (n : string)
| EvToDevice (d : string)
| EvModelTrain
| EvZeroGrad (o : Optimizer)
| EvForward (training_mode : bool) (t : tokens)
| EvLoss (outputs : list (list score)) (labels : list Z)
| EvBackward
| EvStep (o : Optimizer)
| EvEvalModel
| EvPrintTrain (epoch num_examples : Z) (loss : lossval)
| EvLogTrainLoss (loss : lossval) (step epoch : Z)
| EvPrintMetric (n : string) (v : metric)
| EvLogMetric (n : string) (v : metric) (step epoch : Z).

(** The state of the process: the two module globals, the counter
    that gives objects their identity, the number of orders drawn by
    shuffling loaders, the model object, and what was done so far. *)
Record world : Type := {
  train_dataset : option dataset;
  eval_dataset : option dataset;
  next_id : nat;
  draws : nat;
  model_training : bool;
  model_heap : heap;
  log : list event }.

Definition set_train_dataset (d : option dataset) (w : world) : world :=
  {| train_dataset := d; eval_dataset := eval_dataset w;
     next_id := next_id w; draws := draws w;
     model_training := model_training w; model_heap := model_heap w;
     log := log w |}.

Definition set_eval_dataset (d : option dataset) (w : world) : world :=
  {| train_dataset := train_dataset w; eval_dataset := d;
     next_id := next_id w; draws := draws w;
     model_training := model_training w; model_heap := model_heap w;
     log := log w |}.

Definition set_next_id (n : nat) (w : world) : world :=
  {| train_dataset := train_dataset w; eval_dataset := eval_dataset w;
     next_id := n; draws := draws w;
     model_training := model_training w; model_heap := model_heap w;
     log := log w |}.

Definition set_draws (n : nat) (w : world) : world :=
  {| train_dataset := train_dataset w; eval_dataset := eval_dataset w;
     next_id := next_id w; draws := n;
     model_training := model_training w; model_heap := model_heap w;
     log := log w |}.

Definition set_model (t : bool) (h : heap) (w : world) : world :=
  {| train_dataset := train_dataset w; eval_dataset := eval_dataset w;
     next_id := next_id w; draws := draws w;
     model_training := t; model_heap := h;
     log := log w |}.

Definition set_log (l : list event) (w : world) : world :=
  {| train_dataset := train_dataset w; eval_dataset := eval_dataset w;
     next_id := next_id w; draws := draws w;
     model_training := model_training w; model_heap := model_heap w;
     log := l |}.

Definition emit (e : event) : M world unit :=
  modify (fun w => set_log (log w ++ [e]) w).

Local Open Scope py_scope.

Definition get_comet_api_key (cfg : config) : pystr :=
  let path := comet_api_key_file_path cfg in
  rstrip (readline path).

(** *** Cached data loaders *)

(** [data.CSVDatasetsMerger(paths)]: a new instance. *)
Definition CSVDatasetsMerger (split : string) (paths : list string)
  : M world dataset :=
  w <- get ;;
  let d := {| ds_id := next_id w; ds_paths := paths;
              ds_examples := read_csvs paths |} in
  modify (set_next_id (S (next_id w))) ;;
  emit (EvCSVDatasetsMerger split d) ;;
  ret d.

(** [torch.utils.data.DataLoader(...)]: the constructor refuses a
    negative worker count; with [shuffle] on it makes a [RandomSampler],
    which refuses a dataset without rows; and its [BatchSampler] refuses
    a batch size that is not positive.  Each refusal is a ValueError. *)
Definition new_DataLoader (d : dataset) (batch_size : Z)
           (shuffle_ drop_last : bool) (num_workers : Z)
           (collate_fn : TextPreprocessor) : result DataLoader :=
  if (num_workers <? 0)%Z then Raise ValueError
  else if shuffle_ && Nat.eqb (length (ds_examples d)) 0 then Raise ValueError
  else if (batch_size <=? 0)%Z then Raise ValueError
  else Ok {| dl_dataset := d; dl_batch_size := batch_size;
             dl_shuffle := shuffle_; dl_drop_last := drop_last;
             dl_num_workers := num_workers;
             dl_collate_fn := collate_fn |}.

Definition get_train_dataloader (cfg : config) (transformer : TextPreprocessor)
  : M world DataLoader :=
  w <- get ;;
  d <- match train_dataset w with
       | None =>
           let train_paths := get_datasets_paths cfg "train" in
           d <- CSVDatasetsMerger "train" train_paths ;;
           modify (set_train_dataset (Some d)) ;;
           ret d
       | Some d => ret d
       end ;;
  lift (new_DataLoader d (train_batch_size (training cfg)) true false
                       (n_train_workers (training cfg)) transformer).

Definition get_eval_dataloader (cfg : config) (transformer : TextPreprocessor)
  : M world DataLoader :=
  w <- get ;;
  d <- match eval_dataset w with
       | None =>
           let eval_paths := get_datasets_paths cfg "test" in
           d <- CSVDatasetsMerger "test" eval_paths ;;
           modify (set_eval_dataset (Some d)) ;;
           ret d
       | Some d => ret d
       end ;;
  lift (new_DataLoader d (eval_batch_size (evaluation cfg)) false false
                       (n_eval_workers (evaluation cfg)) transformer).

(** One pass over a loader: the rows in the order of the sampler, cut
    into batches, the last one kept when [drop_last] is off, each
    batch collated into (labels, tokens). *)
Definition iter_batches (dl : DataLoader) : M world (list (list Z * tokens)) :=
  w <- get ;;
  order <- (if dl_shuffle dl
            then modify (set_draws (S (draws w))) ;;
                 ret (shuffle (draws w) (ds_examples (dl_dataset dl)))
            else ret (ds_examples (dl_dataset dl))) ;;
  let n := Z.to_nat (dl_batch_size dl) in
  let chunks := rows_of n [] order in
  let kept := if dl_drop_last dl
              then filter (fun c => Nat.eqb (length c) n) chunks
              else chunks in
  let tp := dl_collate_fn dl in
  ret (map (collate (tp_config tp) (tp_return_text tp)) kept).

(** *** 4.3 Training step *)

(** [model.train()] *)
Definition model_train : M world unit :=
  emit EvModelTrain ;;
  modify (fun w => set_model true (model_heap w) w).

(** [opt.zero_grad()] *)
Definition opt_zero_grad (o : Optimizer) : M world unit :=
  emit (EvZeroGrad o) ;;
  modify (fun w => set_model (model_training w) (zero_grad o (model_heap w)) w).

(** [opt.step()] *)
Definition opt_step (o : Optimizer) : M world unit :=
  emit (EvStep o) ;;
  modify (fun w => set_model (model_training w) (step o (model_heap w)) w).

(** [model(tokens)] *)
Definition model_call (t : tokens) : M world (tensor3 score) :=
  w <- get ;;
  emit (EvForward (model_training w) t) ;;
  ret (forward (model_training w) (model_heap w) t).

(** [loss_func(outputs, labels)] *)
Definition call_loss_func (outputs : list (list score)) (labels : list Z)
  : M world lossval :=
  emit (EvLoss outputs labels) ;;
  ret (loss_func outputs labels).

(** [loss.backward()] *)
Definition loss_backward (loss : lossval) : M world unit :=
  emit EvBackward ;;
  modify (fun w => set_model (model_training w) (backward loss (model_heap w)) w).

(** [training_step(training_batch, model, optimizers, loss_func)];
    the model is the one of the state, the loss function the
    collaborator [loss_func]. *)
Definition training_step (training_batch : list Z * tokens)
           (optimizers : pyseq Optimizer) : M world (lossval * Q) :=
  model_train ;;
  for_each (items optimizers) opt_zero_grad ;;
  let '(labels, tokens_) := training_batch in
  outputs <- model_call tokens_ ;;
  final <- lift (select_last outputs) ;;
  chosen_label <- lift (argmax_dim1 score_ltb final) ;;
  mask <- lift (eq_1d chosen_label labels) ;;
  matching <- lift (mask_select chosen_label mask) ;;
  train_accuracy <- lift (truediv (nelement matching) (nelement labels)) ;;
  let output_len := size0 outputs in
  let classes := size2 outputs in
  outputs' <- lift (view_rows outputs classes) ;;
  let labels' := repeat_1d labels output_len in
  loss <- call_loss_func outputs' labels' ;;
  loss_backward loss ;;
  for_each (items optimizers) opt_step ;;
  ret (loss, train_accuracy).

(** *** 4.5 Single-config training loop *)

Definition setup_training (cfg : config)
  : M world (Model * DataLoader * DataLoader) :=
  emit (EvExperiment (get_comet_api_key cfg) (comet_project_name cfg)) ;;
  emit (EvLogParameters cfg) ;;
  let train_text_proc := {| tp_config := cfg; tp_return_text := false |} in
  let eval_text_proc := {| tp_config := cfg; tp_return_text := true |} in
  train_dataloader <- get_train_dataloader cfg train_text_proc ;;
  eval_dataloader <- get_eval_dataloader cfg eval_text_proc ;;
  let '(model, h) := get_model (n_tokens cfg) cfg in
  modify (set_model true h) ;;
  ret (model, train_dataloader, eval_dataloader).

(** [Evaluation(eval_dataloader, config)] *)
Record Evaluation : Type := {
  ev_dataloader : DataLoader;
  ev_config : config }.

(** [evaluator.eval_model(model, loss_func)] *)
Definition evaluator_eval_model (evaluator : Evaluation)
  : M world (list (string * metric)) :=
  w <- get ;;
  emit EvEvalModel ;;
  let '(results, (t, h)) :=
    eval_model (ds_examples (dl_dataset (ev_dataloader evaluator)))
               (ev_config evaluator) (model_training w) (model_heap w) in
  modify (set_model t h) ;;
  ret results.

(** The body of [for idx, batch in enumerate(train_dataloader)],
    from index [idx] on; it returns [num_examples].  Moving a batch to
    the device leaves its labels and tokens as they are. *)
Fixpoint batch_loop (cfg : config) (optimizers : pyseq Optimizer)
         (evaluator : Evaluation) (epoch : Z) (idx : Z)
         (batches : list (list Z * tokens)) (num_examples : Z)
  : M world Z :=
  match batches with
  | [] => ret num_examples
  | batch :: rest =>
      let num_examples := (num_examples + Z.of_nat (length (fst batch)))%Z in
      '(loss, train_accuracy) <- training_step batch optimizers ;;
      r <- lift (mod_ idx (log_every_n_batches (training cfg))) ;;
      (if (r =? 0)%Z
       then emit (EvPrintTrain epoch num_examples loss) ;;
            emit (EvLogTrainLoss loss num_examples epoch)
       else ret tt) ;;
      r' <- lift (mod_ idx (eval_every_n_batches (training cfg))) ;;
      (if (r' =? 0)%Z
       then results <- evaluator_eval_model evaluator ;;
            for_each results
              (fun mv => emit (EvPrintMetric (fst mv) (snd mv)) ;;
                         emit (EvLogMetric (fst mv) (snd mv) num_examples epoch))
       else ret tt) ;;
      batch_loop cfg optimizers evaluator epoch (idx + 1) rest num_examples
  end.

(** One epoch: a fresh pass over the loader, indexed from 0. *)
Definition run_epoch (cfg : config) (optimizers : pyseq Optimizer)
           (evaluator : Evaluation) (train_dataloader : DataLoader)
           (epoch : Z) (num_examples : Z) : M world Z :=
  batches <- iter_batches train_dataloader ;;
  batch_loop cfg optimizers evaluator epoch 0 batches num_examples.

(** [for epoch in epochs: ...] *)
Fixpoint epoch_loop (cfg : config) (optimizers : pyseq Optimizer)
         (evaluator : Evaluation) (train_dataloader : DataLoader)
         (epochs : list Z) (num_examples : Z) : M world Z :=
  match epochs with
  | [] => ret num_examples
  | epoch :: rest =>
      n <- run_epoch cfg optimizers evaluator train_dataloader epoch num_examples ;;
      epoch_loop cfg optimizers evaluator train_dataloader rest n
  end.

Definition normal_training (cfg : config) : M world unit :=
  emit (EvDevice (device cfg)) ;;
  '(model, train_dataloader, eval_dataloader) <- setup_training cfg ;;
  emit (EvSetName (experiment_name cfg)) ;;
  model_train ;;
  emit (EvToDevice (device cfg)) ;;
  optimizers <- lift (get_optimizers model cfg) ;;
  let evaluator := {| ev_dataloader := eval_dataloader; ev_config := cfg |} in
  let num_examples := 0%Z in
  _ <- epoch_loop cfg optimizers evaluator train_dataloader
                  (range (training_epochs (training cfg))) num_examples ;;
  ret tt.

(** The tensors of the model once every optimizer of the group has reset
    its gradients, and the scores the model then gives in training mode:
    the forward pass of a training step. *)
Definition zeroed_heap (optimizers : pyseq Optimizer) (w : world) : heap :=
  fold_left (fun h o => zero_grad o h) (items optimizers) (model_heap w).

Definition step_outputs (optimizers : pyseq Optimizer) (t : tokens) (w : world)
  : tensor3 score :=
  forward true (zeroed_heap optimizers w) t.

(** The events of a training step that runs to its end, and the tensors
    it leaves behind. *)
Definition step_events (labels : list Z) (toks : tokens)
           (optimizers : pyseq Optimizer) (w : world) : list event :=
  let outputs := steps_of (step_outputs optimizers toks w) in
  [EvModelTrain] ++ map EvZeroGrad (items optimizers) ++
  [EvForward true toks;
   EvLoss (concat outputs) (repeat_1d labels (length outputs));
   EvBackward] ++
  map EvStep (items optimizers).

Definition step_loss (labels : list Z) (toks : tokens)
           (optimizers : pyseq Optimizer) (w : world) : lossval :=
  let outputs := steps_of (step_outputs optimizers toks w) in
  loss_func (concat outputs) (repeat_1d labels (length outputs)).

Definition stepped_heap (labels : list Z) (toks : tokens)
           (optimizers : pyseq Optimizer) (w : world) : heap :=
  fold_left (fun h o => step o h) (items optimizers)
            (backward (step_loss labels toks optimizers w)
                      (zeroed_heap optimizers w)).

(** The metrics an evaluation gives on the model of a state. *)
Definition eval_results (evaluator : Evaluation) (w : world) : list (string * metric) :=
  fst (eval_model (ds_examples (dl_dataset (ev_dataloader evaluator)))
                  (ev_config evaluator) (model_training w) (model_heap w)).

(** The events of reporting the metrics of an evaluation. *)
Definition metric_events (results : list (string * metric)) (num_examples epoch : Z)
  : list event :=
  flat_map (fun mv => [EvPrintMetric (fst mv) (snd mv);
                       EvLogMetric (fst mv) (snd mv) num_examples epoch])
           results.

(** A batch as the loop expects it: it has labels, and on its tokens the
    model gives scores of the shape (steps, batch, classes), with an
    output step and a class at least, whatever its parameters. *)
Definition batch_well_shaped (b : list Z * tokens) : Prop :=
  fst b <> [] /\
  exists steps classes,
    0 < steps /\ 0 < classes /\
    forall h, has_shape (forward true h (snd b)) steps (length (fst b)) classes.

(** What the loop takes for granted of a configuration and of the
    collaborators: settings that the loaders accept, a training dataset
    that has rows, an optimizer that can be built from settings torch
    accepts, a sampler that permutes, and a preprocessor that gives one
    label per row and batches of the shape the model expects. *)
Definition loaders_accept (cfg : config) : Prop :=
  (0 <= n_train_workers (training cfg))%Z /\
  (0 <= n_eval_workers (evaluation cfg))%Z /\
  (0 < eval_batch_size (evaluation cfg))%Z.

(** The rows of the training dataset a call under [cfg] works on: those
    of the cached dataset, or those at the paths of [cfg]. *)
Definition train_rows (cfg : config) (w : world) : list example :=
  match train_dataset w with
  | Some d => ds_examples d
  | None => read_csvs (get_datasets_paths cfg "train")
  end.

Definition optimizer_buildable (cfg : config) : Prop :=
  name (optimizer cfg) = "adam"%string /\
  settings_accepted (optimizer cfg) /\
  get_non_sparse_parameters (fst (get_model (n_tokens cfg) cfg)) <> [].

Definition pipeline_well_shaped (cfg : config) : Prop :=
  (forall k rows, Permutation (shuffle k rows) rows) /\
  (forall rows, rows <> [] ->
     length (fst (collate cfg false rows)) = length rows /\
     batch_well_shaped (collate cfg false rows)).

(** The cumulative number of examples after each batch. *)
Fixpoint running_totals (num_examples : Z) (batches : list (list Z * tokens))
  : list Z :=
  match batches with
  | [] => []
  | b :: rest =>
      let n := (num_examples + Z.of_nat (length (fst b)))%Z in
      n :: running_totals n rest
  end.

(** *** What a log says *)

(** The steps of the training metric reports, in order. *)
Fixpoint train_report_steps (l : list event) : list Z :=
  match l with
  | [] => []
  | EvLogTrainLoss _ s _ :: r => s :: train_report_steps r
  | _ :: r => train_report_steps r
  end.

(** An event of a training step: a gradient reset, a forward pass, a
    loss, a backward pass or an update. *)
Definition is_training_event (e : event) : bool :=
  match e with
  | EvZeroGrad _ | EvForward _ _ | EvLoss _ _ | EvBackward | EvStep _ => true
  | _ => false
  end.

Definition is_forward (e : event) : bool :=
  match e with EvForward _ _ => true | _ => false end.

(** The datasets built so far for a split. *)
Fixpoint datasets_built (split : string) (l : list event) : list dataset :=
  match l with
  | [] => []
  | EvCSVDatasetsMerger s d :: r =>
      if String.eqb s split then d :: datasets_built split r
      else datasets_built split r
  | _ :: r => datasets_built split r
  end.

(** A call of one of the two loader functions, and a process that makes
    such calls one after the other, whatever becomes of each. *)
Inductive loader_call : Type :=
| CallTrain (cfg : config) (transformer : TextPreprocessor)
| CallEval (cfg : config) (transformer : TextPreprocessor).

Definition run_call (c : loader_call) : M world DataLoader :=
  match c with
  | CallTrain cfg tp => get_train_dataloader cfg tp
  | CallEval cfg tp => get_eval_dataloader cfg tp
  end.

Definition config_of (c : loader_call) : config :=
  match c with CallTrain cfg _ => cfg | CallEval cfg _ => cfg end.

Definition split_of (c : loader_call) : string :=
  match c with CallTrain _ _ => "train" | CallEval _ _ => "test" end.

Fixpoint run_calls (calls : list loader_call) (w : world)
  : list (loader_call * result DataLoader) * world :=
  match calls with
  | [] => ([], w)
  | c :: rest =>
      let '(r, w1) := run_call c w in
      let '(rs, w2) := run_calls rest w1 in
      ((c, r) :: rs, w2)
  end.

(** The two globals hold what was built: nothing, or the one dataset of
    the split. *)
Definition cache_consistent (w : world) : Prop :=
  datasets_built "train" (log w) =
    match train_dataset w with None => [] | Some d => [d] end /\
  datasets_built "test" (log w) =
    match eval_dataset w with None => [] | Some d => [d] end.

(** *** The accuracy, in the words of the specification *)

(** Scores that are numbers: [a < b] is irreflexive and transitive, and
    two scores of which neither is less than the other compare alike
    with every third. *)
Definition scores_ordered : Prop :=
  (forall a, score_ltb a a = false) /\
  (forall a b c, score_ltb a b = true -> score_ltb b c = true ->
                 score_ltb a c = true) /\
  (forall a b c, score_ltb a c = true ->
                 score_ltb a b = true \/ score_ltb b c = true).

(** A greatest score of a row: no score of the row is greater. *)
Definition is_greatest (row : list score) (x : score) : bool :=
  forallb (fun y => negb (score_ltb x y)) row.

(** The argmax over the classes of a row: the first class that has a
    greatest score. *)
Definition class_of_greatest (row : list score) : option nat :=
  find (fun c => match nth_error row c with
                 | Some x => is_greatest row x
                 | None => false
                 end)
       (seq 0 (length row)).

(** The number of positions at which the argmax over the classes of the
    row of [final] is the label. *)
Definition exact_matches (final : list (list score)) (labels : list Z) : nat :=
  length
    (filter
       (fun i =>
          match nth_error final i, nth_error labels i with
          | Some row, Some l =>
              match class_of_greatest row with
              | Some c => Z.eqb (Z.of_nat c) l
              | None => false
              end
          | _, _ => false
          end)
       (seq 0 (length labels))).

End WithCollaborators.

End Train.

(** ** 4.7 The search orchestrator: [tune_training] *)

Module Tune.

(** [os.path.join(a, b)] on POSIX paths. *)
Definition path_join (a b : string) : string :=
  if String.prefix "/" b then b
  else if orb (String.eqb a "")
              (String.eqb (String.substring (String.length a - 1) 1 a) "/")
       then a ++ b
       else a ++ "/" ++ b.

Inductive searcher : Type := HyperOpt | BOHB.

(** The schedulers the script passes to [tune.run]: none (ray's FIFO
    default), [HyperBandForBOHB], or the local class [HyperOptFIFO]. *)
Inductive scheduler : Type := DefaultFIFO | HyperBandForBOHB | HyperOptFIFO.

Inductive message : Type :=
| WarmStarting (n_trials : nat)
| ColdStarting
| Checkpointing.

(** What ray and the search libraries decide: which configuration a
    search algorithm proposes from its history and random state, which
    variant a run without search algorithm takes, and whether a trial
    runs to completion. *)
Class Ray : Type := {
  sample : Type;
  suggest : searcher -> list sample -> Z -> sample;
  variant : config -> nat -> sample;
  trial_completes : sample -> bool
}.

Section WithRay.
Context {R : Ray}.

(** The state of a search algorithm object: for [HyperOptSearch],
    [_hpopt_trials] and [rstate]. *)
Record algo_state : Type := {
  kind : searcher;
  trials : list sample;
  rstate : Z }.

Inductive file : Type :=
| Directory
| Pickled (st : algo_state)
| Unreadable.

Inductive event : Type :=
| EvRayInit
| EvConfigSpace (seed : Z)
| EvHyperBandForBOHB (max_t_ : Z)
| EvTuneBOHB
| EvHyperOptSearch (n_initial_points seed : Z)
| EvRestore (path : string)
| EvPrint (m : message)
| EvTuneRun (name_ local_dir : string) (num_samples : nat)
            (search_alg : option searcher) (sched : scheduler)
            (stop : option (Z * Z))
| EvSuggest (s : sample)
| EvTrialComplete (s : sample)
| EvTrialError (s : sample)
| EvSave (path : string) (st : algo_state)
| EvSchedulerOnTrialComplete.

(** The state the orchestrator acts on: the object bound to [algo],
    shared with the scheduler hook and with ray; the files of the
    working directory, latest first; and what was done so far. *)
Record world : Type := {
  algo : algo_state;
  files : list (string * file);
  log : list event }.

Definition set_algo (a : algo_state) (w : world) : world :=
  {| algo := a; files := files w; log := log w |}.

Definition set_files (f : list (string * file)) (w : world) : world :=
  {| algo := algo w; files := f; log := log w |}.

Definition set_log (l : list event) (w : world) : world :=
  {| algo := algo w; files := files w; log := l |}.

Definition emit (e : event) : M world unit :=
  modify (fun w => set_log (log w ++ [e]) w).

Fixpoint lookup_file (p : string) (fs : list (string * file)) : option file :=
  match fs with
  | [] => None
  | (q, f) :: r => if String.eqb q p then Some f else lookup_file p r
  end.

Local Open Scope py_scope.

(** [algo.save(path)] *)
Definition algo_save (path : string) : M world unit :=
  w <- get ;;
  emit (EvSave path (algo w)) ;;
  modify (fun w => set_files ((path, Pickled (algo w)) :: files w) w).

(** [algo.restore(path)] *)
Definition algo_restore (path : string) : M world unit :=
  emit (EvRestore path) ;;
  w <- get ;;
  match lookup_file path (files w) with
  | Some (Pickled st) => modify (set_algo st)
  | Some _ => raise RuntimeError
  | None => raise FileNotFoundError
  end.

(** The next configuration of a search algorithm: proposed from its
    state, and recorded in it. *)
Definition algo_suggest : M world sample :=
  w <- get ;;
  let a := algo w in
  let s := suggest (kind a) (trials a) (rstate a) in
  modify (set_algo {| kind := kind a; trials := trials a ++ [s];
                      rstate := (rstate a + 1)%Z |}) ;;
  ret s.

(** [scheduler.on_trial_complete(trial_runner, trial, result)] *)
Definition on_trial_complete (sched : scheduler)
           (hyper_opt_checkpoint_dir : string) : M world unit :=
  match sched with
  | HyperOptFIFO =>
      algo_save hyper_opt_checkpoint_dir ;;
      emit (EvPrint Checkpointing) ;;
      emit EvSchedulerOnTrialComplete
  | _ => emit EvSchedulerOnTrialComplete
  end.

(** The trials of [tune.run], one at a time ([max_concurrent=1]):
    take a configuration, run the trial, and tell the scheduler when
    it completes; a trial that fails does not stop the others. *)
Fixpoint run_trials (cfg : config) (search_alg : option searcher)
         (sched : scheduler) (checkpoint_dir : string)
         (i n : nat) : M world (list sample) :=
  match n with
  | O => ret []
  | S k =>
      s <- match search_alg with
           | Some _ => algo_suggest
           | None => ret (variant cfg i)
           end ;;
      emit (EvSuggest s) ;;
      (if trial_completes s
       then emit (EvTrialComplete s) ;;
            on_trial_complete sched checkpoint_dir
       else emit (EvTrialError s)) ;;
      rest <- run_trials cfg search_alg sched checkpoint_dir (S i) k ;;
      ret (s :: rest)
  end.

(** [tune.run(TuneTrainable, config=config, ...)]: it makes the
    directory of the experiment and runs the trials; at the end of a run
    one of whose trials did not complete it raises TuneError,
    [raise_on_failed_trial] being on when the caller does not set it. *)
Definition tune_run (cfg : config) (search_alg : option searcher)
           (sched : scheduler) (checkpoint_dir : string)
           (num_samples : nat) (stop : option (Z * Z))
  : M world (list sample) :=
  let tc := tune cfg in
  emit (EvTuneRun (experiment_name cfg) (working_dir tc) num_samples
                  search_alg sched stop) ;;
  modify (fun w => set_files
                     ((path_join (working_dir tc) (experiment_name cfg),
                       Directory) :: files w) w) ;;
  trials_ <- run_trials cfg search_alg sched checkpoint_dir 0 num_samples ;;
  if forallb trial_completes trials_ then ret trials_ else raise TuneError.

(** [tune_training(config)]; the value is what the function returns,
    [None] where it has no [return]. *)
Definition tune_training (cfg : config) : M world (option (list sample)) :=
  let tc := tune cfg in
  emit EvRayInit ;;
  let stop_dict := (max_t tc, 2%Z) in
  if String.eqb (tuning_method tc) "bohb" then
    emit (EvConfigSpace 42) ;;
    emit (EvHyperBandForBOHB (max_t tc)) ;;
    emit EvTuneBOHB ;;
    modify (set_algo {| kind := BOHB; trials := []; rstate := 42 |}) ;;
    analysis <- tune_run cfg (Some BOHB) HyperBandForBOHB "" 1 None ;;
    ret (Some analysis)
  else if String.eqb (tuning_method tc) "hyperopt" then
    emit (EvHyperOptSearch 7 42) ;;
    modify (set_algo {| kind := HyperOpt; trials := []; rstate := 42 |}) ;;
    let hyper_opt_checkpoint_dir :=
      path_join (path_join (working_dir tc) (experiment_name cfg)) "hyperopt" in
    (if resume tc
     then try_except
            (algo_restore hyper_opt_checkpoint_dir ;;
             w <- get ;;
             let n_trials := length (trials (algo w)) in
             emit (EvPrint (WarmStarting n_trials)))
            (emit (EvPrint ColdStarting))
     else ret tt) ;;
    _ <- tune_run cfg (Some HyperOpt) HyperOptFIFO hyper_opt_checkpoint_dir
                  (n_samples tc) (Some stop_dict) ;;
    ret None
  else if String.eqb (tuning_method tc) "no_search" then
    _ <- tune_run cfg None DefaultFIFO "" (n_samples tc) (Some stop_dict) ;;
    ret None
  else raise NotImplementedError.

(** The path [hyper_opt_checkpoint_dir] of a configuration, and the
    search algorithm as [HyperOptSearch(...)] makes it. *)
Definition checkpoint_path (cfg : config) : string :=
  path_join (path_join (working_dir (tune cfg)) (experiment_name cfg)) "hyperopt".



(** *** What a log says *)






End WithRay.

End Tune.

(** ** Sample inputs *)

Module Samples.

Definition sample_config (optimizer_name method : string) (resume_ : bool)
  : config :=
  {| device := "cpu";
     experiment_name := "exp";
     comet_project_name := "arabic-did";
     comet_api_key_file_path := "comet.key";
     optimizer := {| name := optimizer_name; lr := (1 # 1000)%Q;
                     betas := ((9 # 10)%Q, (999 # 1000)%Q);
                     eps := (1 # 100000000)%Q |};
     training := {| train_batch_size := 8; n_train_workers := 0;
                    training_epochs := 1; log_every_n_batches := 1;
                    eval_every_n_batches := 2 |};
     evaluation := {| eval_batch_size := 4; n_eval_workers := 0 |};
     tune := {| tuning_method := method; max_t := 1000;
                discriminating_metric := "accuracy";
                discriminating_metric_mode := "max";
                resources_per_trial := 1;
                working_dir := "/tmp/work";
                resume := resume_;
                n_samples := 2 |} |}.

(** A model with an embedding table (sparse) and two dense layers. *)
Definition mixed_model : Model :=
  {| parameters := [0; 1; 2];
     get_non_sparse_parameters := [1; 2];
     get_sparse_parameters := [0] |}.

(** A model without sparse parameters. *)
Definition dense_model : Model :=
  {| parameters := [0; 1];
     get_non_sparse_parameters := [0; 1];
     get_sparse_parameters := [] |}.

(** A model that is one embedding table. *)
Definition sparse_only_model : Model :=
  {| parameters := [0];
     get_non_sparse_parameters := [];
     get_sparse_parameters := [0] |}.

(** Collaborators small enough to run: scores are integers, a row of a
    dataset is a label and a text, the model gives two output steps of
    two classes, the tensors behind the model are summed up by the number
    of updates, and evaluation leaves the model in evaluation mode. *)
Definition toy : Train.Collaborators :=
  @Train.Build_Collaborators
    Z Z.ltb (list (list Z)) (Z * list Z)%type Z Z nat
    (fun _ _ => (mixed_model, 0))
    (fun mode h toks =>
       {| classes_of := 2;
          steps_of := [map (fun t => [0%Z; 1%Z]) toks;
                       map (fun t => [Z.of_nat (length t); 1%Z]) toks] |})
    (fun outputs labels => Z.of_nat (length outputs))
    (fun _ h => h)
    (fun _ h => h)
    (fun _ h => S h)
    (fun _ rows => rev rows)
    (fun _ split => [(split ++ ".csv")%string])
    (fun _ => map (fun i => (Z.of_nat (i mod 2), repeat 7%Z i)) (seq 0 16))
    (fun _ _ rows => (map fst rows, map snd rows))
    (fun _ => 100%Z)
    (fun _ _ _ h => ([("accuracy"%string, 1%Z)], (false, h)))
    (fun _ => codepoints "key" ++ [32%N; 160%N; 10%N]).

(** A process that has just started. *)
Definition fresh_world : @Train.world toy :=
  @Train.Build_world toy None None 0 0 false 0 [].

(** A batch of three rows. *)
Definition toy_batch : list Z * list (list Z) :=
  ([0%Z; 1%Z; 1%Z], [[5%Z]; []; [2%Z; 3%Z]]).

(** The optimizer group of [mixed_model]. *)
Definition toy_optimizers : pyseq Optimizer :=
  PyTuple [Adam [1; 2] (1 # 1000)%Q ((9 # 10)%Q, (999 # 1000)%Q) (1 # 100000000)%Q;
           SparseAdam [0] (1 # 1000)%Q ((9 # 10)%Q, (999 # 1000)%Q) (1 # 100000000)%Q].

(** Four calls of the loader functions, under two configurations. *)
Definition toy_calls : list Train.loader_call :=
  [Train.CallTrain (sample_config "adam" "hyperopt" false)
                   {| Train.tp_config := sample_config "adam" "hyperopt" false;
                      Train.tp_return_text := false |};
   Train.CallEval (sample_config "adam" "hyperopt" false)
                  {| Train.tp_config := sample_config "adam" "hyperopt" false;
                     Train.tp_return_text := true |};
   Train.CallTrain (sample_config "sgd" "bohb" true)
                   {| Train.tp_config := sample_config "sgd" "bohb" true;
                      Train.tp_return_text := false |};
   Train.CallEval (sample_config "sgd" "bohb" true)
                  {| Train.tp_config := sample_config "sgd" "bohb" true;
                     Train.tp_return_text := true |}].

(** The training loader of a run of [toy] under the sample
    configuration, its evaluator, the batches of its first pass, and the
    training step on the first of them. *)
Definition toy_loader : @Train.DataLoader toy :=
  {| Train.dl_dataset :=
       {| Train.ds_id := 0; Train.ds_paths := ["train.csv"%string];
          Train.ds_examples := @Train.read_csvs toy ["train.csv"%string] |};
     Train.dl_batch_size := 8; Train.dl_shuffle := true;
     Train.dl_drop_last := false; Train.dl_num_workers := 0;
     Train.dl_collate_fn :=
       {| Train.tp_config := sample_config "adam" "hyperopt" false;
          Train.tp_return_text := false |} |}.

Definition toy_evaluator : @Train.Evaluation toy :=
  {| Train.ev_dataloader := toy_loader;
     Train.ev_config := sample_config "adam" "hyperopt" false |}.



(** A ray small enough to run: a configuration is a number, proposed
    from the length of the history and the random state, and a trial
    completes when its number is even. *)
Definition toy_ray : Tune.Ray :=
  @Tune.Build_Ray nat
    (fun _ history rstate => 2 * length history + Z.to_nat rstate)
    (fun _ i => 2 * i)
    Nat.even.

(** An orchestrator that starts in an empty working directory. *)
Definition empty_dir : @Tune.world toy_ray :=
  @Tune.Build_world toy_ray
    (@Tune.Build_algo_state toy_ray Tune.HyperOpt [] 0) [] [].

(** An orchestrator that starts with the checkpoint of three trials. *)
Definition three_trials : @Tune.algo_state toy_ray :=
  @Tune.Build_algo_state toy_ray Tune.HyperOpt [42; 45; 48] 45.

Definition with_checkpoint : @Tune.world toy_ray :=
  @Tune.Build_world toy_ray
    (@Tune.Build_algo_state toy_ray Tune.HyperOpt [] 0)
    [("/tmp/work/exp/hyperopt"%string, Tune.Pickled three_trials);
     ("/tmp/work/exp"%string, Tune.Directory)]
    [].

End Samples.

(** ** [flatten_dict] *)

Module Flatten.

Section WithValues.
Variable V : Type.

(** A value of a dictionary: a mapping from keys to values, kept in
    insertion order, or anything else. *)
#[warnings="-register-all"] Inductive pyobj : Type :=
| Leaf (v : V)
| Mapping (d : list (string * pyobj)).

(** [d[k] = v] on a dictionary in insertion order: an old key keeps its
    place and takes the new value, a new key goes last. *)
Fixpoint dict_set (k : string) (v : V) (d : list (string * V)) : list (string * V) :=
  match d with
  | [] => [(k, v)]
  | (k', v') :: r =>
      if String.eqb k' k then (k', v) :: r else (k', v') :: dict_set k v r
  end.

(** [dict(items)] *)
Definition dict_of_items (items : list (string * V)) : list (string * V) :=
  fold_left (fun d kv => dict_set (fst kv) (snd kv) d) items [].

(** [parent_key + sep + k if parent_key else k] *)
Definition new_key (parent_key sep k : string) : string :=
  match parent_key with
  | EmptyString => k
  | _ => (parent_key ++ sep ++ k)%string
  end.

(** What one value adds to [items] under its key, a mapping being
    flattened by the function itself, and the function:
    [flatten_dict d parent_key sep] is [flatten_value (Mapping d)
    parent_key sep]. *)
Fixpoint flatten_value (v : pyobj) (key sep : string) : list (string * V) :=
  match v with
  | Leaf x => [(key, x)]
  | Mapping d =>
      dict_of_items
        ((fix items (l : list (string * pyobj)) : list (string * V) :=
            match l with
            | [] => []
            | (k, v') :: r => flatten_value v' (new_key key sep k) sep ++ items r
            end) d)
  end.

(** The list [items] at the end of the loop. *)
Fixpoint flatten_items (d : list (string * pyobj)) (parent_key sep : string)
  : list (string * V) :=
  match d with
  | [] => []
  | (k, v) :: r =>
      flatten_value v (new_key parent_key sep k) sep ++ flatten_items r parent_key sep
  end.

Definition flatten_dict (d : list (string * pyobj)) (parent_key sep : string)
  : list (string * V) :=
  flatten_value (Mapping d) parent_key sep.

(** A dictionary without nested mappings, as a value. *)
Definition as_leaves (d : list (string * V)) : list (string * pyobj) :=
  map (fun kv => (fst kv, Leaf (snd kv))) d.

(** Every leaf under its joined key, in order, nothing merged. *)
Fixpoint leaves (v : pyobj) (key sep : string) : list (string * V) :=
  match v with
  | Leaf x => [(key, x)]
  | Mapping d =>
      (fix items (l : list (string * pyobj)) : list (string * V) :=
         match l with
         | [] => []
         | (k, v') :: r => leaves v' (new_key key sep k) sep ++ items r
         end) d
  end.

End WithValues.

Arguments Leaf {V} v.
Arguments Mapping {V} d.
Arguments dict_set {V} k v d.
Arguments dict_of_items {V} items.
Arguments flatten_value {V} v key sep.
Arguments flatten_items {V} d parent_key sep.
Arguments flatten_dict {V} d parent_key sep.
Arguments as_leaves {V} d.
Arguments leaves {V} v key sep.

End Flatten.

(** ** What strings and logs say *)

Module Text.

(** A text of whitespace only. *)
Definition all_space (s : pystr) : bool := forallb is_space s.

(** A text whose last character is a whitespace. *)
Fixpoint ends_with_space (s : pystr) : bool :=
  match s with
  | [] => false
  | [c] => is_space c
  | _ :: r => ends_with_space r
  end.

(** A path that ends with the separator. *)
Fixpoint ends_with_slash (s : string) : bool :=
  match s with
  | EmptyString => false
  | String c EmptyString => Ascii.eqb c "/"
  | String _ r => ends_with_slash r
  end.

End Text.

Module TrainLog.
Import Train.

Section WithCollaborators.
Context {C : Collaborators}.

Definition is_eval_event (e : event) : bool :=
  match e with EvEvalModel => true | _ => false end.

(** The cumulative numbers of examples at the batches whose index is a
    multiple of [every], the batches being numbered from [idx]. *)
Fixpoint reports_due (every idx num_examples : Z) (batches : list (list Z * tokens))
  : list Z :=
  match batches with
  | [] => []
  | b :: rest =>
      let n := (num_examples + Z.of_nat (length (fst b)))%Z in
      (if (idx mod every =? 0)%Z then [n] else []) ++
      reports_due every (idx + 1) n rest
  end.

(** The number of indices from [idx] on, [count] of them, that are
    multiples of [every]. *)
Fixpoint multiples (every idx : Z) (count : nat) : nat :=
  match count with
  | O => 0
  | S k => (if (idx mod every =? 0)%Z then 1 else 0) + multiples every (idx + 1) k
  end.

(** The number of evaluations in a log. *)
Definition evaluations (l : list event) : nat :=
  length (filter is_eval_event l).

End WithCollaborators.

End TrainLog.

Module TuneLog.
Import Tune.

Section WithRay.
Context {R : Ray}.

(** The configurations proposed in a log, in order. *)
Fixpoint suggestions (l : list event) : list sample :=
  match l with
  | [] => []
  | EvSuggest s :: r => s :: suggestions r
  | _ :: r => suggestions r
  end.

(** The directory of the experiment, which [tune.run] makes. *)
Definition experiment_dir (cfg : config) : string :=
  path_join (working_dir (tune cfg)) (experiment_name cfg).

(** A search algorithm after [n] more proposals. *)
Definition after_trials (a : algo_state) (r : list sample) : algo_state :=
  {| kind := kind a; trials := trials a ++ r;
     rstate := (rstate a + Z.of_nat (length r))%Z |}.


Definition trial_files (sched : scheduler) (dir : string) (a : algo_state)
           (s : sample) : list (string * file) :=
  match sched with
  | HyperOptFIFO => if trial_completes s then [(dir, Pickled a)] else []
  | _ => []
  end.



Fixpoint search_files (sched : scheduler) (dir : string) (a : algo_state)
         (r : list sample) : list (string * file) :=
  match r with
  | [] => []
  | s :: r' =>
      let a1 := after_trials a [s] in
      search_files sched dir a1 r' ++ trial_files sched dir a1 s
  end.



(** What [tune.run] gives its caller once the trials [r] are over. *)
Definition run_outcome {A} (r : list sample) (v : A) : result A :=
  if forallb trial_completes r then Ok v else Raise TuneError.

End WithRay.

End TuneLog.

(** ** More sample inputs *)

Module MoreSamples.
Import Samples.

(** The sample configuration with other training settings. *)
Definition training_config (batch epochs log_every eval_every : Z) : config :=
  let cfg := sample_config "adam" "hyperopt" false in
  {| device := device cfg;
     experiment_name := experiment_name cfg;
     comet_project_name := comet_project_name cfg;
     comet_api_key_file_path := comet_api_key_file_path cfg;
     optimizer := optimizer cfg;
     training := {| train_batch_size := batch; n_train_workers := 0;
                    training_epochs := epochs;
                    log_every_n_batches := log_every;
                    eval_every_n_batches := eval_every |};
     evaluation := evaluation cfg;
     tune := tune cfg |}.

(** The training step on [toy_batch] in a process that has just
    started. *)
Definition toy_step : result (Z * Q) * @Train.world toy :=
  @Train.training_step toy toy_batch toy_optimizers fresh_world.

(** The sample configuration with another learning rate. *)
Definition lr_config (l : Q) : config :=
  let cfg := sample_config "adam" "hyperopt" false in
  {| device := device cfg;
     experiment_name := experiment_name cfg;
     comet_project_name := comet_project_name cfg;
     comet_api_key_file_path := comet_api_key_file_path cfg;
     optimizer := {| name := "adam"; lr := l;
                     betas := betas (optimizer cfg);
                     eps := eps (optimizer cfg) |};
     training := training cfg;
     evaluation := evaluation cfg;
     tune := tune cfg |}.

(** A ray whose search algorithm proposes the number after the greatest
    of its history, and whose trials complete on even numbers. *)
Definition careful_ray : Tune.Ray :=
  @Tune.Build_Ray nat
    (fun _ history _ => S (list_max history))
    (fun _ i => 2 * i)
    Nat.even.

(** An orchestrator over [careful_ray] that starts with the checkpoint
    of two trials. *)
Definition two_trials : @Tune.algo_state careful_ray :=
  @Tune.Build_algo_state careful_ray Tune.HyperOpt [3; 8] 44.

Definition careful_dir : @Tune.world careful_ray :=
  @Tune.Build_world careful_ray
    (@Tune.Build_algo_state careful_ray Tune.HyperOpt [] 0)
    [("/tmp/work/exp/hyperopt"%string, Tune.Pickled two_trials);
     ("/tmp/work/exp"%string, Tune.Directory)]
    [].



(** A ray all of whose trials complete. *)
Definition steady_ray : Tune.Ray :=
  @Tune.Build_Ray nat
    (fun _ history rstate => 2 * length history + Z.to_nat rstate)
    (fun _ i => 2 * i)
    (fun _ => true).

Definition steady_dir : @Tune.world steady_ray :=
  @Tune.Build_world steady_ray
    (@Tune.Build_algo_state steady_ray Tune.HyperOpt [] 0) [] [].

End MoreSamples.

(** * Properties *)

(** ** The optimizer group *)

Module OptimFacts.
Import Samples.

Lemma name_adam (cfg : config) :
  name (optimizer cfg) = "adam"%string ->
  String.eqb (name (optimizer cfg)) "adam" = true.
Proof. intros ->. reflexivity. Qed.

Lemma Qlt_bool_true (a b : Q) : (a < b)%Q -> Qlt_bool a b = true.
Proof.
  intros H. unfold Qlt_bool. apply negb_true_iff.
  destruct (Qle_bool b a) eqn:E; [|reflexivity].
  apply Qle_bool_iff in E. exfalso. exact (Qlt_not_le _ _ H E).
Qed.

Lemma Qle_bool_true (a b : Q) : (a <= b)%Q -> Qle_bool a b = true.
Proof. apply Qle_bool_iff. Qed.

(** Settings that are accepted pass the checks of both constructors. *)
Lemma settings_accepted_checks (oc : optimizer_group) :
  settings_accepted oc ->
  Qle_bool 0 (lr oc) = true /\ Qlt_bool 0 (lr oc) = true /\
  Qle_bool 0 (eps oc) = true /\ Qlt_bool 0 (eps oc) = true /\
  beta_ok (fst (betas oc)) = true /\ beta_ok (snd (betas oc)) = true.
Proof.
  intros (Hlr & Heps & Hb1 & Hb1' & Hb2 & Hb2'). unfold beta_ok.
  rewrite (Qle_bool_true _ _ (Qlt_le_weak _ _ Hlr)), (Qlt_bool_true _ _ Hlr),
    (Qle_bool_true _ _ (Qlt_le_weak _ _ Heps)), (Qlt_bool_true _ _ Heps),
    (Qle_bool_true _ _ Hb1), (Qlt_bool_true _ _ Hb1'),
    (Qle_bool_true _ _ Hb2), (Qlt_bool_true _ _ Hb2').
  repeat split; reflexivity.
Qed.

(** With the supported optimizer, settings that torch accepts and a
    dense subset that is not empty, the group is the dense optimizer
    alone, or the pair. *)
Lemma get_optimizers_adam (m : Model) (cfg : config) :
  name (optimizer cfg) = "adam"%string ->
  settings_accepted (optimizer cfg) ->
  get_non_sparse_parameters m <> [] ->
  get_optimizers m cfg =
  Ok (let oc := optimizer cfg in
      let dense := Adam (get_non_sparse_parameters m) (lr oc) (betas oc) (eps oc) in
      match get_sparse_parameters m with
      | [] => PyList [dense]
      | _ :: _ => PyTuple [dense;
                           SparseAdam (get_sparse_parameters m)
                                      (lr oc) (betas oc) (eps oc)]
      end).
Proof.
  intros Hname Hset Hdense. unfold get_optimizers.
  rewrite (name_adam _ Hname).
  destruct (settings_accepted_checks _ Hset) as (H1 & H2 & H3 & H4 & H5 & H6).
  unfold optim_Adam, optim_SparseAdam. rewrite H1, H2, H3, H4, H5, H6.
  cbn [negb].
  destruct (get_non_sparse_parameters m) as [|p ps]; [congruence|].
  destruct (get_sparse_parameters m) as [|q qs]; reflexivity.
Qed.

(** C1, as the code has it: for every model that partitions its
    parameters into a dense and a sparse subset, the dense one not
    empty, and every configuration whose optimizer name is 'adam' and
    whose learning rate, betas and eps are ones the constructors of
    torch accept, [get_optimizers] returns one optimizer per non-empty
    subset: the one-element list of the dense Adam when the sparse
    subset is empty, and otherwise the pair of the dense Adam and the
    sparse Adam; the parameters bound by the optimizers returned are
    the parameters of the model, none of them bound twice. *)
Theorem get_optimizers_partition (m : Model) (cfg : config) :
  name (optimizer cfg) = "adam"%string ->
  settings_accepted (optimizer cfg) ->
  model_partitioned m ->
  get_non_sparse_parameters m <> [] ->
  exists g,
    get_optimizers m cfg = Ok g /\
    (get_sparse_parameters m = [] ->
     g = PyList [Adam (get_non_sparse_parameters m) (lr (optimizer cfg))
                      (betas (optimizer cfg)) (eps (optimizer cfg))]) /\
    (get_sparse_parameters m <> [] ->
     g = PyTuple [Adam (get_non_sparse_parameters m) (lr (optimizer cfg))
                       (betas (optimizer cfg)) (eps (optimizer cfg));
                  SparseAdam (get_sparse_parameters m) (lr (optimizer cfg))
                             (betas (optimizer cfg)) (eps (optimizer cfg))]) /\
    length (items g) = nonempty_subsets m /\
    Permutation (group_params g) (parameters m) /\
    NoDup (group_params g).
Proof.
  intros Hname Hset [Hnodup Hperm] Hdense.
  eexists. split; [apply get_optimizers_adam; assumption|].
  unfold nonempty_subsets, group_params.
  destruct (get_non_sparse_parameters m) as [|p ps] eqn:Ed; [congruence|].
  destruct (get_sparse_parameters m) as [|q qs] eqn:Es; cbn [items map concat bound_params length].
  - rewrite !app_nil_r in *.
    split; [reflexivity|]. split; [congruence|]. split; [reflexivity|].
    split; [assumption|].
    eapply Permutation_NoDup; [symmetry; eassumption | assumption].
  - rewrite !app_nil_r.
    split; [discriminate|]. split; [reflexivity|]. split; [reflexivity|].
    split; [assumption|].
    eapply Permutation_NoDup; [symmetry; eassumption | assumption].
Qed.

Lemma sample_settings_accepted (n method : string) (b : bool) :
  settings_accepted (optimizer (sample_config n method b)).
Proof. cbn. unfold settings_accepted, Qlt, Qle. cbn. lia. Qed.

Lemma mixed_model_partitioned : model_partitioned mixed_model.
Proof.
  split; cbn.
  - repeat constructor; cbn; intuition congruence.
  - apply Permutation_sym.
    change [0; 1; 2] with ([0] ++ [1; 2]). apply Permutation_app_comm.
Qed.

Lemma get_optimizers_partition_witness :
  exists g,
    get_optimizers mixed_model (sample_config "adam" "hyperopt" false) = Ok g /\
    length (items g) = 2 /\
    Permutation (group_params g) [0; 1; 2].
Proof.
  destruct (get_optimizers_partition mixed_model
              (sample_config "adam" "hyperopt" false)) as (g & Hg & _ & _ & Hn & Hp & _).
  - reflexivity.
  - apply sample_settings_accepted.
  - apply mixed_model_partitioned.
  - cbn. congruence.
  - exists g. repeat split; assumption.
Defined.

(** C1 fails as stated on a model whose dense subset is empty: its one
    non-empty subset gets no one-optimizer group, the dense Adam being
    built first and without a test; and it fails on a configuration
    whose learning rate is negative, which the constructor of Adam
    refuses, whatever the model. *)
Lemma get_optimizers_refused :
  (name (optimizer (sample_config "adam" "hyperopt" false)) = "adam"%string /\
   model_partitioned sparse_only_model /\
   ~ exists g,
       get_optimizers sparse_only_model (sample_config "adam" "hyperopt" false) = Ok g /\
       length (items g) = nonempty_subsets sparse_only_model) /\
  (name (optimizer (MoreSamples.lr_config (-1 # 1000)%Q)) = "adam"%string /\
   model_partitioned mixed_model /\
   get_optimizers mixed_model (MoreSamples.lr_config (-1 # 1000)%Q) =
     Raise ValueError).
Proof.
  split.
  - split; [reflexivity|]. split.
    + split; cbn; [repeat constructor; cbn; tauto | apply Permutation_refl].
    + intros (g & Hg & _). cbn in Hg. discriminate.
  - split; [reflexivity|]. split; [apply mixed_model_partitioned | reflexivity].
Qed.

End OptimFacts.

(** ** Tensors *)

Module TensorFacts.

Lemma rows_of_fill {A} (c : nat) (r cur rest : list A) :
  r <> [] -> length cur + length r = c ->
  rows_of c cur (r ++ rest) = (cur ++ r) :: rows_of c [] rest.
Proof.
  revert cur. induction r as [|x r IH]; intros cur Hne Hlen; [congruence|].
  cbn [app rows_of]. rewrite length_app. cbn [length] in *.
  destruct r as [|y r'].
  - cbn [length] in Hlen.
    replace (length cur + 1 =? c) with true by (symmetry; apply Nat.eqb_eq; lia).
    reflexivity.
  - replace (length cur + 1 =? c) with false
      by (symmetry; apply Nat.eqb_neq; cbn [length] in Hlen; lia).
    rewrite IH.
    + rewrite <- app_assoc. reflexivity.
    + discriminate.
    + rewrite length_app. cbn [length] in *. lia.
Qed.

(** Cutting the concatenation of rows of one length gives the rows. *)
Lemma rows_of_concat {A} (c : nat) (rows : list (list A)) :
  0 < c -> Forall (fun r => length r = c) rows ->
  rows_of c [] (concat rows) = rows.
Proof.
  intros Hc. induction 1 as [|r rows Hr _ IH]; [reflexivity|].
  cbn [concat]. rewrite rows_of_fill.
  - rewrite IH. reflexivity.
  - destruct r; [cbn in Hr; lia | discriminate].
  - cbn. assumption.
Qed.

(** No batch of a loader is empty. *)
Lemma rows_of_nonempty {A} (n : nat) (l cur : list A) :
  Forall (fun c => c <> []) (rows_of n cur l).
Proof.
  revert cur. induction l as [|x l IH]; intros cur; cbn [rows_of].
  - destruct cur; constructor; [discriminate | constructor].
  - destruct (length (cur ++ [x]) =? n).
    + constructor; [|apply IH]. destruct cur; discriminate.
    + apply IH.
Qed.

Lemma length_concat_uniform {A} (c : nat) (rows : list (list A)) :
  Forall (fun r => length r = c) rows ->
  length (concat rows) = length rows * c.
Proof.
  induction 1 as [|r rows Hr _ IH]; [reflexivity|].
  cbn [concat length]. rewrite length_app, IH, Hr. lia.
Qed.

Lemma nth_error_concat_uniform {A} (c : nat) (rows : list (list A)) (s b : nat) :
  Forall (fun r => length r = c) rows -> b < c ->
  nth_error (concat rows) (s * c + b) =
  match nth_error rows s with
  | Some r => nth_error r b
  | None => None
  end.
Proof.
  intros H. revert s. induction H as [|r rows Hr _ IH]; intros s Hb.
  - destruct s; cbn; apply nth_error_None; cbn; lia.
  - destruct s as [|s]; cbn [concat nth_error].
    + cbn. apply nth_error_app1. lia.
    + rewrite nth_error_app2 by (cbn; lia).
      replace (S s * c + b - length r) with (s * c + b) by (cbn; lia).
      apply IH. assumption.
Qed.

Lemma nth_error_repeat_1d {A} (l : list A) (n s b : nat) :
  s < n -> b < length l ->
  nth_error (repeat_1d l n) (s * length l + b) = nth_error l b.
Proof.
  intros Hs Hb. unfold repeat_1d.
  rewrite (nth_error_concat_uniform (length l)).
  - rewrite (nth_error_repeat _ Hs). reflexivity.
  - apply Forall_forall. intros x Hx. apply repeat_spec in Hx. congruence.
  - assumption.
Qed.

Lemma length_repeat_1d {A} (l : list A) (n : nat) :
  length (repeat_1d l n) = n * length l.
Proof.
  unfold repeat_1d. rewrite (length_concat_uniform (length l)).
  - rewrite repeat_length. reflexivity.
  - apply Forall_forall. intros x Hx. apply repeat_spec in Hx. congruence.
Qed.

(** The rows of a (steps, batch, classes) tensor, step after step. *)
Lemma has_shape_rows {A} (t : tensor3 A) (steps batch classes : nat) :
  has_shape t steps batch classes ->
  Forall (fun m => length m = batch) (steps_of t) /\
  Forall (fun row => length row = classes) (concat (steps_of t)).
Proof.
  intros (_ & _ & H). induction H as [|m l [Hm Hrows] _ [IH1 IH2]].
  - split; constructor.
  - split; [constructor; assumption|].
    cbn [concat]. apply Forall_app. split; assumption.
Qed.

Lemma select_last_shape {A} (t : tensor3 A) (steps batch classes : nat) :
  has_shape t steps batch classes -> 0 < steps ->
  exists final,
    select_last t = Ok final /\
    nth_error (steps_of t) (steps - 1) = Some final /\
    length final = batch /\
    Forall (fun row => length row = classes) final.
Proof.
  intros (_ & Hlen & H) Hsteps. unfold select_last.
  destruct (rev (steps_of t)) as [|m l] eqn:E.
  - apply (f_equal (@rev _)) in E. rewrite rev_involutive in E.
    rewrite E in Hlen. cbn in Hlen. lia.
  - apply (f_equal (@rev _)) in E. rewrite rev_involutive in E. cbn in E.
    rewrite E in *. exists m. split; [reflexivity|].
    rewrite length_app in Hlen. cbn in Hlen.
    apply Forall_app in H. destruct H as [_ H].
    inversion H as [|? ? [Hm Hrows] _]; subst.
    split; [|split; [reflexivity | assumption]].
    rewrite nth_error_app2 by (rewrite length_rev; lia).
    replace (length (rev l) + 1 - 1 - length (rev l)) with 0 by lia.
    reflexivity.
Qed.

Lemma size2_shape {A} (t : tensor3 A) (steps batch classes : nat) :
  has_shape t steps batch classes -> size2 t = classes.
Proof. intros (Hc & _). exact Hc. Qed.

(** On a contiguous (steps, batch, classes) tensor, [view(-1, classes)]
    is the list of its rows, step after step. *)
Lemma view_rows_shape {A} (t : tensor3 A) (steps batch classes : nat) :
  has_shape t steps batch classes -> 0 < classes ->
  view_rows t classes = Ok (concat (steps_of t)).
Proof.
  intros Hshape Hc. destruct (has_shape_rows t steps batch classes Hshape) as [_ Hrows].
  unfold view_rows.
  replace (classes =? 0) with false by (symmetry; apply Nat.eqb_neq; lia).
  rewrite (length_concat_uniform classes _ Hrows), Nat.Div0.mod_mul.
  cbn. rewrite rows_of_concat by assumption. reflexivity.
Qed.

Section Argmax.
Context {score : Type} (score_ltb : score -> score -> bool).

Lemma argmax_row_nonempty (row : list score) :
  row <> [] -> argmax_row score_ltb row = Ok (chosen_class score_ltb row).
Proof. destruct row; [congruence | reflexivity]. Qed.

Lemma argmax_dim1_nonempty (m : list (list score)) :
  Forall (fun row => row <> []) m ->
  argmax_dim1 score_ltb m = Ok (map (chosen_class score_ltb) m).
Proof.
  induction 1 as [|row m Hrow _ IH]; [reflexivity|].
  cbn [argmax_dim1 map]. rewrite (argmax_row_nonempty row Hrow), IH. reflexivity.
Qed.

End Argmax.

Lemma agreements_le (a b : list Z) : agreements a b <= length b.
Proof.
  revert b. induction a as [|x a IH]; intros [|y b]; cbn; try lia.
  specialize (IH b). destruct (Z.eqb x y); lia.
Qed.

Lemma mask_select_agreements (a b : list Z) :
  length a = length b ->
  exists matching,
    eq_1d a b = Ok (map (fun p => Z.eqb (fst p) (snd p)) (combine a b)) /\
    mask_select a (map (fun p => Z.eqb (fst p) (snd p)) (combine a b)) = Ok matching /\
    length matching = agreements a b.
Proof.
  intros Hlen. eexists. split; [|split].
  - unfold eq_1d. rewrite Hlen, Nat.eqb_refl. reflexivity.
  - unfold mask_select.
    rewrite length_map, length_combine, <- Hlen, Nat.min_id, Nat.eqb_refl.
    reflexivity.
  - clear Hlen. revert b. induction a as [|x a IH]; intros [|y b]; try reflexivity.
    cbn [combine map fst snd filter agreements].
    destruct (Z.eqb x y); cbn [map length]; rewrite IH; reflexivity.
Qed.

Lemma truediv_fraction (a b : nat) :
  a <= b -> 0 < b ->
  truediv (Z.of_nat a) (Z.of_nat b) =
    Ok (inject_Z (Z.of_nat a) / inject_Z (Z.of_nat b))%Q /\
  (0 <= inject_Z (Z.of_nat a) / inject_Z (Z.of_nat b) <= 1)%Q.
Proof.
  intros Hab Hb. split.
  - unfold truediv.
    replace (Z.of_nat b =? 0)%Z with false by (symmetry; apply Z.eqb_neq; lia).
    reflexivity.
  - assert (Hq : (0 < inject_Z (Z.of_nat b))%Q).
    { change 0%Q with (inject_Z 0). rewrite <- Zlt_Qlt. lia. }
    split.
    + apply Qle_shift_div_l; [assumption|].
      rewrite Qmult_0_l. change 0%Q with (inject_Z 0). rewrite <- Zle_Qle. lia.
    + apply Qle_shift_div_r; [assumption|].
      rewrite Qmult_1_l. rewrite <- Zle_Qle. lia.
Qed.

End TensorFacts.

(** ** Running a computation *)

Module MonadFacts.

Lemma bind_ok {S A B} (m : M S A) (k : A -> M S B) (s s' : S) (a : A) :
  m s = (Ok a, s') -> bind m k s = k a s'.
Proof. intros H. unfold bind. rewrite H. reflexivity. Qed.

Lemma bind_raise {S A B} (m : M S A) (k : A -> M S B) (s s' : S) (e : exn) :
  m s = (Raise e, s') -> bind m k s = (Raise e, s').
Proof. intros H. unfold bind. rewrite H. reflexivity. Qed.

Lemma bind_lift {S A B} (r : result A) (k : A -> M S B) (s : S) (a : A) :
  r = Ok a -> bind (lift r) k s = k a s.
Proof. intros ->. reflexivity. Qed.

Lemma bind_ext {S A B} (m : M S A) (k1 k2 : A -> M S B) (s : S) :
  (forall a s', k1 a s' = k2 a s') -> bind m k1 s = bind m k2 s.
Proof. intros H. unfold bind. destruct (m s) as [[a|e] s']; [apply H | reflexivity]. Qed.

End MonadFacts.
Import MonadFacts.

(** ** The training step *)

Module StepFacts.
Import Train TensorFacts Samples.

Section WithCollaborators.
Context {C : Collaborators}.

Lemma for_each_zero_grad (l : list Optimizer) (w : world) :
  for_each l opt_zero_grad w =
  (Ok tt,
   set_model (model_training w)
             (fold_left (fun h o => zero_grad o h) l (model_heap w))
             (set_log (log w ++ map EvZeroGrad l) w)).
Proof.
  revert w. induction l as [|o l IH]; intros w.
  - destruct w. cbn. rewrite app_nil_r. reflexivity.
  - cbn [for_each]. erewrite bind_ok by reflexivity.
    rewrite IH. destruct w. cbn. rewrite <- app_assoc. reflexivity.
Qed.

Lemma for_each_step (l : list Optimizer) (w : world) :
  for_each l opt_step w =
  (Ok tt,
   set_model (model_training w)
             (fold_left (fun h o => step o h) l (model_heap w))
             (set_log (log w ++ map EvStep l) w)).
Proof.
  revert w. induction l as [|o l IH]; intros w.
  - destruct w. cbn. rewrite app_nil_r. reflexivity.
  - cbn [for_each]. erewrite bind_ok by reflexivity.
    rewrite IH. destruct w. cbn. rewrite <- app_assoc. reflexivity.
Qed.

(** A training step on a batch whose labels are as many as the rows of
    the scores runs to its end. *)
Lemma training_step_run (labels : list Z) (toks : tokens)
      (optimizers : pyseq Optimizer) (w : world) (steps classes : nat) :
  labels <> [] -> 0 < steps -> 0 < classes ->
  has_shape (step_outputs optimizers toks w) steps (length labels) classes ->
  exists final,
    select_last (step_outputs optimizers toks w) = Ok final /\
    length final = length labels /\
    Forall (fun row => length row = classes) final /\
    training_step (labels, toks) optimizers w =
    (Ok (step_loss labels toks optimizers w,
         (inject_Z (Z.of_nat (agreements (map (chosen_class score_ltb) final) labels))
          / inject_Z (Z.of_nat (length labels)))%Q),
     set_model true (stepped_heap labels toks optimizers w)
               (set_log (log w ++ step_events labels toks optimizers w) w)).
Proof.
  intros Hlabels Hsteps Hclasses Hshape.
  assert (Hbatch : 0 < length labels) by (destruct labels; [congruence | cbn; lia]).
  destruct (select_last_shape _ _ _ _ Hshape Hsteps) as (final & Hfinal & _ & Hlen & Hrows).
  exists final. repeat (split; [assumption|]).
  assert (Hne : Forall (fun row : list score => row <> []) final).
  { eapply Forall_impl; [|exact Hrows]. intros [|x r] Hr; [cbn in Hr; lia | discriminate]. }
  destruct (mask_select_agreements (map (chosen_class score_ltb) final) labels)
    as (matching & Heq & Hmask & Hcount).
  { rewrite length_map. assumption. }
  destruct (truediv_fraction (agreements (map (chosen_class score_ltb) final) labels)
                             (length labels)) as [Hdiv _].
  { apply agreements_le. } { assumption. }
  unfold training_step.
  erewrite bind_ok by reflexivity.
  erewrite bind_ok by apply for_each_zero_grad.
  erewrite bind_ok by reflexivity.
  cbn [model_training model_heap log set_model set_log].
  change (forward true _ toks) with (step_outputs optimizers toks w).
  erewrite bind_lift by exact Hfinal.
  erewrite bind_lift by (apply argmax_dim1_nonempty; exact Hne).
  erewrite bind_lift by exact Heq.
  erewrite bind_lift by exact Hmask.
  unfold nelement. rewrite Hcount.
  erewrite bind_lift by exact Hdiv.
  rewrite (size2_shape _ _ _ _ Hshape).
  erewrite bind_lift by (eapply view_rows_shape; eassumption).
  erewrite bind_ok by reflexivity.
  erewrite bind_ok by reflexivity.
  erewrite bind_ok by apply for_each_step.
  cbn [model_training model_heap log set_model set_log ret].
  unfold step_loss, stepped_heap, step_events, size0.
unfold zeroed_heap.
  destruct w. cbn [model_training model_heap log set_model set_log
                   train_dataset eval_dataset next_id draws].
  repeat rewrite <- app_assoc. reflexivity.
Qed.

(** The first index at which a test holds is what [find] gives on the
    indices in order. *)
Lemma find_first (f : nat -> bool) (n : nat) :
  forall a k,
    a <= k < a + n -> f k = true -> (forall j, a <= j < k -> f j = false) ->
    find f (seq a n) = Some k.
Proof.
  induction n as [|n IH]; intros a k Hk Hf Hbefore; [lia|].
  cbn [seq find]. destruct (Nat.eq_dec a k) as [->|Hne].
  - rewrite Hf. reflexivity.
  - rewrite (Hbefore a) by lia. apply IH; [lia | assumption|].
    intros j Hj. apply Hbefore. lia.
Qed.

(** The scan of [torch.argmax] over a row: with [best], at index [bi],
    the first greatest score of the part [pre] already seen, it ends on
    the first greatest score of the row. *)
Lemma argmax_from_first_greatest :
  scores_ordered ->
  forall (rest pre : list score) (best : score) (bi : nat),
    nth_error pre bi = Some best ->
    (forall y, In y pre -> score_ltb best y = false) ->
    (forall j y, j < bi -> nth_error pre j = Some y -> score_ltb y best = true) ->
    exists k x,
      argmax_from score_ltb best (Z.of_nat bi) (Z.of_nat (length pre)) rest =
        Z.of_nat k /\
      nth_error (pre ++ rest) k = Some x /\
      (forall y, In y (pre ++ rest) -> score_ltb x y = false) /\
      (forall j y, j < k -> nth_error (pre ++ rest) j = Some y ->
                   score_ltb y x = true).
Proof.
  intros (Hirr & Htrans & Hneg).
  induction rest as [|x rest IH]; intros pre best bi Hbest Hmax Hfirst.
  - exists bi, best. rewrite app_nil_r. cbn [argmax_from].
    split; [reflexivity|]. split; [assumption|]. split; assumption.
  - assert (Hbi : bi < length pre) by (apply nth_error_Some; congruence).
    cbn [argmax_from].
    replace (Z.of_nat (length pre) + 1)%Z with (Z.of_nat (length (pre ++ [x])))
      by (rewrite length_app; cbn [length]; lia).
    replace (pre ++ x :: rest) with ((pre ++ [x]) ++ rest)
      by (rewrite <- app_assoc; reflexivity).
    destruct (score_ltb best x) eqn:Hlt.
    + apply IH.
      * rewrite nth_error_app2 by lia. rewrite Nat.sub_diag. reflexivity.
      * intros y Hy. apply in_app_or in Hy. destruct Hy as [Hy | [<- | []]].
        -- destruct (score_ltb x y) eqn:Hxy; [|reflexivity].
           rewrite <- (Hmax y Hy). symmetry. apply (Htrans best x y); assumption.
        -- apply Hirr.
      * intros j y Hj Hy.
        rewrite nth_error_app1 in Hy by assumption.
        destruct (Hneg best y x Hlt) as [H | H]; [|exact H].
        rewrite (Hmax y (nth_error_In _ _ Hy)) in H. discriminate H.
    + apply IH.
      * rewrite nth_error_app1 by assumption. exact Hbest.
      * intros y Hy. apply in_app_or in Hy. destruct Hy as [Hy | [<- | []]].
        -- apply Hmax, Hy.
        -- exact Hlt.
      * intros j y Hj Hy.
        rewrite nth_error_app1 in Hy by lia. exact (Hfirst j y Hj Hy).
Qed.

(** The class [torch.argmax] chooses in a row is the first class that
    has a greatest score. *)
Lemma chosen_class_greatest (row : list score) :
  scores_ordered -> row <> [] ->
  exists k,
    class_of_greatest row = Some k /\
    chosen_class score_ltb row = Z.of_nat k.
Proof.
  intros Hord Hrow. destruct row as [|x0 rest]; [congruence|].
  destruct (argmax_from_first_greatest Hord rest [x0] x0 0)
    as (k & x & Hk & Hx & Hmax & Hfirst).
  - reflexivity.
  - intros y [<- | []]. apply Hord.
  - intros j y Hj. lia.
  - cbn [app length] in *. exists k. split; [|exact Hk].
    unfold class_of_greatest. apply find_first.
    + split; [lia|]. cbn [Nat.add]. apply nth_error_Some. congruence.
    + rewrite Hx. unfold is_greatest. apply forallb_forall.
      intros y Hy. rewrite (Hmax y Hy). reflexivity.
    + intros j Hj.
      destruct (nth_error (x0 :: rest) j) as [y|] eqn:Hy; [|reflexivity].
      unfold is_greatest.
      destruct (forallb (fun y0 => negb (score_ltb y y0)) (x0 :: rest)) eqn:Hall;
        [|reflexivity].
      rewrite forallb_forall in Hall.
      specialize (Hall x (nth_error_In _ _ Hx)).
      rewrite (Hfirst j y ltac:(lia) Hy) in Hall. discriminate Hall.
Qed.

(** Counting, index by index, the rows whose argmax over the classes is
    the label is counting the agreements of the classes the step chose
    with the labels. *)
Lemma exact_matches_agreements (final : list (list score)) (labels : list Z) :
  scores_ordered ->
  Forall (fun row => row <> []) final ->
  exact_matches final labels = agreements (map (chosen_class score_ltb) final) labels.
Proof.
  unfold exact_matches. intros Hord Hne. revert labels.
  induction Hne as [|row final Hrow _ IH]; intros labels.
  - cbn [map agreements].
    assert (H : forall l : list nat,
               filter (fun i => match nth_error (@nil (list score)) i, nth_error labels i with
                                | Some row, Some l =>
                                    match class_of_greatest row with
                                    | Some c => Z.eqb (Z.of_nat c) l
                                    | None => false
                                    end
                                | _, _ => false
                                end) l = []).
    { induction l as [|i l IHl]; [reflexivity|]. cbn [filter].
      destruct i; cbn [nth_error]; exact IHl. }
    rewrite H. reflexivity.
  - destruct labels as [|l labels]; [reflexivity|].
    cbn [length seq filter nth_error map agreements].
    destruct (chosen_class_greatest row Hord Hrow) as (k & -> & ->).
    rewrite <- seq_shift, filter_map_swap. cbn [nth_error].
    specialize (IH labels).
    destruct (Z.eqb (Z.of_nat k) l);
      cbn [length]; rewrite length_map, IH; reflexivity.
Qed.

(** C2: on every training batch, the accuracy that [training_step]
    returns is the number of positions at which the argmax over the
    classes of the scores of the final output step, the first class
    with a greatest score, is the label, divided by the number of
    labels; and it lies between 0 and 1.  A batch has labels, and the
    scores of the model are numbers of the shape (steps, batch,
    classes), with an output step and a class at least. *)
Theorem training_step_accuracy (labels : list Z) (toks : tokens)
        (optimizers : pyseq Optimizer) (w : world) (steps classes : nat) :
  scores_ordered ->
  labels <> [] -> 0 < steps -> 0 < classes ->
  has_shape (step_outputs optimizers toks w) steps (length labels) classes ->
  exists loss acc w' final,
    training_step (labels, toks) optimizers w = (Ok (loss, acc), w') /\
    nth_error (steps_of (step_outputs optimizers toks w)) (steps - 1) = Some final /\
    acc = (inject_Z (Z.of_nat (exact_matches final labels))
           / inject_Z (Z.of_nat (length labels)))%Q /\
    (0 <= acc <= 1)%Q.
Proof.
  intros Hord Hlabels Hsteps Hclasses Hshape.
  destruct (training_step_run labels toks optimizers w steps classes
              Hlabels Hsteps Hclasses Hshape)
    as (final & Hfinal & Hlen & Hrows & Hrun).
  destruct (select_last_shape _ _ _ _ Hshape Hsteps) as (final' & Hfinal' & Hnth & _).
  assert (final' = final) as -> by congruence.
  assert (Hne : Forall (fun row : list score => row <> []) final).
  { eapply Forall_impl; [|exact Hrows]. intros [|x r] Hr; [cbn in Hr; lia | discriminate]. }
  do 3 eexists. exists final.
  split; [exact Hrun|]. split; [exact Hnth|].
  rewrite (exact_matches_agreements final labels Hord Hne).
  split; [reflexivity|].
  apply truediv_fraction.
  - apply agreements_le.
  - destruct labels; [congruence | cbn; lia].
Qed.

(** C3: on every training batch, [training_step] resets the gradients of
    every optimizer of the group, runs one forward pass, computes the
    loss on the rows of all output steps, step after step, against the
    labels repeated once per output step, so that row [s * batch + b] is
    the scores of position [b] at step [s] and is supervised by label
    [b]; it then backpropagates once and steps every optimizer of the
    group. *)
Theorem training_step_algorithm (labels : list Z) (toks : tokens)
        (optimizers : pyseq Optimizer) (w : world) (steps classes : nat) :
  labels <> [] -> 0 < steps -> 0 < classes ->
  has_shape (step_outputs optimizers toks w) steps (length labels) classes ->
  let outputs := steps_of (step_outputs optimizers toks w) in
  let flat := concat outputs in
  let labels' := repeat_1d labels steps in
  exists acc w',
    training_step (labels, toks) optimizers w =
      (Ok (loss_func flat labels', acc), w') /\
    log w' = log w ++ [EvModelTrain] ++ map EvZeroGrad (items optimizers) ++
             [EvForward true toks; EvLoss flat labels'; EvBackward] ++
             map EvStep (items optimizers) /\
    model_heap w' =
      fold_left (fun h o => step o h) (items optimizers)
                (backward (loss_func flat labels') (zeroed_heap optimizers w)) /\
    length flat = steps * length labels /\
    length labels' = steps * length labels /\
    Forall (fun row => length row = classes) flat /\
    forall s b, s < steps -> b < length labels ->
      nth_error flat (s * length labels + b) =
        match nth_error outputs s with
        | Some m => nth_error m b
        | None => None
        end /\
      nth_error labels' (s * length labels + b) = nth_error labels b.
Proof.
  intros Hlabels Hsteps Hclasses Hshape outputs flat labels'.
  destruct (training_step_run labels toks optimizers w steps classes
              Hlabels Hsteps Hclasses Hshape)
    as (final & _ & _ & _ & Hrun).
  destruct (has_shape_rows _ _ _ _ Hshape) as [Hbatch Hrows].
  assert (Hlen : length outputs = steps) by (apply Hshape).
  unfold stepped_heap, step_events, step_loss in Hrun.
  fold outputs in Hrun. rewrite Hlen in Hrun. fold flat labels' in Hrun.
  do 2 eexists. split; [exact Hrun|].
  split; [reflexivity|].
  split; [reflexivity|].
  split.
  { unfold flat. rewrite (length_concat_uniform (length labels) outputs Hbatch).
    rewrite Hlen. reflexivity. }
  split; [apply length_repeat_1d|].
  split; [exact Hrows|].
  intros s b Hs Hb. split.
  - apply nth_error_concat_uniform; assumption.
  - apply nth_error_repeat_1d; assumption.
Qed.

Lemma no_forward_in_steps (l : list Optimizer) :
  existsb is_forward (map EvStep l) = false.
Proof. induction l as [|o l IH]; [reflexivity | exact IH]. Qed.

(** C10: whatever mode the model was left in, [training_step] first puts
    it into training mode: the one forward pass of the step runs in
    training mode, after [model.train()], and the step does the same
    from a model left in either mode. *)
Theorem training_step_training_mode (batch : list Z * tokens)
        (optimizers : pyseq Optimizer) (w : world) (mode : bool) :
  exists after,
    log (snd (training_step batch optimizers w)) =
      log w ++ [EvModelTrain] ++ map EvZeroGrad (items optimizers) ++
      EvForward true (snd batch) :: after /\
    existsb is_forward after = false /\
    training_step batch optimizers (set_model mode (model_heap w) w) =
    training_step batch optimizers (set_model true (model_heap w) w).
Proof.
  destruct batch as [labels toks]. cbn [snd].
  assert (Hmode : training_step (labels, toks) optimizers (set_model mode (model_heap w) w) =
                  training_step (labels, toks) optimizers (set_model true (model_heap w) w)).
  { unfold training_step.
    erewrite bind_ok by reflexivity. symmetry. erewrite bind_ok by reflexivity.
    destruct w. reflexivity. }
  unfold training_step.
  erewrite bind_ok by reflexivity.
  erewrite bind_ok by apply for_each_zero_grad.
  erewrite bind_ok by reflexivity.
  cbn [model_training model_heap log set_model set_log].
  repeat rewrite <- app_assoc.
  set (outputs := forward true _ toks).
  set (w3 := set_log _ _).
  assert (Hlog3 : log w3 = log w ++ [EvModelTrain] ++ map EvZeroGrad (items optimizers) ++
                           [EvForward true toks]) by reflexivity.
  assert (Hstop : forall (A : Type) (e : exn),
             exists after,
               log (snd (@Raise A e, w3)) =
                 log w ++ [EvModelTrain] ++ map EvZeroGrad (items optimizers) ++
                 EvForward true toks :: after /\
               existsb is_forward after = false /\
               training_step (labels, toks) optimizers (set_model mode (model_heap w) w) =
               training_step (labels, toks) optimizers (set_model true (model_heap w) w)).
  { intros A e. exists []. cbn [snd]. rewrite Hlog3. repeat split; assumption. }
  unfold bind at 1, lift at 1. destruct (select_last outputs) as [final|e]; [|apply Hstop].
  unfold bind at 1, lift at 1. destruct (argmax_dim1 score_ltb final) as [chosen|e]; [|apply Hstop].
  unfold bind at 1, lift at 1. destruct (eq_1d chosen labels) as [mask|e]; [|apply Hstop].
  unfold bind at 1, lift at 1. destruct (mask_select chosen mask) as [matching|e]; [|apply Hstop].
  unfold bind at 1, lift at 1.
  destruct (truediv (nelement matching) (nelement labels)) as [acc|e]; [|apply Hstop].
  unfold bind at 1, lift at 1.
  destruct (view_rows outputs (size2 outputs)) as [rows|e]; [|apply Hstop].
  erewrite bind_ok by reflexivity.
  erewrite bind_ok by reflexivity.
  erewrite bind_ok by apply for_each_step.
  cbn [model_training model_heap log set_model set_log ret snd].
  rewrite Hlog3. eexists. split.
  - repeat rewrite <- app_assoc. cbn [app]. reflexivity.
  - split; [|exact Hmode].
    cbn [existsb is_forward orb]. apply no_forward_in_steps.
Qed.

End WithCollaborators.

Example training_step_toy :
  fst (@training_step toy toy_batch toy_optimizers fresh_world) =
  Ok (6%Z, (inject_Z 2 / inject_Z 3)%Q).
Proof. reflexivity. Qed.

Example training_step_toy_log :
  log (snd (@training_step toy toy_batch toy_optimizers fresh_world)) =
  [@EvModelTrain toy;
   EvZeroGrad (Adam [1; 2] (1 # 1000)%Q ((9 # 10)%Q, (999 # 1000)%Q) (1 # 100000000)%Q);
   EvZeroGrad (SparseAdam [0] (1 # 1000)%Q ((9 # 10)%Q, (999 # 1000)%Q) (1 # 100000000)%Q);
   @EvForward toy true [[5%Z]; []; [2%Z; 3%Z]];
   @EvLoss toy [[0; 1]; [0; 1]; [0; 1]; [1; 1]; [0; 1]; [2; 1]]%Z [0; 1; 1; 0; 1; 1]%Z;
   EvBackward;
   EvStep (Adam [1; 2] (1 # 1000)%Q ((9 # 10)%Q, (999 # 1000)%Q) (1 # 100000000)%Q);
   EvStep (SparseAdam [0] (1 # 1000)%Q ((9 # 10)%Q, (999 # 1000)%Q) (1 # 100000000)%Q)].
Proof. reflexivity. Qed.

Lemma toy_shape :
  has_shape (@step_outputs toy toy_optimizers (snd toy_batch) fresh_world) 2 3 2.
Proof. split; [reflexivity|]. split; [reflexivity|]. repeat constructor. Qed.

Lemma toy_scores_ordered : @scores_ordered toy.
Proof.
  split; [|split]; cbn.
  - intros a. apply Z.ltb_irrefl.
  - intros a b c H1 H2. apply Z.ltb_lt in H1, H2. apply Z.ltb_lt. lia.
  - intros a b c H. apply Z.ltb_lt in H.
    destruct (Z.ltb a b) eqn:E; [left; reflexivity|].
    right. apply Z.ltb_ge in E. apply Z.ltb_lt. lia.
Qed.

(** On the toy batch the final step gives the scores [1; 1], [0; 1] and
    [2; 1]: the classes are 0, 1 and 0, the labels 0, 1 and 1. *)
Example exact_matches_toy :
  @exact_matches toy [[1; 1]; [0; 1]; [2; 1]]%Z [0; 1; 1]%Z = 2.
Proof. reflexivity. Qed.

(** With the labels all 0 the first output step, whose rows all have
    their greatest score at class 1, matches nowhere, and the final
    step matches at the two rows whose first greatest score is at
    class 0. *)
Example training_step_reads_final_step :
  fst (@training_step toy ([0; 0; 0]%Z, snd toy_batch) toy_optimizers fresh_world) =
  Ok (6%Z, (inject_Z 2 / inject_Z 3)%Q).
Proof. reflexivity. Qed.

Lemma training_step_accuracy_witness :
  exists loss acc w' final,
    @training_step toy toy_batch toy_optimizers fresh_world = (Ok (loss, acc), w') /\
    nth_error (steps_of (@step_outputs toy toy_optimizers (snd toy_batch) fresh_world))
              (2 - 1) = Some final /\
    acc = (inject_Z (Z.of_nat (exact_matches final (fst toy_batch)))
           / inject_Z (Z.of_nat (length (fst toy_batch))))%Q /\
    (0 <= acc <= 1)%Q.
Proof.
  apply (@training_step_accuracy toy (fst toy_batch) (snd toy_batch)
           toy_optimizers fresh_world 2 2).
  - exact toy_scores_ordered.
  - discriminate.
  - lia.
  - lia.
  - exact toy_shape.
Defined.

Lemma training_step_algorithm_witness :
  exists acc w',
    @training_step toy toy_batch toy_optimizers fresh_world =
      (Ok (6%Z, acc), w') /\
    log w' =
      [@EvModelTrain toy] ++ map EvZeroGrad (items toy_optimizers) ++
      [@EvForward toy true (snd toy_batch);
       @EvLoss toy [[0; 1]; [0; 1]; [0; 1]; [1; 1]; [0; 1]; [2; 1]]%Z [0; 1; 1; 0; 1; 1]%Z;
       EvBackward] ++
      map EvStep (items toy_optimizers).
Proof.
  destruct (@training_step_algorithm toy (fst toy_batch) (snd toy_batch)
              toy_optimizers fresh_world 2 2)
    as (acc & w' & Hrun & Hlog & _).
  - discriminate.
  - lia.
  - lia.
  - exact toy_shape.
  - exists acc, w'. split; [exact Hrun | exact Hlog].
Defined.

End StepFacts.

(** ** The cached data loaders *)

Module LoaderFacts.
Import Train Samples.

Section WithCollaborators.
Context {C : Collaborators}.

Lemma datasets_built_app (split : string) (l1 l2 : list event) :
  datasets_built split (l1 ++ l2) =
  datasets_built split l1 ++ datasets_built split l2.
Proof.
  induction l1 as [|e l1 IH]; [reflexivity|].
  destruct e; cbn [app datasets_built]; try exact IH.
  destruct (String.eqb split0 split); cbn [app]; rewrite IH; reflexivity.
Qed.

(** A loader that is made holds the dataset it was made for. *)
Lemma new_DataLoader_dataset (d : dataset) (batch_size : Z) (sh dr : bool)
      (num_workers : Z) (tp : TextPreprocessor) (dl : DataLoader) :
  new_DataLoader d batch_size sh dr num_workers tp = Ok dl -> dl_dataset dl = d.
Proof.
  unfold new_DataLoader.
  destruct (num_workers <? 0)%Z; [discriminate|].
  destruct (sh && (length (ds_examples d) =? 0)); [discriminate|].
  destruct (batch_size <=? 0)%Z; [discriminate|].
  intros H. injection H as <-. reflexivity.
Qed.

(** What a call does to the globals and to the log, whatever becomes of
    its loader: with the dataset of its split cached it changes nothing,
    and without it builds the dataset from the paths of its own
    configuration and caches it. *)
Lemma run_call_world (c : loader_call) (w : world) :
  let cached := match c with
                | CallTrain _ _ => train_dataset w
                | CallEval _ _ => eval_dataset w
                end in
  let d := {| ds_id := next_id w;
              ds_paths := get_datasets_paths (config_of c) (split_of c);
              ds_examples := read_csvs (get_datasets_paths (config_of c) (split_of c)) |} in
  snd (run_call c w) =
  match cached with
  | Some _ => w
  | None =>
      let w1 := set_log (log w ++ [EvCSVDatasetsMerger (split_of c) d])
                        (set_next_id (S (next_id w)) w) in
      match c with
      | CallTrain _ _ => set_train_dataset (Some d) w1
      | CallEval _ _ => set_eval_dataset (Some d) w1
      end
  end /\
  forall dl, fst (run_call c w) = Ok dl ->
             dl_dataset dl = match cached with Some d0 => d0 | None => d end.
Proof.
  destruct c as [cfg tp | cfg tp]; cbn [run_call split_of config_of].
  - unfold get_train_dataloader.
    erewrite bind_ok by reflexivity.
    destruct (train_dataset w) as [d0|] eqn:Ed.
    + erewrite bind_ok by reflexivity. unfold lift. cbn [fst snd].
      split; [reflexivity|]. intros dl Hdl.
      exact (new_DataLoader_dataset _ _ _ _ _ _ _ Hdl).
    + erewrite bind_ok by reflexivity. unfold lift. cbn [fst snd].
      split; [reflexivity|]. intros dl Hdl.
      exact (new_DataLoader_dataset _ _ _ _ _ _ _ Hdl).
  - unfold get_eval_dataloader.
    erewrite bind_ok by reflexivity.
    destruct (eval_dataset w) as [d0|] eqn:Ed.
    + erewrite bind_ok by reflexivity. unfold lift. cbn [fst snd].
      split; [reflexivity|]. intros dl Hdl.
      exact (new_DataLoader_dataset _ _ _ _ _ _ _ Hdl).
    + erewrite bind_ok by reflexivity. unfold lift. cbn [fst snd].
      split; [reflexivity|]. intros dl Hdl.
      exact (new_DataLoader_dataset _ _ _ _ _ _ _ Hdl).
Qed.

(** A call keeps the globals in step with what was built, never replaces
    a dataset that is cached, and hands out the cached dataset of its
    split. *)
Lemma run_call_cache (c : loader_call) (w : world) :
  cache_consistent w ->
  let w' := snd (run_call c w) in
  cache_consistent w' /\
  (forall d, train_dataset w = Some d -> train_dataset w' = Some d) /\
  (forall d, eval_dataset w = Some d -> eval_dataset w' = Some d) /\
  (forall dl, fst (run_call c w) = Ok dl ->
     datasets_built (split_of c) (log w') = [dl_dataset dl]).
Proof.
  intros [Htrain Htest]. destruct (run_call_world c w) as [Hw Hdl].
  cbv zeta in *. rewrite Hw.
  destruct c as [cfg tp | cfg tp]; cbn [split_of config_of] in *.
  - destruct (train_dataset w) as [d0|] eqn:Ed.
    + split; [split; [rewrite Ed|]; assumption|].
      split; [intros d' H; congruence|]. split; [intros d' H; exact H|].
      intros dl H. rewrite (Hdl dl H). exact Htrain.
    + split.
      { unfold cache_consistent.
        cbn [train_dataset eval_dataset log set_train_dataset set_log set_next_id].
        rewrite !datasets_built_app, Htrain, Htest. cbn.
        rewrite ?app_nil_r. split; reflexivity. }
      split; [intros d' H; discriminate|]. split; [intros d' H; exact H|].
      intros dl H. rewrite (Hdl dl H).
      cbn [train_dataset eval_dataset log set_train_dataset set_log set_next_id].
      rewrite datasets_built_app, Htrain. reflexivity.
  - destruct (eval_dataset w) as [d0|] eqn:Ed.
    + split; [split; [|rewrite Ed]; assumption|].
      split; [intros d' H; exact H|]. split; [intros d' H; congruence|].
      intros dl H. rewrite (Hdl dl H). exact Htest.
    + split.
      { unfold cache_consistent.
        cbn [train_dataset eval_dataset log set_eval_dataset set_log set_next_id].
        rewrite !datasets_built_app, Htrain, Htest. cbn.
        rewrite ?app_nil_r. split; reflexivity. }
      split; [intros d' H; exact H|]. split; [intros d' H; discriminate|].
      intros dl H. rewrite (Hdl dl H).
      cbn [train_dataset eval_dataset log set_eval_dataset set_log set_next_id].
      rewrite datasets_built_app, Htest. reflexivity.
Qed.

Lemma cached_of_built (w : world) (c : loader_call) (d : dataset) :
  cache_consistent w ->
  datasets_built (split_of c) (log w) = [d] ->
  match c with
  | CallTrain _ _ => train_dataset w = Some d
  | CallEval _ _ => eval_dataset w = Some d
  end.
Proof.
  intros [Htrain Htest] Hd. destruct c; cbn [split_of] in Hd.
  - rewrite Htrain in Hd. destruct (train_dataset w); congruence.
  - rewrite Htest in Hd. destruct (eval_dataset w); congruence.
Qed.

Lemma built_of_cached (w : world) (c : loader_call) (d : dataset) :
  cache_consistent w ->
  match c with
  | CallTrain _ _ => train_dataset w = Some d
  | CallEval _ _ => eval_dataset w = Some d
  end ->
  datasets_built (split_of c) (log w) = [d].
Proof.
  intros [Htrain Htest] Hd. destruct c; cbn [split_of].
  - rewrite Htrain, Hd. reflexivity.
  - rewrite Htest, Hd. reflexivity.
Qed.

(** Any number of calls later, the globals are still in step with what
    was built, a cached dataset is still the cached one, and every loader
    handed out holds the one dataset built for its split. *)
Lemma run_calls_cache (calls : list loader_call) (w : world) :
  cache_consistent w ->
  let w' := snd (run_calls calls w) in
  cache_consistent w' /\
  (forall d, train_dataset w = Some d -> train_dataset w' = Some d) /\
  (forall d, eval_dataset w = Some d -> eval_dataset w' = Some d) /\
  (forall c dl, In (c, Ok dl) (fst (run_calls calls w)) ->
     datasets_built (split_of c) (log w') = [dl_dataset dl]).
Proof.
  revert w. induction calls as [|c calls IH]; intros w Hw.
  - cbn. repeat split; try assumption; try apply Hw; tauto.
  - cbn [run_calls].
    destruct (run_call_cache c w Hw) as (Hw1 & Ht1 & He1 & Hdl1).
    destruct (run_call c w) as [r w1] eqn:E1. cbn [fst snd] in *.
    destruct (IH w1 Hw1) as (Hw2 & Ht2 & He2 & Hdl2).
    destruct (run_calls calls w1) as [rs w2] eqn:E2. cbn [fst snd] in *.
    split; [assumption|].
    split; [intros d H; apply Ht2, Ht1, H|].
    split; [intros d H; apply He2, He1, H|].
    intros c' dl [Hin|Hin].
    + injection Hin as <- ->. specialize (Hdl1 dl eq_refl).
      apply built_of_cached; [assumption|].
      pose proof (cached_of_built w1 c (dl_dataset dl) Hw1 Hdl1) as Hc.
      destruct c; [apply Ht2 | apply He2]; exact Hc.
    + apply Hdl2, Hin.
Qed.

(** A dataset that was built is still the one of its split any number
    of calls later. *)
Lemma run_calls_keep (calls : list loader_call) (w : world) (c : loader_call)
      (d : dataset) :
  cache_consistent w ->
  datasets_built (split_of c) (log w) = [d] ->
  datasets_built (split_of c) (log (snd (run_calls calls w))) = [d].
Proof.
  intros Hw Hd.
  destruct (run_calls_cache calls w Hw) as (Hw' & Ht & He & _).
  apply built_of_cached; [assumption|].
  pose proof (cached_of_built w c d Hw Hd) as Hc.
  destruct c; [apply Ht | apply He]; exact Hc.
Qed.

(** A call builds the dataset of its split when none was built, from the
    paths of its own configuration. *)
Lemma run_call_builds (c : loader_call) (w : world) :
  cache_consistent w ->
  datasets_built (split_of c) (log w) = [] ->
  datasets_built (split_of c) (log (snd (run_call c w))) =
  [{| ds_id := next_id w;
      ds_paths := get_datasets_paths (config_of c) (split_of c);
      ds_examples := read_csvs (get_datasets_paths (config_of c) (split_of c)) |}].
Proof.
  intros [Htrain Htest] Hnone. destruct (run_call_world c w) as [Hw _].
  cbv zeta in Hw. rewrite Hw.
  destruct c as [cfg tp | cfg tp]; cbn [split_of config_of] in *.
  - rewrite Htrain in Hnone. destruct (train_dataset w); [discriminate|].
    cbn [log set_train_dataset set_log set_next_id].
    rewrite datasets_built_app, Htrain. reflexivity.
  - rewrite Htest in Hnone. destruct (eval_dataset w); [discriminate|].
    cbn [log set_eval_dataset set_log set_next_id].
    rewrite datasets_built_app, Htest. reflexivity.
Qed.

(** The calls for one split build nothing for the other. *)
Lemma run_call_other_split (c c' : loader_call) (w : world) :
  split_of c' <> split_of c ->
  datasets_built (split_of c) (log (snd (run_call c' w))) =
  datasets_built (split_of c) (log w).
Proof.
  intros Hne. destruct (run_call_world c' w) as [Hw _]. cbv zeta in Hw. rewrite Hw.
  destruct c' as [cfg tp | cfg tp], c as [cfg0 tp0 | cfg0 tp0];
    cbn [split_of config_of] in *; try congruence.
  - destruct (train_dataset w); [reflexivity|].
    cbn [log set_train_dataset set_log set_next_id].
    rewrite datasets_built_app. cbn. apply app_nil_r.
  - destruct (eval_dataset w); [reflexivity|].
    cbn [log set_eval_dataset set_log set_next_id].
    rewrite datasets_built_app. cbn. apply app_nil_r.
Qed.

Lemma run_calls_other_split (c : loader_call) (pre : list loader_call) (w : world) :
  Forall (fun c' => split_of c' <> split_of c) pre ->
  datasets_built (split_of c) (log (snd (run_calls pre w))) =
  datasets_built (split_of c) (log w).
Proof.
  intros H. revert w. induction H as [|c' pre Hc' _ IH]; intros w; [reflexivity|].
  cbn [run_calls].
  pose proof (run_call_other_split c c' w Hc') as H1.
  destruct (run_call c' w) as [r w1]. cbn [snd] in H1.
  specialize (IH w1). destruct (run_calls pre w1) as [rs w2]. cbn [snd] in *.
  congruence.
Qed.

Lemma run_calls_app (pre post : list loader_call) (w : world) :
  snd (run_calls (pre ++ post) w) = snd (run_calls post (snd (run_calls pre w))).
Proof.
  revert w. induction pre as [|c pre IH]; intros w; [reflexivity|].
  cbn [app run_calls]. destruct (run_call c w) as [r w1].
  specialize (IH w1).
  destruct (run_calls (pre ++ post) w1) as [rs w2].
  destruct (run_calls pre w1) as [rs1 w3]. cbn [snd] in *. exact IH.
Qed.

(** C8: in a process, whatever calls of [get_train_dataloader] and
    [get_eval_dataloader] are made, with whatever configurations and
    whatever becomes of each, at most one dataset is ever built per
    split; the first call for a split, wherever it comes among the
    calls, builds the dataset of the split, then and not before, from
    the paths of its own configuration; a dataset that was built stays
    the one of its split; and every loader handed out for a split holds
    that one instance.  The state the calls start from is any state the
    process can be in: the one it starts with, or the one earlier calls
    left. *)
Theorem one_dataset_per_split (calls : list loader_call) (w : world) :
  cache_consistent w ->
  let rs := fst (run_calls calls w) in
  let w' := snd (run_calls calls w) in
  cache_consistent w' /\
  length (datasets_built "train" (log w')) <= 1 /\
  length (datasets_built "test" (log w')) <= 1 /\
  (forall c dl, In (c, Ok dl) rs ->
     datasets_built (split_of c) (log w') = [dl_dataset dl]) /\
  (forall c d, datasets_built (split_of c) (log w) = [d] ->
     datasets_built (split_of c) (log w') = [d]) /\
  (forall pre c post,
     calls = pre ++ c :: post ->
     datasets_built (split_of c) (log w) = [] ->
     Forall (fun c' => split_of c' <> split_of c) pre ->
     let w0 := snd (run_calls pre w) in
     datasets_built (split_of c) (log w0) = [] /\
     datasets_built (split_of c) (log w') =
       [{| ds_id := next_id w0;
           ds_paths := get_datasets_paths (config_of c) (split_of c);
           ds_examples :=
             read_csvs (get_datasets_paths (config_of c) (split_of c)) |}]).
Proof.
  intros Hw rs w'.
  destruct (run_calls_cache calls w Hw) as (Hw' & _ & _ & Hdl).
  fold w' in Hw', Hdl. pose proof Hw' as [Htrain Htest].
  split; [exact Hw'|].
  split; [rewrite Htrain; destruct (train_dataset w'); cbn; lia|].
  split; [rewrite Htest; destruct (eval_dataset w'); cbn; lia|].
  split; [exact Hdl|].
  split; [intros c d Hd; apply run_calls_keep; assumption|].
  intros pre c post -> Hnone Hpre w0.
  assert (Hnone0 : datasets_built (split_of c) (log w0) = [])
    by (unfold w0; rewrite run_calls_other_split; assumption).
  split; [exact Hnone0|].
  destruct (run_calls_cache pre w Hw) as (Hw0 & _). fold w0 in Hw0.
  unfold w'. rewrite run_calls_app. fold w0. cbn [run_calls].
  pose proof (run_call_builds c w0 Hw0 Hnone0) as Hbuilt.
  destruct (run_call_cache c w0 Hw0) as (Hw1 & _).
  destruct (run_call c w0) as [r w1]. cbn [snd] in Hbuilt, Hw1.
  pose proof (run_calls_keep post w1 c _ Hw1 Hbuilt) as Hkeep.
  destruct (run_calls post w1) as [rs2 w2]. cbn [snd] in *. exact Hkeep.
Qed.

End WithCollaborators.

Example toy_calls_built :
  map (fun d => (ds_id d, ds_paths d))
      (datasets_built "train" (log (snd (run_calls toy_calls fresh_world)))) =
  [(0, ["train.csv"%string])] /\
  map (fun d => (ds_id d, ds_paths d))
      (datasets_built "test" (log (snd (run_calls toy_calls fresh_world)))) =
  [(1, ["test.csv"%string])].
Proof. split; reflexivity. Qed.

Lemma fresh_world_consistent : cache_consistent fresh_world.
Proof. split; reflexivity. Qed.

Lemma one_dataset_per_split_witness :
  length (datasets_built "train" (log (snd (run_calls toy_calls fresh_world)))) <= 1 /\
  length (datasets_built "test" (log (snd (run_calls toy_calls fresh_world)))) <= 1 /\
  (forall c dl, In (c, Ok dl) (fst (run_calls toy_calls fresh_world)) ->
     datasets_built (split_of c) (log (snd (run_calls toy_calls fresh_world))) =
       [dl_dataset dl]) /\
  datasets_built "test" (log (snd (run_calls toy_calls fresh_world))) =
    [{| ds_id := 1;
        ds_paths := @get_datasets_paths toy (sample_config "adam" "hyperopt" false) "test";
        ds_examples :=
          @read_csvs toy (@get_datasets_paths toy (sample_config "adam" "hyperopt" false)
                                              "test") |}].
Proof.
  destruct (@one_dataset_per_split toy toy_calls fresh_world fresh_world_consistent)
    as (_ & Htrain & Htest & Hdl & _ & Hfirst).
  split; [exact Htrain|]. split; [exact Htest|]. split; [exact Hdl|].
  destruct (Hfirst [hd (CallTrain (sample_config "adam" "hyperopt" false)
                                  {| tp_config := sample_config "adam" "hyperopt" false;
                                     tp_return_text := false |}) toy_calls]
                   (nth 1 toy_calls (hd (CallTrain (sample_config "adam" "hyperopt" false)
                                  {| tp_config := sample_config "adam" "hyperopt" false;
                                     tp_return_text := false |}) toy_calls))
                   (skipn 2 toy_calls))
    as [_ Hbuilt].
  - reflexivity.
  - reflexivity.
  - constructor; [discriminate | constructor].
  - exact Hbuilt.
Defined.

End LoaderFacts.

(** ** The single-config training loop *)

Module LoopFacts.
Import Train TensorFacts StepFacts Samples.

Section WithCollaborators.
Context {C : Collaborators}.

Lemma train_report_steps_app (l1 l2 : list event) :
  train_report_steps (l1 ++ l2) = train_report_steps l1 ++ train_report_steps l2.
Proof.
  induction l1 as [|e l1 IH]; [reflexivity|].
  destruct e; cbn [app train_report_steps]; rewrite ?IH; reflexivity.
Qed.

Lemma no_report_in_step (labels : list Z) (toks : tokens)
      (optimizers : pyseq Optimizer) (w : world) :
  train_report_steps (step_events labels toks optimizers w) = [].
Proof.
  unfold step_events. rewrite !train_report_steps_app. cbn [train_report_steps app].
  assert (Hz : forall l, train_report_steps (map EvZeroGrad l) = [])
    by (induction l as [|o l IH]; [reflexivity | exact IH]).
  assert (Hs : forall l, train_report_steps (map EvStep l) = [])
    by (induction l as [|o l IH]; [reflexivity | exact IH]).
  rewrite Hz, Hs. reflexivity.
Qed.

Lemma no_report_in_metrics (results : list (string * metric)) (n epoch : Z) :
  train_report_steps (metric_events results n epoch) = [].
Proof. induction results as [|mv results IH]; [reflexivity | exact IH]. Qed.

Lemma for_each_metrics (results : list (string * metric)) (n epoch : Z) (w : world) :
  for_each results
           (fun mv => bind (emit (EvPrintMetric (fst mv) (snd mv)))
                           (fun _ => emit (EvLogMetric (fst mv) (snd mv) n epoch))) w =
  (Ok tt, set_log (log w ++ metric_events results n epoch) w).
Proof.
  revert w. induction results as [|mv results IH]; intros w.
  - destruct w. cbn. rewrite app_nil_r. reflexivity.
  - cbn [for_each]. erewrite bind_ok by reflexivity.
    rewrite IH. destruct w. cbn. rewrite <- !app_assoc. reflexivity.
Qed.

Lemma evaluator_run (evaluator : Evaluation) (w : world) :
  exists w',
    evaluator_eval_model evaluator w = (Ok (eval_results evaluator w), w') /\
    log w' = log w ++ [EvEvalModel].
Proof.
  unfold evaluator_eval_model, eval_results, bind, get, emit, modify, ret.
  cbn [model_training model_heap log set_log].
  destruct (eval_model _ _ _ _) as [results [t h]]. cbn [fst].
  eexists. split; reflexivity.
Qed.

Lemma evaluation_run (evaluator : Evaluation) (n epoch : Z) (w : world) :
  exists w',
    bind (evaluator_eval_model evaluator)
         (fun results =>
            for_each results
              (fun mv => bind (emit (EvPrintMetric (fst mv) (snd mv)))
                              (fun _ => emit (EvLogMetric (fst mv) (snd mv) n epoch)))) w =
      (Ok tt, w') /\
    log w' = log w ++ EvEvalModel :: metric_events (eval_results evaluator w) n epoch.
Proof.
  destruct (evaluator_run evaluator w) as (w1 & Hrun & Hlog).
  erewrite bind_ok by exact Hrun.
  rewrite for_each_metrics. eexists. split; [reflexivity|].
  cbn [log set_log]. rewrite Hlog, <- app_assoc. reflexivity.
Qed.

(** One turn of the loop over the batches, when its training step runs
    to its end: what it adds to the log, and where it goes on. *)
Lemma batch_iteration (cfg : config) (optimizers : pyseq Optimizer)
      (evaluator : Evaluation) (epoch idx : Z) (batch : list Z * tokens)
      (rest : list (list Z * tokens)) (n : Z) (w w1 : world)
      (loss : lossval) (acc : Q) :
  log_every_n_batches (training cfg) <> 0%Z ->
  eval_every_n_batches (training cfg) <> 0%Z ->
  training_step batch optimizers w = (Ok (loss, acc), w1) ->
  let n' := (n + Z.of_nat (length (fst batch)))%Z in
  exists w2,
    batch_loop cfg optimizers evaluator epoch idx (batch :: rest) n w =
    batch_loop cfg optimizers evaluator epoch (idx + 1) rest n' w2 /\
    log w2 =
      log w1 ++
      (if (idx mod log_every_n_batches (training cfg) =? 0)%Z
       then [EvPrintTrain epoch n' loss; EvLogTrainLoss loss n' epoch]
       else []) ++
      (if (idx mod eval_every_n_batches (training cfg) =? 0)%Z
       then EvEvalModel :: metric_events (eval_results evaluator w1) n' epoch
       else []).
Proof.
  intros HL HE Hstep n'. cbn [batch_loop]. fold n'.
  erewrite bind_ok by exact Hstep.
  unfold mod_.
  apply Z.eqb_neq in HL. apply Z.eqb_neq in HE. rewrite HL, HE.
  erewrite bind_lift by reflexivity.
  destruct (idx mod log_every_n_batches (training cfg) =? 0)%Z.
  - erewrite bind_ok by (erewrite bind_ok by reflexivity; reflexivity).
    erewrite bind_lift by reflexivity.
    destruct (idx mod eval_every_n_batches (training cfg) =? 0)%Z.
    + match goal with
      | |- context [bind (bind (evaluator_eval_model _) _) _ ?w] =>
          destruct (evaluation_run evaluator n' epoch w) as (w2 & Hrun & Hlog)
      end.
      erewrite bind_ok by exact Hrun.
      exists w2. split; [reflexivity|].
      rewrite Hlog. cbn [log set_log]. rewrite <- !app_assoc. reflexivity.
    + erewrite bind_ok by reflexivity.
      eexists. split; [reflexivity|].
      cbn [log set_log]. rewrite <- !app_assoc. reflexivity.
  - erewrite bind_ok by reflexivity.
    erewrite bind_lift by reflexivity.
    destruct (idx mod eval_every_n_batches (training cfg) =? 0)%Z.
    + destruct (evaluation_run evaluator n' epoch w1) as (w2 & Hrun & Hlog).
      erewrite bind_ok by exact Hrun.
      exists w2. split; [reflexivity|].
      rewrite Hlog. reflexivity.
    + erewrite bind_ok by reflexivity.
      exists w1. split; [reflexivity|]. rewrite app_nil_r. reflexivity.
Qed.


(** With a training report at every batch, the steps of the reports of
    the batches of an epoch are the cumulative numbers of examples. *)
Lemma batch_loop_reports (cfg : config) (optimizers : pyseq Optimizer)
      (evaluator : Evaluation) (epoch : Z) (batches : list (list Z * tokens)) :
  log_every_n_batches (training cfg) = 1%Z ->
  eval_every_n_batches (training cfg) <> 0%Z ->
  Forall batch_well_shaped batches ->
  forall (idx n : Z) (w : world),
  exists w',
    batch_loop cfg optimizers evaluator epoch idx batches n w =
      (Ok (fold_left (fun m b => (m + Z.of_nat (length (fst b)))%Z) batches n), w') /\
    train_report_steps (log w') =
      train_report_steps (log w) ++ running_totals n batches.
Proof.
  intros HL HE Hshape. induction Hshape as [|batch rest Hb _ IH]; intros idx n w.
  - exists w. split; [reflexivity|]. cbn. rewrite app_nil_r. reflexivity.
  - destruct batch as [labels toks].
    destruct Hb as (Hlabels & steps & classes & Hsteps & Hclasses & Hforward).
    cbn [fst snd] in *.
    destruct (training_step_run labels toks optimizers w steps classes
                Hlabels Hsteps Hclasses (Hforward _))
      as (final & _ & _ & _ & Hstep).
    destruct (batch_iteration cfg optimizers evaluator epoch idx (labels, toks) rest n
                _ _ _ _ ltac:(rewrite HL; discriminate) HE Hstep)
      as (w2 & Hrun & Hlog).
    cbn [fst] in Hrun, Hlog.
    destruct (IH (idx + 1)%Z (n + Z.of_nat (length labels))%Z w2) as (w' & Hrest & Hreports).
    exists w'. split.
    + rewrite Hrun, Hrest. reflexivity.
    + rewrite Hreports, Hlog. cbn [log set_model set_log].
      rewrite HL, Z.mod_1_r. cbn [Z.eqb].
      rewrite !train_report_steps_app, no_report_in_step.
      cbn [train_report_steps app running_totals fst].
      destruct (idx mod eval_every_n_batches (training cfg) =? 0)%Z.
      * cbn [train_report_steps]. rewrite no_report_in_metrics, !app_nil_r.
        rewrite <- app_assoc. reflexivity.
      * rewrite !app_nil_r. rewrite <- app_assoc. reflexivity.
Qed.

Lemma rows_of_two_batches {A} (l : list A) :
  length l = 16 ->
  exists c1 c2,
    rows_of 8 [] l = [c1; c2] /\ c1 <> [] /\ c2 <> [] /\
    length c1 = 8 /\ length c2 = 8.
Proof.
  intros H.
  do 16 (destruct l as [|? l]; [cbn in H; lia|]).
  destruct l; [|cbn in H; lia].
  do 2 eexists. split; [reflexivity|].
  repeat split; discriminate.
Qed.

(** The loader that the constructor makes from settings it accepts. *)
Lemma new_DataLoader_ok (d : dataset) (batch_size : Z) (sh dr : bool)
      (num_workers : Z) (tp : TextPreprocessor) :
  (0 <= num_workers)%Z ->
  (sh = true -> ds_examples d <> []) ->
  (0 < batch_size)%Z ->
  new_DataLoader d batch_size sh dr num_workers tp =
  Ok {| dl_dataset := d; dl_batch_size := batch_size;
        dl_shuffle := sh; dl_drop_last := dr;
        dl_num_workers := num_workers; dl_collate_fn := tp |}.
Proof.
  intros Hw Hrows Hb. unfold new_DataLoader.
  replace (num_workers <? 0)%Z with false by (symmetry; apply Z.ltb_ge; lia).
  replace (batch_size <=? 0)%Z with false by (symmetry; apply Z.leb_gt; lia).
  destruct sh; [|reflexivity].
  destruct (ds_examples d) as [|x l] eqn:E; [|reflexivity].
  exfalso. apply (Hrows eq_refl). reflexivity.
Qed.

(** The set-up of a run in a process that has no training dataset yet:
    the training loader it returns, and the events it logs, none of them
    a report or a training step. *)
Lemma setup_training_run (cfg : config) (w : world) :
  loaders_accept cfg ->
  (0 < train_batch_size (training cfg))%Z ->
  read_csvs (get_datasets_paths cfg "train") <> [] ->
  train_dataset w = None ->
  let paths := get_datasets_paths cfg "train" in
  let d := {| ds_id := next_id w; ds_paths := paths;
              ds_examples := read_csvs paths |} in
  let train_dataloader :=
    {| dl_dataset := d; dl_batch_size := train_batch_size (training cfg);
       dl_shuffle := true; dl_drop_last := false;
       dl_num_workers := n_train_workers (training cfg);
       dl_collate_fn := {| tp_config := cfg; tp_return_text := false |} |} in
  exists eval_dataloader w' evs,
    setup_training cfg w =
      (Ok (fst (get_model (n_tokens cfg) cfg), train_dataloader, eval_dataloader), w') /\
    log w' = log w ++ evs /\
    train_report_steps evs = [].
Proof.
  intros (Htw & Hew & Heb) Htb Hrows Ht paths d train_dataloader.
  unfold setup_training.
  erewrite bind_ok by reflexivity.
  erewrite bind_ok by reflexivity.
  match goal with
  | |- context [bind (get_train_dataloader _ _) _ ?w0] =>
      assert (Htrain : get_train_dataloader cfg
                         {| tp_config := cfg; tp_return_text := false |} w0 =
                       (Ok train_dataloader,
                        set_train_dataset (Some d)
                          (set_log (log w0 ++ [EvCSVDatasetsMerger "train" d])
                                   (set_next_id (S (next_id w0)) w0))))
  end.
  { unfold get_train_dataloader.
    erewrite bind_ok by reflexivity.
    cbn [train_dataset set_log]. rewrite Ht.
    erewrite bind_ok by reflexivity.
    unfold lift. rewrite new_DataLoader_ok; [reflexivity | lia | | lia].
    intros _. exact Hrows. }
  erewrite bind_ok by exact Htrain.
  assert (Heval : forall w0, exists dl w1 evs,
            get_eval_dataloader cfg {| tp_config := cfg; tp_return_text := true |} w0 =
              (Ok dl, w1) /\
            log w1 = log w0 ++ evs /\ train_report_steps evs = []).
  { intros w0. unfold get_eval_dataloader.
    erewrite bind_ok by reflexivity.
    destruct (eval_dataset w0) as [de|].
    - erewrite bind_ok by reflexivity.
      unfold lift. rewrite new_DataLoader_ok by (try lia; discriminate).
      do 2 eexists. exists []. split; [reflexivity|].
      rewrite app_nil_r. split; reflexivity.
    - erewrite bind_ok by reflexivity.
      unfold lift. rewrite new_DataLoader_ok by (try lia; discriminate).
      do 3 eexists. split; [reflexivity|]. split; reflexivity. }
  match goal with
  | |- context [bind (get_eval_dataloader _ _) _ ?w0] =>
      destruct (Heval w0) as (edl & w1 & evs & Hrun & Hlog & Hrep)
  end.
  erewrite bind_ok by exact Hrun.
  destruct (get_model (n_tokens cfg) cfg) as [model h]. cbn [fst].
  erewrite bind_ok by reflexivity.
  do 3 eexists. split; [reflexivity|].
  cbn [log set_model]. rewrite Hlog.
  cbn [log set_train_dataset set_log set_next_id].
  rewrite <- !app_assoc. split; [reflexivity|].
  rewrite !train_report_steps_app, Hrep. reflexivity.
Qed.

Lemma iter_batches_shuffled (dl : DataLoader) (w : world) :
  dl_shuffle dl = true -> dl_drop_last dl = false ->
  iter_batches dl w =
  (Ok (map (collate (tp_config (dl_collate_fn dl)) (tp_return_text (dl_collate_fn dl)))
           (rows_of (Z.to_nat (dl_batch_size dl)) []
                    (shuffle (draws w) (ds_examples (dl_dataset dl))))),
   set_draws (S (draws w)) w).
Proof.
  intros Hs Hd. unfold iter_batches.
  erewrite bind_ok by reflexivity. rewrite Hs, Hd.
  erewrite bind_ok by (erewrite bind_ok by reflexivity; reflexivity).
  reflexivity.
Qed.

(** C4: one epoch over 16 examples in batches of 8, with a training
    report at every batch, in a process that starts: the run ends
    normally and emits two training metric reports, at steps 8 and 16,
    the cumulative numbers of examples processed.  What the scenario
    leaves open is taken valid: an evaluation cadence other than 0,
    loader settings and optimizer settings that torch accepts, the
    optimizer 'adam' over a dense subset that is not empty, a sampler
    that permutes and batches of the shape the model expects. *)
Theorem normal_training_two_reports (cfg : config) (w : world) :
  training_epochs (training cfg) = 1%Z ->
  train_batch_size (training cfg) = 8%Z ->
  log_every_n_batches (training cfg) = 1%Z ->
  eval_every_n_batches (training cfg) <> 0%Z ->
  length (read_csvs (get_datasets_paths cfg "train")) = 16 ->
  train_dataset w = None -> log w = [] ->
  loaders_accept cfg -> optimizer_buildable cfg -> pipeline_well_shaped cfg ->
  exists w',
    normal_training cfg w = (Ok tt, w') /\
    train_report_steps (log w') = [8%Z; 16%Z].
Proof.
  intros Hepochs Hbatch HL HE Hrows Ht Hlog Hloaders (Hname & Hset & Hdense)
         [Hperm Hcollate].
  assert (Hsome : read_csvs (get_datasets_paths cfg "train") <> []).
  { intros E. rewrite E in Hrows. discriminate Hrows. }
  unfold normal_training.
  erewrite bind_ok by reflexivity.
  match goal with
  | |- context [bind (setup_training _) _ ?w0] =>
      destruct (setup_training_run cfg w0 Hloaders ltac:(lia) Hsome Ht)
        as (edl & w1 & evs & Hsetup & Hlog1 & Hrep1)
  end.
  erewrite bind_ok by exact Hsetup.
  cbv beta iota.
  erewrite bind_ok by reflexivity.
  erewrite bind_ok by reflexivity.
  erewrite bind_ok by reflexivity.
  erewrite bind_lift by (apply OptimFacts.get_optimizers_adam; assumption).
  rewrite Hepochs. change (range 1) with [0%Z]. cbn [epoch_loop].
  match goal with
  | |- context [bind (bind (run_epoch cfg ?opts ?ev ?dl 0 0) _) _ ?w0] =>
      assert (Hepoch : exists n w',
                 run_epoch cfg opts ev dl 0 0 w0 = (Ok n, w') /\
                 train_report_steps (log w') =
                   train_report_steps (log w0) ++ [8%Z; 16%Z])
  end.
  { unfold run_epoch.
    erewrite bind_ok by (apply iter_batches_shuffled; reflexivity).
    cbn [dl_batch_size dl_dataset dl_collate_fn ds_examples tp_config tp_return_text].
    rewrite Hbatch. change (Z.to_nat 8) with 8.
    match goal with
    | |- context [rows_of 8 [] ?l] =>
        destruct (rows_of_two_batches l) as (c1 & c2 & Hchunks & Hc1 & Hc2 & Hl1 & Hl2)
    end.
    { rewrite (Permutation_length (Hperm _ _)). exact Hrows. }
    rewrite Hchunks. cbn [map].
    destruct (Hcollate c1 Hc1) as [Hn1 Hs1].
    destruct (Hcollate c2 Hc2) as [Hn2 Hs2].
    match goal with
    | |- context [batch_loop cfg ?opts ?ev 0 0 ?bs 0 ?w0] =>
        destruct (batch_loop_reports cfg opts ev 0 bs HL HE
                    (Forall_cons _ Hs1 (Forall_cons _ Hs2 (Forall_nil _)))
                    0%Z 0%Z w0)
          as (w' & Hloop & Hreports)
    end.
    do 2 eexists. split; [exact Hloop|].
    rewrite Hreports. cbn [log set_draws running_totals fst].
    rewrite Hn1, Hn2, Hl1, Hl2. reflexivity. }
  destruct Hepoch as (n & w' & Hepoch & Hreports).
  erewrite bind_ok by (erewrite bind_ok by exact Hepoch; reflexivity).
  exists w'. split; [reflexivity|].
  rewrite Hreports.
  cbn [log set_model set_log].
  rewrite Hlog1. cbn [log set_log]. rewrite Hlog.
  rewrite !train_report_steps_app, Hrep1. reflexivity.
Qed.

End WithCollaborators.

Lemma toy_pipeline (cfg : config) : @pipeline_well_shaped toy cfg.
Proof.
  split.
  - intros k rows. apply Permutation_sym, Permutation_rev.
  - intros rows Hrows. cbn. split; [apply length_map|].
    split; [destruct rows; [congruence | discriminate]|].
    exists 2, 2. split; [lia|]. split; [lia|].
    intros h. split; [reflexivity|]. split; [reflexivity|].
    cbn [fst snd steps_of].
    repeat constructor; rewrite ?length_map; try reflexivity;
      apply Forall_forall; intros row Hin; apply in_map_iff in Hin;
      destruct Hin as (t & <- & _); reflexivity.
Qed.

Example comet_api_key_toy :
  @get_comet_api_key toy (sample_config "adam" "hyperopt" false) = codepoints "key".
Proof. reflexivity. Qed.

Example normal_training_toy :
  train_report_steps
    (log (snd (@normal_training toy (sample_config "adam" "hyperopt" false) fresh_world))) =
  [8%Z; 16%Z].
Proof. vm_compute. reflexivity. Qed.

Lemma normal_training_two_reports_witness :
  exists w',
    @normal_training toy (sample_config "adam" "hyperopt" false) fresh_world = (Ok tt, w') /\
    train_report_steps (log w') = [8%Z; 16%Z].
Proof.
  apply (@normal_training_two_reports toy (sample_config "adam" "hyperopt" false) fresh_world);
    try reflexivity.
  - discriminate.
  - unfold loaders_accept. cbn. lia.
  - split; [reflexivity|].
    split; [apply OptimFacts.sample_settings_accepted | discriminate].
  - apply toy_pipeline.
Defined.


End LoopFacts.

(** ** The search orchestrator *)

Module TuneFacts.
Import Tune TuneLog Samples.

Section WithRay.
Context {R : Ray}.








(** *** What the trials propose, log and write *)







Lemma search_files_other (sched : scheduler) (dir : string) (r : list sample) :
  sched <> HyperOptFIFO -> forall a, search_files sched dir a r = [].
Proof.
  intros Hs. induction r as [|s r IH]; intros a; [reflexivity|].
  cbn [search_files]. rewrite IH. unfold trial_files.
  destruct sched; try reflexivity. congruence.
Qed.



(** *** [tune.run] and the orchestrator *)

Lemma run_outcome_bind {A B} (r : list sample) (v : A) (v' : B) (w : world) :
  bind (fun w0 => (@run_outcome R A r v, w0)) (fun _ => ret v') w =
  (run_outcome r v', w).
Proof. unfold bind, run_outcome, ret. destruct (forallb trial_completes r); reflexivity. Qed.









Lemma experiment_dir_not_checkpoint (cfg : config) :
  String.eqb (experiment_dir cfg) (checkpoint_path cfg) = false.
Proof.
  assert (Hlen : forall a b : string,
             String.length (a ++ b) = String.length a + String.length b).
  { induction a as [|c a IH]; intros b; [reflexivity|]. cbn. rewrite IH. reflexivity. }
  apply String.eqb_neq. intros Heq. apply (f_equal String.length) in Heq.
  revert Heq. unfold checkpoint_path. fold (experiment_dir cfg).
  unfold path_join at 1. change (String.prefix "/" "hyperopt") with false. cbv iota.
  destruct (_ || _)%bool; rewrite ?Hlen; cbn; lia.
Qed.



(** The unsupported tuning method: the orchestrator starts ray, and then
    raises. *)
Lemma tune_training_unsupported (cfg : config) (w : world) :
  supported_method (tuning_method (tune cfg)) = false ->
  tune_training cfg w = (Raise NotImplementedError, set_log (log w ++ [EvRayInit]) w).
Proof.
  unfold supported_method. intros H.
  apply orb_false_iff in H. destruct H as [H Hno].
  apply orb_false_iff in H. destruct H as [Hbohb Hhyper].
  unfold tune_training. rewrite Hbohb, Hhyper, Hno.
  erewrite bind_ok by reflexivity. reflexivity.
Qed.

End WithRay.

(** A cold run in an empty directory: the first proposal completes and
    is checkpointed, the second fails, is in the history of the
    algorithm in memory only, and makes the run end with TuneError. *)
Example hyperopt_cold_run :
  fst (@tune_training toy_ray (sample_config "adam" "hyperopt" true) empty_dir) =
    Raise TuneError /\
  log (snd (@tune_training toy_ray (sample_config "adam" "hyperopt" true) empty_dir)) =
  [EvRayInit; EvHyperOptSearch 7 42;
   EvRestore "/tmp/work/exp/hyperopt"; EvPrint ColdStarting;
   EvTuneRun "exp" "/tmp/work" 2 (Some HyperOpt) HyperOptFIFO (Some (1000%Z, 2%Z));
   @EvSuggest toy_ray 42; @EvTrialComplete toy_ray 42;
   EvSave "/tmp/work/exp/hyperopt"
          (@Build_algo_state toy_ray HyperOpt [42] 43);
   EvPrint Checkpointing; EvSchedulerOnTrialComplete;
   @EvSuggest toy_ray 45; @EvTrialError toy_ray 45] /\
  lookup_file "/tmp/work/exp/hyperopt"
    (files (snd (@tune_training toy_ray (sample_config "adam" "hyperopt" true)
                   empty_dir))) =
  Some (Pickled (@Build_algo_state toy_ray HyperOpt [42] 43)).
Proof. repeat split. Qed.

Example hyperopt_warm_run :
  log (snd (@tune_training toy_ray (sample_config "adam" "hyperopt" true) with_checkpoint)) =
  [EvRayInit; EvHyperOptSearch 7 42;
   EvRestore "/tmp/work/exp/hyperopt"; EvPrint (WarmStarting 3);
   EvTuneRun "exp" "/tmp/work" 2 (Some HyperOpt) HyperOptFIFO (Some (1000%Z, 2%Z));
   @EvSuggest toy_ray 51; @EvTrialError toy_ray 51;
   @EvSuggest toy_ray 54; @EvTrialComplete toy_ray 54;
   EvSave "/tmp/work/exp/hyperopt"
          (@Build_algo_state toy_ray HyperOpt [42; 45; 48; 51; 54] 47);
   EvPrint Checkpointing; EvSchedulerOnTrialComplete].
Proof. reflexivity. Qed.

(** A run all of whose trials complete returns nothing. *)
Example hyperopt_steady_run :
  fst (@tune_training MoreSamples.steady_ray (sample_config "adam" "hyperopt" true)
         MoreSamples.steady_dir) = Ok None.
Proof. reflexivity. Qed.

Example bohb_run :
  fst (@tune_training toy_ray (sample_config "adam" "bohb" true) with_checkpoint) =
    Ok (Some [42]) /\
  log (snd (@tune_training toy_ray (sample_config "adam" "bohb" true) with_checkpoint)) =
  [EvRayInit; EvConfigSpace 42; EvHyperBandForBOHB 1000; EvTuneBOHB;
   EvTuneRun "exp" "/tmp/work" 1 (Some BOHB) HyperBandForBOHB None;
   @EvSuggest toy_ray 42; @EvTrialComplete toy_ray 42; EvSchedulerOnTrialComplete].
Proof. split; reflexivity. Qed.




(** The run of the witness: what was in the checkpoint is not proposed
    again, the proposal whose trial completes is saved with the whole
    history, and the failed trial makes the run end with TuneError. *)
Example hyperopt_careful_run :
  fst (@tune_training MoreSamples.careful_ray (sample_config "adam" "hyperopt" true)
         MoreSamples.careful_dir) = Raise TuneError /\
  suggestions
    (log (snd (@tune_training MoreSamples.careful_ray
                 (sample_config "adam" "hyperopt" true) MoreSamples.careful_dir))) =
  [9; 10] /\
  lookup_file "/tmp/work/exp/hyperopt"
    (files (snd (@tune_training MoreSamples.careful_ray
                   (sample_config "adam" "hyperopt" true) MoreSamples.careful_dir))) =
  Some (Pickled (@Build_algo_state MoreSamples.careful_ray HyperOpt [3; 8; 9; 10] 46)).
Proof. repeat split. Qed.


End TuneFacts.

(** ** Unsupported names *)

Module FailFastFacts.
Import Samples.

Section WithCollaborators.
Context {C : Train.Collaborators}.
Import Train.

Lemma name_not_adam (cfg : config) :
  name (optimizer cfg) <> "adam"%string ->
  String.eqb (name (optimizer cfg)) "adam" = false.
Proof. intros H. apply String.eqb_neq. exact H. Qed.

Lemma get_optimizers_unsupported (m : Model) (cfg : config) :
  name (optimizer cfg) <> "adam"%string ->
  get_optimizers m cfg = Raise NotImplementedError.
Proof.
  intros H. unfold get_optimizers. rewrite (name_not_adam cfg H). reflexivity.
Qed.

(** Whatever becomes of a call of a loader function, it logs no event
    of a training step. *)
Lemma run_call_quiet (c : loader_call) (w : world) :
  exists evs,
    log (snd (run_call c w)) = log w ++ evs /\
    existsb is_training_event evs = false.
Proof.
  destruct (LoaderFacts.run_call_world c w) as [Hw _]. cbv zeta in Hw. rewrite Hw.
  destruct c; cbn [split_of config_of].
  - destruct (train_dataset w).
    + exists []. rewrite app_nil_r. split; reflexivity.
    + eexists. cbn [log set_train_dataset set_log set_next_id]. split; reflexivity.
  - destruct (eval_dataset w).
    + exists []. rewrite app_nil_r. split; reflexivity.
    + eexists. cbn [log set_eval_dataset set_log set_next_id]. split; reflexivity.
Qed.

(** Whatever becomes of the set-up of a run, it logs no event of a
    training step. *)
Lemma setup_training_no_training (cfg : config) (w : world) :
  exists evs,
    log (snd (setup_training cfg w)) = log w ++ evs /\
    existsb is_training_event evs = false.
Proof.
  unfold setup_training.
  erewrite bind_ok by reflexivity.
  erewrite bind_ok by reflexivity.
  match goal with
  | |- context [bind (get_train_dataloader cfg ?tp) _ ?w0] =>
      destruct (run_call_quiet (CallTrain cfg tp) w0) as (evs1 & Hlog1 & Hq1);
      change (run_call (CallTrain cfg tp) w0)
        with (get_train_dataloader cfg tp w0) in Hlog1;
      destruct (get_train_dataloader cfg tp w0) as [[tdl|e] w1] eqn:E1
  end; cbn [snd log set_log] in Hlog1.
  - erewrite bind_ok by exact E1.
    match goal with
    | |- context [bind (get_eval_dataloader cfg ?tp) _ ?w0] =>
        destruct (run_call_quiet (CallEval cfg tp) w0) as (evs2 & Hlog2 & Hq2);
        change (run_call (CallEval cfg tp) w0)
          with (get_eval_dataloader cfg tp w0) in Hlog2;
        destruct (get_eval_dataloader cfg tp w0) as [[edl|e] w2] eqn:E2
    end; cbn [snd] in Hlog2.
    + erewrite bind_ok by exact E2.
      destruct (get_model (n_tokens cfg) cfg) as [model h].
      erewrite bind_ok by reflexivity.
      cbn [ret snd log set_model]. rewrite Hlog2, Hlog1.
      eexists. split; [rewrite <- !app_assoc; reflexivity|].
      cbn [app existsb is_training_event orb].
      rewrite existsb_app, Hq1, Hq2. reflexivity.
    + erewrite bind_raise by exact E2.
      cbn [snd]. rewrite Hlog2, Hlog1.
      eexists. split; [rewrite <- !app_assoc; reflexivity|].
      cbn [app existsb is_training_event orb].
      rewrite existsb_app, Hq1, Hq2. reflexivity.
  - erewrite bind_raise by exact E1.
    cbn [snd]. rewrite Hlog1.
    eexists. split; [rewrite <- !app_assoc; reflexivity|].
    cbn [app existsb is_training_event orb]. exact Hq1.
Qed.

(** A run under an unsupported optimizer raises, and no training step
    was made by then. *)
Lemma normal_training_unsupported (cfg : config) (w : world) :
  name (optimizer cfg) <> "adam"%string ->
  exists e w' evs,
    normal_training cfg w = (Raise e, w') /\
    log w' = log w ++ evs /\
    existsb is_training_event evs = false.
Proof.
  intros Hname. unfold normal_training.
  erewrite bind_ok by reflexivity.
  match goal with
  | |- context [bind (setup_training _) _ ?w0] =>
      destruct (setup_training_no_training cfg w0) as (evs & Hlog & Hno);
      destruct (setup_training cfg w0) as [[[[model tdl] edl]|e] w1] eqn:E
  end; cbn [snd log set_log] in Hlog.
  - erewrite bind_ok by exact E. cbv beta iota.
    erewrite bind_ok by reflexivity.
    erewrite bind_ok by reflexivity.
    erewrite bind_ok by reflexivity.
    erewrite bind_raise
      by (unfold lift; rewrite (get_optimizers_unsupported model cfg Hname); reflexivity).
    do 3 eexists. split; [reflexivity|].
    cbn [log set_log set_model]. rewrite Hlog, <- !app_assoc.
    split; [reflexivity|].
    cbn [app existsb is_training_event orb].
    rewrite existsb_app, Hno. reflexivity.
  - erewrite bind_raise by exact E.
    do 3 eexists. split; [reflexivity|].
    rewrite Hlog, <- app_assoc. split; [reflexivity|].
    cbn [app existsb is_training_event orb]. exact Hno.
Qed.

End WithCollaborators.

(** C5, as the code has it: under a configuration that names an
    unsupported optimizer, [get_optimizers] raises NotImplementedError,
    and a single-config run raises before any training step; under a
    configuration that names an unsupported tuning method,
    [tune_training] raises NotImplementedError once ray is started and
    before anything else: no search algorithm is made, no trial is
    started and no file or directory is created. *)
Theorem unsupported_names_raise
        {C : Train.Collaborators} {R : Tune.Ray}
        (m : Model) (cfg cfg' : config) (w : Train.world) (tw : Tune.world) :
  name (optimizer cfg) <> "adam"%string ->
  supported_method (tuning_method (tune cfg')) = false ->
  get_optimizers m cfg = Raise NotImplementedError /\
  (exists e w' evs,
     Train.normal_training cfg w = (Raise e, w') /\
     Train.log w' = Train.log w ++ evs /\
     existsb Train.is_training_event evs = false) /\
  (exists tw',
     Tune.tune_training cfg' tw = (Raise NotImplementedError, tw') /\
     Tune.log tw' = Tune.log tw ++ [Tune.EvRayInit] /\
     Tune.algo tw' = Tune.algo tw /\
     Tune.files tw' = Tune.files tw).
Proof.
  intros Hname Hmethod.
  split; [apply get_optimizers_unsupported, Hname|].
  split; [apply normal_training_unsupported, Hname|].
  eexists. split; [apply TuneFacts.tune_training_unsupported, Hmethod|].
  repeat split; reflexivity.
Qed.

Example normal_training_sgd :
  fst (@Train.normal_training toy (sample_config "sgd" "hyperopt" false) fresh_world) =
  Raise NotImplementedError.
Proof. vm_compute. reflexivity. Qed.

Lemma unsupported_names_raise_witness :
  get_optimizers mixed_model (sample_config "sgd" "hyperopt" false) =
    Raise NotImplementedError /\
  (exists e w' evs,
     @Train.normal_training toy (sample_config "sgd" "hyperopt" false) fresh_world =
       (Raise e, w') /\
     Train.log w' = Train.log fresh_world ++ evs /\
     existsb Train.is_training_event evs = false) /\
  (exists tw',
     @Tune.tune_training toy_ray (sample_config "adam" "random" false) empty_dir =
       (Raise NotImplementedError, tw') /\
     Tune.log tw' = Tune.log empty_dir ++ [Tune.EvRayInit] /\
     Tune.algo tw' = Tune.algo empty_dir /\
     Tune.files tw' = Tune.files empty_dir).
Proof.
  apply (@unsupported_names_raise toy toy_ray mixed_model
           (sample_config "sgd" "hyperopt" false)
           (sample_config "adam" "random" false) fresh_world empty_dir).
  - discriminate.
  - reflexivity.
Defined.

(** C5 fails as stated on a configuration that names the tuning method
    'random': [tune_training] raises, but ray was started by then. *)
Lemma tune_training_unsupported_starts_ray :
  supported_method (tuning_method (tune (sample_config "adam" "random" false))) = false /\
  fst (@Tune.tune_training toy_ray (sample_config "adam" "random" false) empty_dir) =
    Raise NotImplementedError /\
  Tune.log (snd (@Tune.tune_training toy_ray (sample_config "adam" "random" false) empty_dir)) =
    [Tune.EvRayInit] /\
  snd (@Tune.tune_training toy_ray (sample_config "adam" "random" false) empty_dir) <>
    empty_dir.
Proof.
  repeat split; try reflexivity.
  intros H. apply (f_equal Tune.log) in H. discriminate H.
Qed.

End FailFastFacts.

(** ** [flatten_dict] *)

Module FlattenFacts.
Import Flatten.

Example flatten_nested :
  flatten_dict
    [("optimizer"%string, Mapping [("name"%string, Leaf 1); ("lr"%string, Leaf 2)]);
     ("device"%string, Leaf 3);
     ("tune"%string, Mapping [("space"%string, Mapping []); ("resume"%string, Leaf 4)])]
    "" "_" =
  [("optimizer_name"%string, 1); ("optimizer_lr"%string, 2); ("device"%string, 3);
   ("tune_resume"%string, 4)].
Proof. reflexivity. Qed.

Example flatten_collision :
  flatten_dict [("a_b"%string, Leaf 1); ("a"%string, Mapping [("b"%string, Leaf 2)])]
               "" "_" =
  [("a_b"%string, 2)].
Proof. reflexivity. Qed.


Section WithValues.
Context {V : Type}.

Lemma pyobj_induction (P : pyobj V -> Prop) :
  (forall v, P (Leaf v)) ->
  (forall d, Forall (fun kv => P (snd kv)) d -> P (Mapping d)) ->
  forall o, P o.
Proof.
  intros HL HM. fix IH 1. intros [v|d].
  - apply HL.
  - apply HM. induction d as [|[k v] d IHd]; constructor; [apply IH | exact IHd].
Qed.

Lemma flatten_dict_items (d : list (string * pyobj V)) (parent_key sep : string) :
  flatten_dict d parent_key sep = dict_of_items (flatten_items d parent_key sep).
Proof.
  unfold flatten_dict. cbn [flatten_value]. f_equal.
  induction d as [|[k v] d IH]; [reflexivity|].
  cbn [flatten_items]. rewrite <- IH. reflexivity.
Qed.

Lemma flatten_items_app (d1 d2 : list (string * pyobj V)) (parent_key sep : string) :
  flatten_items (d1 ++ d2) parent_key sep =
  flatten_items d1 parent_key sep ++ flatten_items d2 parent_key sep.
Proof.
  induction d1 as [|[k v] d1 IH]; [reflexivity|].
  cbn [app flatten_items]. rewrite IH, app_assoc. reflexivity.
Qed.

(** *** Dictionaries in insertion order *)

Lemma dict_set_keys (k : string) (v : V) (d : list (string * V)) :
  map fst (dict_set k v d) =
  if in_dec string_dec k (map fst d) then map fst d else map fst d ++ [k].
Proof.
  induction d as [|[k' v'] d IH]; [reflexivity|].
  cbn [dict_set map fst]. destruct (String.eqb_spec k' k) as [->|Hne].
  - destruct (in_dec string_dec k (k :: map fst d)) as [_|Hn]; [reflexivity|].
    exfalso. apply Hn. left. reflexivity.
  - cbn [map fst]. rewrite IH.
    destruct (in_dec string_dec k (map fst d)) as [Hin|Hn];
      destruct (in_dec string_dec k (k' :: map fst d)) as [Hin'|Hn'];
      try reflexivity.
    + exfalso. apply Hn'. right. exact Hin.
    + exfalso. destruct Hin' as [E|Hin']; [congruence | exact (Hn Hin')].
Qed.

Lemma dict_set_new (k : string) (v : V) (d : list (string * V)) :
  ~ In k (map fst d) -> dict_set k v d = d ++ [(k, v)].
Proof.
  induction d as [|[k' v'] d IH]; intros Hn; [reflexivity|].
  cbn [dict_set]. destruct (String.eqb_spec k' k) as [->|Hne].
  - exfalso. apply Hn. left. reflexivity.
  - cbn [app]. rewrite IH; [reflexivity|]. intros H. apply Hn. right. exact H.
Qed.

Lemma fold_dict_set_keys (items acc : list (string * V)) :
  NoDup (map fst acc) ->
  let d := fold_left (fun d kv => dict_set (fst kv) (snd kv) d) items acc in
  NoDup (map fst d) /\
  forall k, In k (map fst d) <-> In k (map fst acc) \/ In k (map fst items).
Proof.
  revert acc. induction items as [|[k v] items IH]; intros acc Hacc.
  - cbn. split; [assumption | tauto].
  - cbn [fold_left fst snd map].
    assert (Hset : NoDup (map fst (dict_set k v acc)) /\
                   forall k0, In k0 (map fst (dict_set k v acc)) <->
                              In k0 (map fst acc) \/ k0 = k).
    { rewrite dict_set_keys. destruct (in_dec string_dec k (map fst acc)) as [Hin|Hn].
      - split; [assumption|]. intros k0. split; [tauto|]. intros [H| ->]; assumption.
      - split.
        + apply NoDup_app; [assumption | repeat constructor; cbn; tauto |].
          intros x Hx [<-|[]]. exact (Hn Hx).
        + intros k0. rewrite in_app_iff. cbn. intuition congruence. }
    destruct Hset as [Hnd Hkeys].
    destruct (IH (dict_set k v acc) Hnd) as [Hnd' Hkeys'].
    split; [exact Hnd'|].
    intros k0. rewrite Hkeys', Hkeys. cbn. intuition congruence.
Qed.

(** A dictionary has each key once, and has the keys of its items. *)
Lemma dict_of_items_keys (items : list (string * V)) :
  NoDup (map fst (dict_of_items items)) /\
  forall k, In k (map fst (dict_of_items items)) <-> In k (map fst items).
Proof.
  destruct (fold_dict_set_keys items [] (NoDup_nil _)) as [Hnd Hkeys].
  split; [exact Hnd|]. intros k. unfold dict_of_items. rewrite Hkeys. cbn. tauto.
Qed.

Lemma fold_dict_set_distinct (items acc : list (string * V)) :
  NoDup (map fst (acc ++ items)) ->
  fold_left (fun d kv => dict_set (fst kv) (snd kv) d) items acc = acc ++ items.
Proof.
  revert acc. induction items as [|[k v] items IH]; intros acc Hnd.
  - cbn. rewrite app_nil_r. reflexivity.
  - cbn [fold_left fst snd].
    rewrite dict_set_new.
    + rewrite IH; rewrite <- app_assoc; [reflexivity | exact Hnd].
    + rewrite map_app in Hnd. cbn [map fst] in Hnd.
      apply NoDup_remove_2 in Hnd. intros H. apply Hnd.
      apply in_or_app. left. exact H.
Qed.

(** Items with distinct keys make the dictionary of these items. *)
Lemma dict_of_items_distinct (items : list (string * V)) :
  NoDup (map fst items) -> dict_of_items items = items.
Proof. intros H. apply (fold_dict_set_distinct items []). exact H. Qed.

Lemma leaves_items (d : list (string * pyobj V)) (key sep : string) :
  leaves (Mapping d) key sep =
  flat_map (fun kv => leaves (snd kv) (new_key key sep (fst kv)) sep) d.
Proof.
  cbn [leaves]. induction d as [|[k v] d IH]; [reflexivity|].
  cbn [flat_map fst snd]. rewrite <- IH. reflexivity.
Qed.

Lemma flatten_items_flat_map (d : list (string * pyobj V)) (key sep : string) :
  flatten_items d key sep =
  flat_map (fun kv => flatten_value (snd kv) (new_key key sep (fst kv)) sep) d.
Proof.
  induction d as [|[k v] d IH]; [reflexivity|].
  cbn [flatten_items flat_map fst snd]. rewrite IH. reflexivity.
Qed.

Lemma NoDup_keys_app (l1 l2 : list (string * V)) :
  NoDup (map fst (l1 ++ l2)) -> NoDup (map fst l1) /\ NoDup (map fst l2).
Proof.
  rewrite map_app. intros H. split.
  - eapply NoDup_app_remove_r. exact H.
  - eapply NoDup_app_remove_l. exact H.
Qed.

Lemma flatten_value_leaves (sep : string) (v : pyobj V) :
  forall key, NoDup (map fst (leaves v key sep)) ->
              flatten_value v key sep = leaves v key sep.
Proof.
  induction v as [x|d IH] using pyobj_induction; intros key Hnd; [reflexivity|].
  change (flatten_value (Mapping d) key sep) with (flatten_dict d key sep).
  rewrite flatten_dict_items, flatten_items_flat_map.
  rewrite leaves_items in Hnd |- *.
  assert (Hsame : flat_map (fun kv => flatten_value (snd kv) (new_key key sep (fst kv)) sep) d =
                  flat_map (fun kv => leaves (snd kv) (new_key key sep (fst kv)) sep) d).
  { clear - IH Hnd. induction IH as [|[k v] d Hv _ IHd]; [reflexivity|].
    cbn [flat_map fst snd] in *. apply NoDup_keys_app in Hnd. destruct Hnd as [H1 H2].
    rewrite (Hv _ H1), (IHd H2). reflexivity. }
  rewrite Hsame. apply dict_of_items_distinct. exact Hnd.
Qed.

(** When no two leaves of a dictionary come under the same joined key,
    [flatten_dict] lists every leaf once, in the order of the
    dictionary, under the keys on its path joined by the separator. *)
Theorem flatten_dict_distinct_paths
        (d : list (string * pyobj V)) (parent_key sep : string) :
  NoDup (map fst (leaves (Mapping d) parent_key sep)) ->
  flatten_dict d parent_key sep = leaves (Mapping d) parent_key sep.
Proof. apply flatten_value_leaves. Qed.

(** A dictionary that has no nested mapping comes back as it is. *)
Lemma flatten_dict_flat (d : list (string * V)) (sep : string) :
  NoDup (map fst d) -> flatten_dict (as_leaves d) "" sep = d.
Proof.
  intros Hnd. rewrite flatten_dict_items.
  assert (H : flatten_items (as_leaves d) "" sep = d).
  { clear Hnd. induction d as [|[k v] d IH]; [reflexivity|].
    cbn [as_leaves map flatten_items fst snd flatten_value new_key app].
    unfold as_leaves in IH. rewrite IH. reflexivity. }
  rewrite H. apply dict_of_items_distinct. exact Hnd.
Qed.

(** Flattening what [flatten_dict] returns changes nothing. *)
Theorem flatten_dict_idempotent
        (d : list (string * pyobj V)) (parent_key sep sep' : string) :
  flatten_dict (as_leaves (flatten_dict d parent_key sep)) "" sep' =
  flatten_dict d parent_key sep.
Proof.
  apply flatten_dict_flat. rewrite flatten_dict_items. apply dict_of_items_keys.
Qed.

(** A key whose value is an empty mapping leaves no trace in the result. *)
Theorem flatten_dict_empty_mapping
        (d1 d2 : list (string * pyobj V)) (k parent_key sep : string) :
  flatten_dict (d1 ++ (k, Mapping []) :: d2) parent_key sep =
  flatten_dict (d1 ++ d2) parent_key sep.
Proof.
  rewrite !flatten_dict_items, !flatten_items_app. reflexivity.
Qed.

(** A mapping nested under a key is flattened as the function flattens
    it under that key as parent key. *)
Theorem flatten_dict_nested
        (d : list (string * pyobj V)) (k parent_key sep : string) :
  flatten_dict [(k, Mapping d)] parent_key sep =
  flatten_dict d (new_key parent_key sep k) sep.
Proof.
  rewrite (flatten_dict_items [(k, Mapping d)]).
  cbn [flatten_items]. rewrite app_nil_r.
  change (flatten_value (Mapping d) (new_key parent_key sep k) sep)
    with (flatten_dict d (new_key parent_key sep k) sep).
  apply dict_of_items_distinct.
  rewrite flatten_dict_items. apply dict_of_items_keys.
Qed.

Lemma prefix_append (a b : string) : String.prefix a (a ++ b) = true.
Proof.
  induction a as [|c a IH]; [destruct b; reflexivity|].
  cbn. destruct (Ascii.ascii_dec c c); [exact IH | congruence].
Qed.

Lemma prefix_refl (a : string) : String.prefix a a = true.
Proof.
  induction a as [|c a IH]; [reflexivity|].
  cbn. destruct (Ascii.ascii_dec c c); [exact IH | congruence].
Qed.

Lemma prefix_trans (a b c : string) :
  String.prefix a b = true -> String.prefix b c = true -> String.prefix a c = true.
Proof.
  revert b c. induction a as [|x a IH]; intros b c Hab Hbc; [destruct c; reflexivity|].
  destruct b as [|y b]; [discriminate Hab|].
  destruct c as [|z c]; [discriminate Hbc|].
  cbn in *.
  destruct (Ascii.ascii_dec x y) as [->|]; [|discriminate Hab].
  destruct (Ascii.ascii_dec y z) as [->|]; [|discriminate Hbc].
  eapply IH; eassumption.
Qed.

Lemma append_assoc (a b c : string) : ((a ++ b) ++ c = a ++ (b ++ c))%string.
Proof. induction a as [|x a IH]; [reflexivity|]. cbn. rewrite IH. reflexivity. Qed.

Lemma new_key_nonempty (parent_key sep k : string) :
  parent_key <> ""%string ->
  new_key parent_key sep k = (parent_key ++ sep ++ k)%string /\
  new_key parent_key sep k <> ""%string.
Proof.
  destruct parent_key; [congruence|]. intros _. split; [reflexivity | discriminate].
Qed.

(** A key of the result comes from an entry of the dictionary. *)
Lemma flatten_dict_key_origin
      (d : list (string * pyobj V)) (parent_key sep k : string) :
  In k (map fst (flatten_value (Mapping d) parent_key sep)) ->
  exists k' v',
    In (k', v') d /\
    In k (map fst (flatten_value v' (new_key parent_key sep k') sep)).
Proof.
  change (flatten_value (Mapping d) parent_key sep) with (flatten_dict d parent_key sep).
  rewrite flatten_dict_items. intros Hin.
  apply (proj1 (proj2 (dict_of_items_keys _) k)) in Hin.
  rewrite flatten_items_flat_map in Hin.
  apply in_map_iff in Hin. destruct Hin as ([k0 x] & <- & Hin). cbn [fst].
  apply in_flat_map in Hin. destruct Hin as ([k' v'] & Hd & Hin). cbn [fst snd] in Hin.
  exists k', v'. split; [exact Hd|].
  apply in_map_iff. exists (k0, x). split; [reflexivity | exact Hin].
Qed.

Lemma flatten_value_prefixed (sep : string) (v : pyobj V) :
  forall key, key <> ""%string ->
  forall k, In k (map fst (flatten_value v key sep)) -> String.prefix key k = true.
Proof.
  induction v as [x|d IH] using pyobj_induction; intros key Hkey k Hin.
  - cbn in Hin. destruct Hin as [<-|[]]. apply prefix_refl.
  - apply (flatten_dict_key_origin d key sep k) in Hin.
    destruct Hin as (k' & v' & Hd & Hin).
    rewrite Forall_forall in IH. specialize (IH _ Hd). cbn [snd] in IH.
    destruct (new_key_nonempty key sep k' Hkey) as [E Hne].
    apply (prefix_trans key (new_key key sep k') k).
    + rewrite E. apply prefix_append.
    + apply (IH _ Hne). exact Hin.
Qed.

(** Under a parent key that is not empty, every key of the result starts
    with the parent key and the separator. *)
Theorem flatten_dict_keys_prefixed
        (d : list (string * pyobj V)) (parent_key sep : string) (k : string) :
  parent_key <> ""%string ->
  In k (map fst (flatten_dict d parent_key sep)) ->
  String.prefix (parent_key ++ sep) k = true.
Proof.
  intros Hkey Hin.
  apply flatten_dict_key_origin in Hin. destruct Hin as (k' & v' & Hd & Hin).
  destruct (new_key_nonempty parent_key sep k' Hkey) as [E Hne].
  apply (prefix_trans _ (new_key parent_key sep k') k).
  - rewrite E, <- append_assoc. apply prefix_append.
  - apply (flatten_value_prefixed sep v' _ Hne). exact Hin.
Qed.

End WithValues.

Lemma flatten_dict_distinct_paths_witness :
  flatten_dict
    [("optimizer"%string, Mapping [("name"%string, Leaf 1); ("lr"%string, Leaf 2)]);
     ("device"%string, Leaf 3)] "" "_" =
  [("optimizer_name"%string, 1); ("optimizer_lr"%string, 2); ("device"%string, 3)].
Proof.
  apply (@flatten_dict_distinct_paths nat
           [("optimizer"%string, Mapping [("name"%string, Leaf 1); ("lr"%string, Leaf 2)]);
            ("device"%string, Leaf 3)] "" "_").
  cbn. repeat constructor; cbn; intuition discriminate.
Defined.

Lemma flatten_dict_keys_prefixed_witness :
  String.prefix ("cfg" ++ "_") "cfg_optimizer_lr" = true.
Proof.
  apply (@flatten_dict_keys_prefixed nat
           [("optimizer"%string, Mapping [("name"%string, Leaf 1); ("lr"%string, Leaf 2)])]
           "cfg" "_" "cfg_optimizer_lr").
  - discriminate.
  - cbn. tauto.
Defined.

End FlattenFacts.

(** ** The key of the experiment tracker *)

Module KeyFacts.
Import Text.

Lemma rstrip_empty_all_space (s : pystr) :
  rstrip s = [] -> all_space s = true.
Proof.
  unfold all_space. induction s as [|c s IH]; [reflexivity|].
  cbn [rstrip forallb]. destruct (rstrip s) eqn:E.
  - destruct (is_space c); [intros _; rewrite IH; reflexivity | discriminate].
  - discriminate.
Qed.

(** [rstrip] cuts a text before a tail of whitespace, and what it keeps
    does not end with a whitespace. *)
Lemma rstrip_spec (s : pystr) :
  exists tail,
    s = rstrip s ++ tail /\
    all_space tail = true /\
    ends_with_space (rstrip s) = false.
Proof.
  induction s as [|c s (tail & Hs & Htail & Hend)].
  - exists []. repeat split.
  - cbn [rstrip]. destruct (rstrip s) as [|c' r'] eqn:E.
    + destruct (is_space c) eqn:Hc.
      * exists (c :: s). split; [reflexivity|]. split; [|reflexivity].
        unfold all_space. cbn [forallb]. rewrite Hc.
        apply rstrip_empty_all_space, E.
      * exists s. cbn in Hs. split; [reflexivity|].
        split; [rewrite Hs at 1; exact Htail|]. cbn. exact Hc.
    + exists tail. split; [cbn; rewrite Hs at 1; reflexivity|].
      split; [exact Htail|]. exact Hend.
Qed.

(** The key that [get_comet_api_key] returns is the first line of the
    key file cut before its trailing whitespace, the end of line
    included: the line is the key followed by characters that Python
    takes for whitespace only, and the key does not end with such a
    character. *)
Theorem get_comet_api_key_stripped {C : Train.Collaborators} (cfg : config) :
  exists tail,
    Train.readline (comet_api_key_file_path cfg) =
      Train.get_comet_api_key cfg ++ tail /\
    all_space tail = true /\
    ends_with_space (Train.get_comet_api_key cfg) = false.
Proof. unfold Train.get_comet_api_key. apply rstrip_spec. Qed.

(** A line that ends with a space, a no-break space (U+00A0) and the end
    of line, and one that ends with an em space (U+2003) and a next
    line (U+0085): the key is what comes before. *)
Example rstrip_unicode :
  rstrip (codepoints "key" ++ [32; 160; 10]%N) = codepoints "key" /\
  rstrip (codepoints "a b" ++ [8195; 133]%N) = codepoints "a b" /\
  rstrip (codepoints "key" ++ [8203]%N) = codepoints "key" ++ [8203]%N.
Proof. repeat split. Qed.

End KeyFacts.

(** ** More on the training step *)

Module StepMoreFacts.
Import Train TensorFacts StepFacts.

Section WithCollaborators.
Context {C : Collaborators}.

(** A batch without labels: the step resets the gradients, runs the
    forward pass, and raises ZeroDivisionError on the accuracy; no loss
    is computed and no parameter is updated. *)
Theorem training_step_empty_batch (toks : tokens) (optimizers : pyseq Optimizer)
        (w : world) (steps classes : nat) :
  0 < steps ->
  has_shape (step_outputs optimizers toks w) steps 0 classes ->
  training_step ([], toks) optimizers w =
  (Raise ZeroDivisionError,
   set_model true (zeroed_heap optimizers w)
     (set_log (log w ++ [EvModelTrain] ++ map EvZeroGrad (items optimizers) ++
               [EvForward true toks]) w)).
Proof.
  intros Hsteps Hshape.
  destruct (select_last_shape _ _ _ _ Hshape Hsteps) as (final & Hfinal & _ & Hlen & _).
  destruct final; [|discriminate Hlen].
  unfold training_step.
  erewrite bind_ok by reflexivity.
  erewrite bind_ok by apply for_each_zero_grad.
  erewrite bind_ok by reflexivity.
  cbn [model_training model_heap log set_model set_log].
  change (forward true _ toks) with (step_outputs optimizers toks w).
  erewrite bind_lift by exact Hfinal.
  erewrite bind_lift by reflexivity.
  erewrite bind_lift by reflexivity.
  erewrite bind_lift by reflexivity.
  erewrite bind_raise by reflexivity.
  unfold zeroed_heap. destruct w.
  cbn [model_training model_heap log set_model set_log
       train_dataset eval_dataset next_id draws].
  repeat rewrite <- app_assoc. reflexivity.
Qed.

End WithCollaborators.

Lemma training_step_empty_batch_witness :
  @training_step Samples.toy ([], []) Samples.toy_optimizers Samples.fresh_world =
  (Raise ZeroDivisionError,
   set_model true (zeroed_heap Samples.toy_optimizers Samples.fresh_world)
     (set_log (log Samples.fresh_world ++ [@EvModelTrain Samples.toy] ++
               map EvZeroGrad (items Samples.toy_optimizers) ++
               [@EvForward Samples.toy true []]) Samples.fresh_world)).
Proof.
  apply (@training_step_empty_batch Samples.toy [] Samples.toy_optimizers
           Samples.fresh_world 2 2).
  - lia.
  - split; [reflexivity|]. split; [reflexivity|]. repeat constructor.
Defined.

End StepMoreFacts.

(** ** More on the training loop *)

Module LoopMoreFacts.
Import Train TrainLog TensorFacts StepFacts LoopFacts.

Section WithCollaborators.
Context {C : Collaborators}.

Lemma evaluations_app (l1 l2 : list event) :
  evaluations (l1 ++ l2) = evaluations l1 + evaluations l2.
Proof. unfold evaluations. rewrite filter_app, length_app. reflexivity. Qed.

Lemma no_evaluation_in_step (labels : list Z) (toks : tokens)
      (optimizers : pyseq Optimizer) (w : world) :
  evaluations (step_events labels toks optimizers w) = 0.
Proof.
  unfold step_events. rewrite !evaluations_app.
  assert (Hz : forall l, evaluations (map EvZeroGrad l) = 0)
    by (induction l as [|o l IH]; [reflexivity | exact IH]).
  assert (Hs : forall l, evaluations (map EvStep l) = 0)
    by (induction l as [|o l IH]; [reflexivity | exact IH]).
  rewrite Hz, Hs. reflexivity.
Qed.

Lemma no_evaluation_in_metrics (results : list (string * metric)) (n epoch : Z) :
  evaluations (metric_events results n epoch) = 0.
Proof. induction results as [|mv results IH]; [reflexivity | exact IH]. Qed.

Lemma batch_loop_run (cfg : config) (optimizers : pyseq Optimizer)
        (evaluator : Evaluation) (epoch : Z) (batches : list (list Z * tokens))
        (idx n : Z) (w : world) :
  log_every_n_batches (training cfg) <> 0%Z ->
  eval_every_n_batches (training cfg) <> 0%Z ->
  Forall batch_well_shaped batches ->
  exists w',
    batch_loop cfg optimizers evaluator epoch idx batches n w =
      (Ok (fold_left (fun m b => (m + Z.of_nat (length (fst b)))%Z) batches n), w') /\
    train_report_steps (log w') =
      train_report_steps (log w) ++
      reports_due (log_every_n_batches (training cfg)) idx n batches /\
    evaluations (log w') =
      evaluations (log w) +
      multiples (eval_every_n_batches (training cfg)) idx (length batches).
Proof.
  intros HL HE Hshape. revert idx n w.
  induction Hshape as [|batch rest Hb _ IH]; intros idx n w.
  - exists w. split; [reflexivity|]. cbn. rewrite app_nil_r, Nat.add_0_r. split; reflexivity.
  - destruct batch as [labels toks].
    destruct Hb as (Hlabels & steps & classes & Hsteps & Hclasses & Hforward).
    cbn [fst snd] in *.
    destruct (training_step_run labels toks optimizers w steps classes
                Hlabels Hsteps Hclasses (Hforward _))
      as (final & _ & _ & _ & Hstep).
    destruct (batch_iteration cfg optimizers evaluator epoch idx (labels, toks) rest n
                _ _ _ _ HL HE Hstep)
      as (w2 & Hrun & Hlog).
    cbn [fst] in Hrun, Hlog.
    destruct (IH (idx + 1)%Z (n + Z.of_nat (length labels))%Z w2)
      as (w' & Hrest & Hreports & Hevals).
    exists w'. split; [rewrite Hrun, Hrest; reflexivity|].
    rewrite Hreports, Hevals, Hlog. cbn [log set_model set_log].
    cbn [reports_due multiples length fst].
    rewrite !train_report_steps_app, !evaluations_app,
      no_report_in_step, no_evaluation_in_step.
    destruct (idx mod log_every_n_batches (training cfg) =? 0)%Z;
      destruct (idx mod eval_every_n_batches (training cfg) =? 0)%Z;
      cbn [train_report_steps app];
      rewrite ?no_report_in_metrics, ?app_nil_r, <- ?app_assoc;
      (split; [reflexivity|]);
      unfold evaluations; cbn [filter is_eval_event length];
      fold (evaluations (metric_events (eval_results evaluator
              (set_model true (stepped_heap labels toks optimizers w)
                 (set_log (log w ++ step_events labels toks optimizers w) w)))
              (n + Z.of_nat (length labels)) epoch));
      rewrite ?no_evaluation_in_metrics; lia.
Qed.

(** The training reports are made at the batches whose index is a
    multiple of [log_every_n_batches], with the cumulative number of
    examples as step, and an evaluation is made at each batch whose
    index is a multiple of [eval_every_n_batches]; the loop returns the
    number of examples it was given plus those of its batches. *)
Theorem batch_loop_cadences (cfg : config) (optimizers : pyseq Optimizer)
        (evaluator : Evaluation) (epoch : Z) (batches : list (list Z * tokens))
        (idx n : Z) (w : world) :
  log_every_n_batches (training cfg) <> 0%Z ->
  eval_every_n_batches (training cfg) <> 0%Z ->
  Forall batch_well_shaped batches ->
  exists w',
    batch_loop cfg optimizers evaluator epoch idx batches n w =
      (Ok (fold_left (fun m b => (m + Z.of_nat (length (fst b)))%Z) batches n), w') /\
    train_report_steps (log w') =
      train_report_steps (log w) ++
      reports_due (log_every_n_batches (training cfg)) idx n batches /\
    evaluations (log w') =
      evaluations (log w) +
      multiples (eval_every_n_batches (training cfg)) idx (length batches).
Proof. exact (batch_loop_run cfg optimizers evaluator epoch batches idx n w). Qed.

(** With [log_every_n_batches] at 0 the loop raises ZeroDivisionError at
    its first batch, once the training step on it is made and before
    anything is reported. *)
Theorem batch_loop_log_every_zero (cfg : config) (optimizers : pyseq Optimizer)
        (evaluator : Evaluation) (epoch idx : Z) (batch : list Z * tokens)
        (rest : list (list Z * tokens)) (n : Z) (w w1 : world)
        (loss : lossval) (acc : Q) :
  log_every_n_batches (training cfg) = 0%Z ->
  training_step batch optimizers w = (Ok (loss, acc), w1) ->
  batch_loop cfg optimizers evaluator epoch idx (batch :: rest) n w =
  (Raise ZeroDivisionError, w1).
Proof.
  intros HL Hstep. cbn [batch_loop].
  erewrite bind_ok by exact Hstep.
  rewrite HL. reflexivity.
Qed.

(** With [eval_every_n_batches] at 0 and another reporting cadence, the
    loop raises ZeroDivisionError at its first batch, once the training
    step is made and its report, if due, is logged; no evaluation is
    made. *)
Theorem batch_loop_eval_every_zero (cfg : config) (optimizers : pyseq Optimizer)
        (evaluator : Evaluation) (epoch idx : Z) (batch : list Z * tokens)
        (rest : list (list Z * tokens)) (n : Z) (w w1 : world)
        (loss : lossval) (acc : Q) :
  log_every_n_batches (training cfg) <> 0%Z ->
  eval_every_n_batches (training cfg) = 0%Z ->
  training_step batch optimizers w = (Ok (loss, acc), w1) ->
  let n' := (n + Z.of_nat (length (fst batch)))%Z in
  batch_loop cfg optimizers evaluator epoch idx (batch :: rest) n w =
  (Raise ZeroDivisionError,
   set_log (log w1 ++
            if (idx mod log_every_n_batches (training cfg) =? 0)%Z
            then [EvPrintTrain epoch n' loss; EvLogTrainLoss loss n' epoch]
            else []) w1).
Proof.
  intros HL HE Hstep n'. cbn [batch_loop]. fold n'.
  erewrite bind_ok by exact Hstep.
  unfold mod_. apply Z.eqb_neq in HL. rewrite HL, HE.
  erewrite bind_lift by reflexivity.
  destruct (idx mod log_every_n_batches (training cfg) =? 0)%Z.
  - erewrite bind_ok by (erewrite bind_ok by reflexivity; reflexivity).
    cbn [Z.eqb]. erewrite bind_raise by reflexivity.
    destruct w1. cbn. rewrite <- app_assoc. reflexivity.
  - erewrite bind_ok by reflexivity.
    cbn [Z.eqb]. erewrite bind_raise by reflexivity.
    destruct w1. cbn. rewrite app_nil_r. reflexivity.
Qed.

Lemma concat_rows_of {A} (n : nat) (l cur : list A) :
  concat (rows_of n cur l) = cur ++ l.
Proof.
  revert cur. induction l as [|x l IH]; intros cur; cbn [rows_of].
  - destruct cur; cbn; rewrite ?app_nil_r; reflexivity.
  - destruct (length (cur ++ [x]) =? n); cbn [concat]; rewrite IH.
    + rewrite <- app_assoc. reflexivity.
    + rewrite <- app_assoc. reflexivity.
Qed.

Lemma count_of_batches (cfg : config) (chunks : list (list example)) (n : Z) :
  (forall rows, rows <> [] ->
     length (fst (collate cfg false rows)) = length rows /\
     batch_well_shaped (collate cfg false rows)) ->
  Forall (fun c => c <> []) chunks ->
  Forall batch_well_shaped (map (collate cfg false) chunks) /\
  fold_left (fun m b => (m + Z.of_nat (length (fst b)))%Z)
            (map (collate cfg false) chunks) n =
  (n + Z.of_nat (length (concat chunks)))%Z.
Proof.
  intros Hcollate Hne. revert n.
  induction Hne as [|c chunks Hc _ IH]; intros n.
  - split; [constructor|]. cbn. lia.
  - destruct (Hcollate c Hc) as [Hlen Hshape].
    destruct (IH (n + Z.of_nat (length c))%Z) as [Hall Hsum].
    split; [constructor; [exact Hshape | exact Hall]|].
    cbn [map fold_left concat]. rewrite Hlen, Hsum, length_app. lia.
Qed.

Lemma epoch_loop_total (cfg cfg' : config) (optimizers : pyseq Optimizer)
        (evaluator : Evaluation) (train_dataloader : DataLoader)
        (epochs : list Z) (n : Z) (w : world) :
  log_every_n_batches (training cfg) <> 0%Z ->
  eval_every_n_batches (training cfg) <> 0%Z ->
  dl_shuffle train_dataloader = true ->
  dl_drop_last train_dataloader = false ->
  dl_collate_fn train_dataloader = {| tp_config := cfg'; tp_return_text := false |} ->
  pipeline_well_shaped cfg' ->
  exists w',
    epoch_loop cfg optimizers evaluator train_dataloader epochs n w =
    (Ok (n + Z.of_nat (length epochs) *
             Z.of_nat (length (ds_examples (dl_dataset train_dataloader))))%Z, w').
Proof.
  intros HL HE Hshuffle Hdrop Hcollate [Hperm Hpipe].
  revert n w. induction epochs as [|epoch epochs IH]; intros n w.
  - exists w. cbn [epoch_loop length]. unfold ret. f_equal. f_equal. lia.
  - cbn [epoch_loop].
    assert (Hepoch : exists w1,
               run_epoch cfg optimizers evaluator train_dataloader epoch n w =
               (Ok (n + Z.of_nat (length (ds_examples (dl_dataset train_dataloader))))%Z,
                w1)).
    { unfold run_epoch.
      erewrite bind_ok by (apply iter_batches_shuffled; assumption).
      rewrite Hcollate. cbn [tp_config tp_return_text].
      match goal with
      | |- context [rows_of ?b [] ?l] =>
          destruct (count_of_batches cfg' (rows_of b [] l) n Hpipe
                      (rows_of_nonempty b l [])) as [Hshape Hsum];
          rewrite concat_rows_of in Hsum; cbn [app] in Hsum;
          rewrite (Permutation_length (Hperm _ _)) in Hsum
      end.
      match goal with
      | |- context [batch_loop cfg optimizers evaluator epoch 0 ?bs n ?w0] =>
          destruct (batch_loop_run cfg optimizers evaluator epoch bs 0 n w0
                      HL HE Hshape) as (w1 & Hrun & _)
      end.
      exists w1. rewrite Hrun, Hsum. reflexivity. }
    destruct Hepoch as (w1 & Hepoch).
    erewrite bind_ok by exact Hepoch.
    destruct (IH (n + Z.of_nat (length (ds_examples (dl_dataset train_dataloader))))%Z w1)
      as (w' & Hrest).
    exists w'. rewrite Hrest. f_equal. f_equal. cbn [length]. lia.
Qed.

(** Every epoch adds the size of the dataset to the number of examples:
    over a shuffling loader that keeps its last batch, the loop over the
    epochs returns the number it was given plus the number of epochs
    times the number of rows. *)
Theorem epoch_loop_count (cfg cfg' : config) (optimizers : pyseq Optimizer)
        (evaluator : Evaluation) (train_dataloader : DataLoader)
        (epochs : list Z) (n : Z) (w : world) :
  log_every_n_batches (training cfg) <> 0%Z ->
  eval_every_n_batches (training cfg) <> 0%Z ->
  dl_shuffle train_dataloader = true ->
  dl_drop_last train_dataloader = false ->
  dl_collate_fn train_dataloader = {| tp_config := cfg'; tp_return_text := false |} ->
  pipeline_well_shaped cfg' ->
  exists w',
    epoch_loop cfg optimizers evaluator train_dataloader epochs n w =
    (Ok (n + Z.of_nat (length epochs) *
             Z.of_nat (length (ds_examples (dl_dataset train_dataloader))))%Z, w').
Proof. exact (epoch_loop_total cfg cfg' optimizers evaluator train_dataloader epochs n w). Qed.

(** Whatever becomes of the set-up of a run, it logs no event of a
    training step, no report and no evaluation. *)
(** Whatever becomes of a call of a loader function, it logs no event
    of a training step, no report and no evaluation. *)
Lemma run_call_silent (c : loader_call) (w : world) :
  exists evs,
    log (snd (run_call c w)) = log w ++ evs /\
    existsb is_training_event evs = false /\
    train_report_steps evs = [] /\
    evaluations evs = 0.
Proof.
  destruct (LoaderFacts.run_call_world c w) as [Hw _]. cbv zeta in Hw. rewrite Hw.
  destruct c; cbn [split_of config_of].
  - destruct (train_dataset w).
    + exists []. rewrite app_nil_r. repeat split.
    + eexists. cbn [log set_train_dataset set_log set_next_id]. repeat split.
  - destruct (eval_dataset w).
    + exists []. rewrite app_nil_r. repeat split.
    + eexists. cbn [log set_eval_dataset set_log set_next_id]. repeat split.
Qed.

(** A call of [get_train_dataloader] under settings the loader accepts,
    over a dataset that has rows, cached or not. *)
Lemma get_train_dataloader_ok (cfg : config) (tp : TextPreprocessor) (w : world) :
  (0 <= n_train_workers (training cfg))%Z ->
  (0 < train_batch_size (training cfg))%Z ->
  train_rows cfg w <> [] ->
  exists d w',
    get_train_dataloader cfg tp w =
      (Ok {| dl_dataset := d; dl_batch_size := train_batch_size (training cfg);
             dl_shuffle := true; dl_drop_last := false;
             dl_num_workers := n_train_workers (training cfg);
             dl_collate_fn := tp |}, w') /\
    ds_examples d = train_rows cfg w.
Proof.
  intros Hw Hb Hrows. unfold train_rows in *. unfold get_train_dataloader.
  erewrite bind_ok by reflexivity.
  destruct (train_dataset w) as [d|].
  - erewrite bind_ok by reflexivity.
    unfold lift. rewrite LoopFacts.new_DataLoader_ok; [|lia|intros _; exact Hrows|lia].
    exists d, w. repeat split.
  - erewrite bind_ok by reflexivity.
    unfold lift.
    rewrite LoopFacts.new_DataLoader_ok; [|lia|intros _; exact Hrows|lia].
    do 2 eexists. repeat split.
Qed.

Lemma get_eval_dataloader_ok (cfg : config) (tp : TextPreprocessor) (w : world) :
  (0 <= n_eval_workers (evaluation cfg))%Z ->
  (0 < eval_batch_size (evaluation cfg))%Z ->
  exists dl w', get_eval_dataloader cfg tp w = (Ok dl, w').
Proof.
  intros Hw Hb. unfold get_eval_dataloader.
  erewrite bind_ok by reflexivity.
  destruct (eval_dataset w) as [d|].
  - erewrite bind_ok by reflexivity.
    unfold lift. rewrite LoopFacts.new_DataLoader_ok by (try lia; discriminate).
    do 2 eexists. reflexivity.
  - erewrite bind_ok by reflexivity.
    unfold lift. rewrite LoopFacts.new_DataLoader_ok by (try lia; discriminate).
    do 2 eexists. reflexivity.
Qed.

(** The set-up of a run succeeds under settings the loaders accept and
    over a training dataset that has rows, whether the datasets are
    cached or not; the training loader shuffles, keeps its last batch,
    and is over the cached training dataset when there is one; nothing
    of a training step, no report and no evaluation is logged. *)
Lemma setup_training_ok (cfg : config) (w : world) :
  loaders_accept cfg ->
  (0 < train_batch_size (training cfg))%Z ->
  train_rows cfg w <> [] ->
  exists train_dataloader eval_dataloader w' evs,
    setup_training cfg w =
      (Ok (fst (get_model (n_tokens cfg) cfg), train_dataloader, eval_dataloader), w') /\
    dl_shuffle train_dataloader = true /\
    dl_drop_last train_dataloader = false /\
    dl_batch_size train_dataloader = train_batch_size (training cfg) /\
    dl_collate_fn train_dataloader = {| tp_config := cfg; tp_return_text := false |} /\
    ds_examples (dl_dataset train_dataloader) = train_rows cfg w /\
    log w' = log w ++ evs /\
    existsb is_training_event evs = false /\
    train_report_steps evs = [] /\
    evaluations evs = 0.
Proof.
  intros (Htw & Hew & Heb) Htb Hrows.
  unfold setup_training.
  erewrite bind_ok by reflexivity.
  erewrite bind_ok by reflexivity.
  match goal with
  | |- context [bind (get_train_dataloader cfg ?tp) _ ?w0] =>
      destruct (get_train_dataloader_ok cfg tp w0 Htw Htb Hrows)
        as (d & w1 & Htrain & Hd);
      destruct (run_call_silent (CallTrain cfg tp) w0) as (evs1 & Hlog1 & Hq1 & Hr1 & He1);
      change (run_call (CallTrain cfg tp) w0)
        with (get_train_dataloader cfg tp w0) in Hlog1
  end.
  rewrite Htrain in Hlog1. cbn [snd log set_log] in Hlog1.
  erewrite bind_ok by exact Htrain.
  match goal with
  | |- context [bind (get_eval_dataloader cfg ?tp) _ ?w0] =>
      destruct (get_eval_dataloader_ok cfg tp w0 Hew Heb) as (edl & w2 & Heval);
      destruct (run_call_silent (CallEval cfg tp) w0) as (evs2 & Hlog2 & Hq2 & Hr2 & He2);
      change (run_call (CallEval cfg tp) w0)
        with (get_eval_dataloader cfg tp w0) in Hlog2
  end.
  rewrite Heval in Hlog2. cbn [snd] in Hlog2.
  erewrite bind_ok by exact Heval.
  destruct (get_model (n_tokens cfg) cfg) as [model h]. cbn [fst].
  erewrite bind_ok by reflexivity.
  do 4 eexists. split; [reflexivity|].
  cbn [dl_shuffle dl_drop_last dl_batch_size dl_collate_fn dl_dataset log set_model].
  repeat (split; [reflexivity|]). split; [exact Hd|].
  rewrite Hlog2, Hlog1.
  split; [rewrite <- !app_assoc; reflexivity|].
  split; [cbn [app existsb is_training_event orb];
          rewrite existsb_app, Hq1, Hq2; reflexivity|].
  split.
  - cbn [app train_report_steps]. rewrite train_report_steps_app, Hr1, Hr2. reflexivity.
  - rewrite !evaluations_app, He1, He2. reflexivity.
Qed.

(** Without an epoch to run, [training_epochs] being 0 or less, a run
    sets up and ends normally without a training step, a report or an
    evaluation, whatever the cadences, 0 included; the set-up needs
    settings the loaders accept, a training dataset that has rows, as
    the shuffling loader wants, and an optimizer that can be built from
    settings torch accepts. *)
Theorem normal_training_no_epoch (cfg : config) (w : world) :
  (training_epochs (training cfg) <= 0)%Z ->
  loaders_accept cfg ->
  (0 < train_batch_size (training cfg))%Z ->
  train_rows cfg w <> [] ->
  optimizer_buildable cfg ->
  exists w' evs,
    normal_training cfg w = (Ok tt, w') /\
    log w' = log w ++ evs /\
    existsb is_training_event evs = false /\
    train_report_steps evs = [] /\
    evaluations evs = 0.
Proof.
  intros Hepochs Hloaders Hbatch Hrows (Hname & Hset & Hdense).
  unfold normal_training.
  erewrite bind_ok by reflexivity.
  match goal with
  | |- context [bind (setup_training _) _ ?w0] =>
      destruct (setup_training_ok cfg w0 Hloaders Hbatch Hrows)
        as (tdl & edl & w1 & evs & Hsetup & _ & _ & _ & _ & _ & Hlog & Hno & Hrep & Hev)
  end.
  cbn [log set_log] in Hlog.
  erewrite bind_ok by exact Hsetup.
  cbv beta iota.
  erewrite bind_ok by reflexivity.
  erewrite bind_ok by reflexivity.
  erewrite bind_ok by reflexivity.
  erewrite bind_lift by (apply OptimFacts.get_optimizers_adam; assumption).
  unfold range. replace (Z.to_nat (training_epochs (training cfg))) with 0 by lia.
  cbn [seq map epoch_loop].
  erewrite bind_ok by reflexivity.
  exists (set_log (log w ++ [EvDevice (device cfg)] ++ evs ++
                   [EvSetName (experiment_name cfg); EvModelTrain;
                    EvToDevice (device cfg)])
                  (set_model true (model_heap w1) w1)),
         ([EvDevice (device cfg)] ++ evs ++
          [EvSetName (experiment_name cfg); EvModelTrain; EvToDevice (device cfg)]).
  split.
  { unfold ret. f_equal. destruct w1. cbn in Hlog. subst.
    cbn. rewrite <- !app_assoc. reflexivity. }
  split; [reflexivity|].
  split; [cbn [app existsb is_training_event orb]; rewrite existsb_app, Hno; reflexivity|].
  split.
  - cbn [app train_report_steps]. rewrite train_report_steps_app, Hrep. reflexivity.
  - rewrite !evaluations_app, Hev. reflexivity.
Qed.

(** Under settings the loaders accept, a training dataset that has
    rows, cadences other than 0, an optimizer that can be built from
    settings torch accepts and a pipeline that gives well-shaped
    batches, a run ends normally, whatever the number of epochs and the
    number of rows. *)
Theorem normal_training_completes (cfg : config) (w : world) :
  log_every_n_batches (training cfg) <> 0%Z ->
  eval_every_n_batches (training cfg) <> 0%Z ->
  (0 < train_batch_size (training cfg))%Z ->
  train_rows cfg w <> [] ->
  loaders_accept cfg -> optimizer_buildable cfg -> pipeline_well_shaped cfg ->
  exists w', normal_training cfg w = (Ok tt, w').
Proof.
  intros HL HE Hbatch Hrows Hloaders (Hname & Hset & Hdense) Hpipe.
  unfold normal_training.
  erewrite bind_ok by reflexivity.
  match goal with
  | |- context [bind (setup_training _) _ ?w0] =>
      destruct (setup_training_ok cfg w0 Hloaders Hbatch Hrows)
        as (tdl & edl & w1 & evs & Hsetup & Hshuffle & Hdrop & _ & Hcollate & _)
  end.
  erewrite bind_ok by exact Hsetup.
  cbv beta iota.
  erewrite bind_ok by reflexivity.
  erewrite bind_ok by reflexivity.
  erewrite bind_ok by reflexivity.
  erewrite bind_lift by (apply OptimFacts.get_optimizers_adam; assumption).
  match goal with
  | |- context [bind (epoch_loop cfg ?opts ?ev tdl ?epochs 0%Z) _ ?w0] =>
      destruct (epoch_loop_total cfg cfg opts ev tdl epochs 0%Z w0
                  HL HE Hshuffle Hdrop Hcollate Hpipe) as (w' & Hloop)
  end.
  erewrite bind_ok by exact Hloop.
  exists w'. reflexivity.
Qed.

(** A call of [get_train_dataloader] that fails on its batch size has
    built and cached the dataset all the same: the next call, under
    whatever configuration, builds nothing, and under settings the
    loader accepts it gets a loader over the dataset of the paths of
    the failed call, which has rows. *)
Theorem failed_loader_keeps_dataset (cfg cfg2 : config)
        (transformer transformer2 : TextPreprocessor) (w : world) :
  train_dataset w = None ->
  (train_batch_size (training cfg) <= 0)%Z ->
  read_csvs (get_datasets_paths cfg "train") <> [] ->
  (0 < train_batch_size (training cfg2))%Z ->
  (0 <= n_train_workers (training cfg2))%Z ->
  let w1 := snd (get_train_dataloader cfg transformer w) in
  let w2 := snd (get_train_dataloader cfg2 transformer2 w1) in
  fst (get_train_dataloader cfg transformer w) = Raise ValueError /\
  train_dataset w1 =
    Some {| ds_id := next_id w; ds_paths := get_datasets_paths cfg "train";
            ds_examples := read_csvs (get_datasets_paths cfg "train") |} /\
  exists dl,
    fst (get_train_dataloader cfg2 transformer2 w1) = Ok dl /\
    dl_dataset dl =
      {| ds_id := next_id w; ds_paths := get_datasets_paths cfg "train";
         ds_examples := read_csvs (get_datasets_paths cfg "train") |} /\
    log w2 = log w1.
Proof.
  intros Ht Hbad Hrows Hgood Hworkers.
  set (d := {| ds_id := next_id w; ds_paths := get_datasets_paths cfg "train";
               ds_examples := read_csvs (get_datasets_paths cfg "train") |}).
  assert (H1 : get_train_dataloader cfg transformer w =
               (Raise ValueError,
                set_train_dataset (Some d)
                  (set_log (log w ++ [EvCSVDatasetsMerger "train" d])
                           (set_next_id (S (next_id w)) w)))).
  { unfold get_train_dataloader.
    erewrite bind_ok by reflexivity. rewrite Ht.
    erewrite bind_ok by reflexivity.
    unfold lift, new_DataLoader.
    destruct (n_train_workers (training cfg) <? 0)%Z; [reflexivity|].
    destruct (true && _); [reflexivity|].
    replace (train_batch_size (training cfg) <=? 0)%Z with true
      by (symmetry; apply Z.leb_le; lia).
    reflexivity. }
  rewrite H1. cbn [fst snd].
  split; [reflexivity|].
  split; [reflexivity|].
  unfold get_train_dataloader.
  erewrite bind_ok by reflexivity.
  cbn [train_dataset set_train_dataset].
  erewrite bind_ok by reflexivity.
  unfold lift.
  rewrite LoopFacts.new_DataLoader_ok; [|lia|intros _; exact Hrows|lia].
  eexists. cbn [fst snd]. split; [reflexivity|]. split; reflexivity.
Qed.

End WithCollaborators.

Lemma toy_batch_well_shaped : @batch_well_shaped Samples.toy Samples.toy_batch.
Proof.
  split; [discriminate|]. exists 2, 2. split; [lia|]. split; [lia|].
  intros h. split; [reflexivity|]. split; [reflexivity|]. repeat constructor.
Qed.

Lemma batch_loop_cadences_witness :
  exists w',
    @batch_loop Samples.toy (MoreSamples.training_config 8 1 2 3)
                Samples.toy_optimizers Samples.toy_evaluator 0 0
                [Samples.toy_batch; Samples.toy_batch; Samples.toy_batch] 10
                Samples.fresh_world = (Ok 19%Z, w') /\
    train_report_steps (log w') = [13%Z; 19%Z] /\
    evaluations (log w') = 1.
Proof.
  destruct (@batch_loop_cadences Samples.toy (MoreSamples.training_config 8 1 2 3)
              Samples.toy_optimizers Samples.toy_evaluator 0
              [Samples.toy_batch; Samples.toy_batch; Samples.toy_batch] 0 10
              Samples.fresh_world)
    as (w' & Hrun & Hreports & Hevals).
  - discriminate.
  - discriminate.
  - repeat constructor; apply toy_batch_well_shaped.
  - exists w'. split; [exact Hrun|]. split; [exact Hreports | exact Hevals].
Defined.

Lemma batch_loop_log_every_zero_witness :
  exists w1,
    @batch_loop Samples.toy (MoreSamples.training_config 8 1 0 1)
                Samples.toy_optimizers Samples.toy_evaluator 0 0
                [Samples.toy_batch] 0 Samples.fresh_world =
    (Raise ZeroDivisionError, w1).
Proof.
  destruct MoreSamples.toy_step as [[[loss acc]|e] w1] eqn:Hstep; [|discriminate Hstep].
  exists w1.
  apply (@batch_loop_log_every_zero Samples.toy (MoreSamples.training_config 8 1 0 1)
           Samples.toy_optimizers Samples.toy_evaluator 0 0 Samples.toy_batch []
           0 Samples.fresh_world w1 loss acc).
  - reflexivity.
  - exact Hstep.
Defined.

Lemma batch_loop_eval_every_zero_witness :
  exists w2,
    @batch_loop Samples.toy (MoreSamples.training_config 8 1 1 0)
                Samples.toy_optimizers Samples.toy_evaluator 0 0
                [Samples.toy_batch] 0 Samples.fresh_world =
    (Raise ZeroDivisionError, w2).
Proof.
  destruct MoreSamples.toy_step as [[[loss acc]|e] w1] eqn:Hstep; [|discriminate Hstep].
  eexists.
  apply (@batch_loop_eval_every_zero Samples.toy (MoreSamples.training_config 8 1 1 0)
           Samples.toy_optimizers Samples.toy_evaluator 0 0 Samples.toy_batch []
           0 Samples.fresh_world w1 loss acc).
  - discriminate.
  - reflexivity.
  - exact Hstep.
Defined.

Example batch_loop_zero_cadences_toy :
  fst (@batch_loop Samples.toy (MoreSamples.training_config 8 1 0 1)
         Samples.toy_optimizers Samples.toy_evaluator 0 0
         [Samples.toy_batch] 0 Samples.fresh_world) = Raise ZeroDivisionError /\
  train_report_steps
    (log (snd (@batch_loop Samples.toy (MoreSamples.training_config 8 1 0 1)
                 Samples.toy_optimizers Samples.toy_evaluator 0 0
                 [Samples.toy_batch] 0 Samples.fresh_world))) = [] /\
  train_report_steps
    (log (snd (@batch_loop Samples.toy (MoreSamples.training_config 8 1 1 0)
                 Samples.toy_optimizers Samples.toy_evaluator 0 0
                 [Samples.toy_batch] 0 Samples.fresh_world))) = [3%Z] /\
  evaluations
    (log (snd (@batch_loop Samples.toy (MoreSamples.training_config 8 1 1 0)
                 Samples.toy_optimizers Samples.toy_evaluator 0 0
                 [Samples.toy_batch] 0 Samples.fresh_world))) = 0.
Proof. vm_compute. repeat split; reflexivity. Qed.

Lemma epoch_loop_count_witness :
  exists w',
    @epoch_loop Samples.toy (MoreSamples.training_config 8 3 2 3)
                Samples.toy_optimizers Samples.toy_evaluator Samples.toy_loader
                [0%Z; 1%Z; 2%Z] 0 Samples.fresh_world = (Ok 48%Z, w').
Proof.
  apply (@epoch_loop_count Samples.toy (MoreSamples.training_config 8 3 2 3)
           (Samples.sample_config "adam" "hyperopt" false)
           Samples.toy_optimizers Samples.toy_evaluator Samples.toy_loader
           [0%Z; 1%Z; 2%Z] 0 Samples.fresh_world).
  - discriminate.
  - discriminate.
  - reflexivity.
  - reflexivity.
  - reflexivity.
  - apply toy_pipeline.
Defined.

Lemma normal_training_no_epoch_witness :
  exists w' evs,
    @normal_training Samples.toy (MoreSamples.training_config 8 0 0 0)
                     Samples.fresh_world = (Ok tt, w') /\
    log w' = log Samples.fresh_world ++ evs /\
    existsb is_training_event evs = false /\
    train_report_steps evs = [] /\
    evaluations evs = 0.
Proof.
  apply (@normal_training_no_epoch Samples.toy (MoreSamples.training_config 8 0 0 0)
           Samples.fresh_world).
  - cbn. lia.
  - unfold loaders_accept. cbn. lia.
  - cbn. lia.
  - discriminate.
  - split; [reflexivity|].
    split; [apply OptimFacts.sample_settings_accepted | discriminate].
Defined.

Lemma normal_training_completes_witness :
  exists w',
    @normal_training Samples.toy (MoreSamples.training_config 5 3 2 3)
                     Samples.fresh_world = (Ok tt, w').
Proof.
  apply (@normal_training_completes Samples.toy (MoreSamples.training_config 5 3 2 3)
           Samples.fresh_world).
  - discriminate.
  - discriminate.
  - cbn. lia.
  - discriminate.
  - unfold loaders_accept. cbn. lia.
  - split; [reflexivity|].
    split; [apply OptimFacts.sample_settings_accepted | discriminate].
  - apply toy_pipeline.
Defined.

Example normal_training_three_epochs :
  train_report_steps
    (log (snd (@normal_training Samples.toy (MoreSamples.training_config 5 3 2 3)
                                Samples.fresh_world))) =
  [5; 15; 21; 31; 37; 47]%Z /\
  evaluations
    (log (snd (@normal_training Samples.toy (MoreSamples.training_config 5 3 2 3)
                                Samples.fresh_world))) = 6.
Proof. vm_compute. split; reflexivity. Qed.

Lemma failed_loader_keeps_dataset_witness :
  fst (@get_train_dataloader Samples.toy (MoreSamples.training_config 0 1 1 1)
         {| tp_config := MoreSamples.training_config 0 1 1 1; tp_return_text := false |}
         Samples.fresh_world) = Raise ValueError /\
  exists dl,
    fst (@get_train_dataloader Samples.toy (Samples.sample_config "sgd" "bohb" true)
           {| tp_config := Samples.sample_config "sgd" "bohb" true;
              tp_return_text := false |}
           (snd (@get_train_dataloader Samples.toy (MoreSamples.training_config 0 1 1 1)
                   {| tp_config := MoreSamples.training_config 0 1 1 1;
                      tp_return_text := false |}
                   Samples.fresh_world))) = Ok dl /\
    ds_paths (dl_dataset dl) = ["train.csv"%string].
Proof.
  destruct (@failed_loader_keeps_dataset Samples.toy
              (MoreSamples.training_config 0 1 1 1)
              (Samples.sample_config "sgd" "bohb" true)
              {| tp_config := MoreSamples.training_config 0 1 1 1; tp_return_text := false |}
              {| tp_config := Samples.sample_config "sgd" "bohb" true;
                 tp_return_text := false |}
              Samples.fresh_world)
    as (Hfail & _ & dl & Hok & Hd & _).
  - reflexivity.
  - cbn. lia.
  - discriminate.
  - cbn. lia.
  - cbn. lia.
  - split; [exact Hfail|]. exists dl. split; [exact Hok|].
    rewrite Hd. reflexivity.
Defined.

End LoopMoreFacts.

(** ** More on the search orchestrator *)

Module TuneMoreFacts.
Import Tune TuneLog Text TuneFacts.

Section WithRay.
Context {R : Ray}.




Lemma ends_with_slash_last (a : string) :
  a <> ""%string ->
  String.eqb (String.substring (String.length a - 1) 1 a) "/" = ends_with_slash a.
Proof.
  induction a as [|c r IH]; [congruence|]. intros _.
  destruct r as [|c' r'].
  - cbn. destruct (Ascii.eqb c "/"); reflexivity.
  - pose proof (IH ltac:(discriminate)) as IH'.
    cbn [String.length] in IH'. rewrite Nat.sub_succ, Nat.sub_0_r in IH'.
    change (String.eqb (String.substring (String.length r') 1 (String c' r')) "/" =
            ends_with_slash (String c' r')).
    exact IH'.
Qed.

(** The checkpoint of the search algorithm is the entry [hyperopt] of
    the experiment's directory: the directory followed by [hyperopt],
    with a separator in between exactly when the directory is not empty
    and does not end with one; it is never the directory itself.  Under
    an experiment name that is an absolute path the directory is that
    path, the working directory being dropped. *)
Theorem checkpoint_path_in_experiment_dir (cfg : config) :
  checkpoint_path cfg =
    (experiment_dir cfg ++
     (if (String.eqb (experiment_dir cfg) "" ||
          ends_with_slash (experiment_dir cfg))%bool
      then "" else "/") ++ "hyperopt")%string /\
  checkpoint_path cfg <> experiment_dir cfg /\
  (String.prefix "/" (experiment_name cfg) = true ->
   experiment_dir cfg = experiment_name cfg).
Proof.
  split; [|split].
  - unfold checkpoint_path. fold (experiment_dir cfg).
    unfold path_join at 1. change (String.prefix "/" "hyperopt") with false. cbv iota.
    destruct (String.eqb (experiment_dir cfg) "") eqn:E.
    + reflexivity.
    + apply String.eqb_neq in E. rewrite (ends_with_slash_last _ E).
      cbn [orb]. destruct (ends_with_slash (experiment_dir cfg)); reflexivity.
  - intros Heq. pose proof (experiment_dir_not_checkpoint cfg) as Hne.
    apply String.eqb_neq in Hne. congruence.
  - intros H. unfold experiment_dir, path_join. rewrite H. reflexivity.
Qed.

End WithRay.

Import Samples.

(** Under the three methods with trials that all complete, and with a
    trial that fails. *)
Example tune_training_outcomes_toy :
  fst (@tune_training MoreSamples.steady_ray (sample_config "adam" "bohb" false)
         MoreSamples.steady_dir) = Ok (Some [42]) /\
  fst (@tune_training MoreSamples.steady_ray (sample_config "adam" "hyperopt" false)
         MoreSamples.steady_dir) = Ok None /\
  fst (@tune_training MoreSamples.steady_ray (sample_config "adam" "no_search" false)
         MoreSamples.steady_dir) = Ok None /\
  fst (@tune_training toy_ray (sample_config "adam" "hyperopt" false) empty_dir) =
    Raise TuneError.
Proof. repeat split. Qed.

Example checkpoint_path_toy :
  checkpoint_path (sample_config "adam" "hyperopt" false) = "/tmp/work/exp/hyperopt"%string /\
  path_join (path_join "/tmp/work/" "exp/") "hyperopt" = "/tmp/work/exp/hyperopt"%string /\
  path_join (path_join "/tmp/work" "/abs/exp") "hyperopt" = "/abs/exp/hyperopt"%string /\
  path_join (path_join "" "") "hyperopt" = "hyperopt"%string.
Proof. repeat split. Qed.

End TuneMoreFacts.
